(** * DocFlow authentication pages: email one-time-code login and OAuth callback

    A shallow embedding of [src/app/auth/email/page.tsx] (the component
    [EmailLoginPage]) and of the callback page that follows it in the same
    source file (the component [CallbackContent]).

    Conventions of the embedding.
    - A JavaScript string is a Rocq [string]: the sequence of the bytes of its
      UTF-8 encoding.  For ASCII text (digits, percent escapes, parameter
      names) a byte is a character.
    - [null] and [undefined] are [None].
    - React state cells, refs, the browser's storages and the table of armed
      timers are fields of an explicit state record; an event handler is a
      computation in a state-and-exception monad over that record.
    - A call of the [authApi] service, whose code lives outside this file, is
      driven by a script of what the service did: which callbacks of the
      handler object it invoked, and what it returned or threw.
    - [saveAuthData], [toast] and [router.push] are recorded as effects and
      return normally.
    - [console.log], [console.warn] and [console.error] are not recorded. *)

From Stdlib Require Import String Ascii List ZArith Bool Arith Lia.
Import ListNotations.

#[local] Open Scope string_scope.
#[local] Open Scope list_scope.

(* ===================================================================== *)
(** * JavaScript values and built-ins used by the pages *)
(* ===================================================================== *)

Module JS.

(** Truthiness of a [string | null] value: [null] and the empty string are
    falsy, every other string is truthy. *)
Definition nonempty (s : string) : bool :=
  match s with
  | EmptyString => false
  | String _ _ => true
  end.

Definition truthy (v : option string) : bool :=
  match v with
  | Some s => nonempty s
  | None => false
  end.

(** [a || b] on [string | null] values. *)
Definition or_else (a b : option string) : option string :=
  if truthy a then a else b.

(** [v || d] where [d] is a string literal. *)
Definition or_default (v : option string) (d : string) : string :=
  match v with
  | Some s => if nonempty s then s else d
  | None => d
  end.

(** A value that was thrown, or handed to an [onError] callback:
    [instanceofError] answers [e instanceof Error], [message] is [e.message]. *)
Record Thrown : Type := mkThrown {
  instanceofError : bool;
  message : string
}.

(** The exception [decodeURIComponent] raises. *)
Definition URIError : Thrown := mkThrown true "URI malformed".

(** ** [String.prototype.includes] *)

Fixpoint startsWith (s p : string) : bool :=
  match p, s with
  | EmptyString, _ => true
  | String _ _, EmptyString => false
  | String b p', String a s' => Ascii.eqb a b && startsWith s' p'
  end.

Fixpoint includes (s sub : string) : bool :=
  startsWith s sub ||
  match s with
  | EmptyString => false
  | String _ s' => includes s' sub
  end.

(** ** [URLSearchParams.prototype.get]: the first value stored under a name *)

Fixpoint get (params : list (string * string)) (name : string) : option string :=
  match params with
  | [] => None
  | (k, v) :: rest => if String.eqb k name then Some v else get rest name
  end.

(** ** [decodeURIComponent]

    The algorithm Decode of ECMA-262 with an empty set of preserved
    characters.  Every [%] must start an escape [%XX] of two hexadecimal
    digits; an escaped octet below 0x80 stands for itself; an escaped octet
    that opens a multi-byte UTF-8 sequence must be followed by the escapes of
    its continuation octets and the whole must be well-formed UTF-8.  Any
    other input raises [URIError], which is [None] here. *)

Definition hexval (c : ascii) : option N :=
  let n := N_of_ascii c in
  if (48 <=? n)%N && (n <=? 57)%N then Some (n - 48)%N
  else if (65 <=? n)%N && (n <=? 70)%N then Some (n - 55)%N
  else if (97 <=? n)%N && (n <=? 102)%N then Some (n - 87)%N
  else None.

Inductive UriToken : Type :=
| Lit (c : ascii)
| Esc (octet : N).

(** First pass: split the text into literal characters and escapes. *)
Fixpoint uriTokens (s : string) : option (list UriToken) :=
  match s with
  | EmptyString => Some []
  | String c rest =>
      if Ascii.eqb c "%"%char then
        match rest with
        | String h (String l rest') =>
            match hexval h, hexval l, uriTokens rest' with
            | Some hv, Some lv, Some ts => Some (Esc (16 * hv + lv)%N :: ts)
            | _, _, _ => None
            end
        | _ => None
        end
      else
        match uriTokens rest with
        | Some ts => Some (Lit c :: ts)
        | None => None
        end
  end.

Definition inRange (lo hi b : N) : bool := ((lo <=? b) && (b <=? hi))%N.

Definition isCont (b : N) : bool := inRange 128 191 b.

(** Well-formed two-, three- and four-octet sequences (Unicode, table 3-7). *)
Definition wf2 (b1 b2 : N) : bool := inRange 194 223 b1 && isCont b2.

Definition wf3 (b1 b2 b3 : N) : bool :=
  ((b1 =? 224)%N && inRange 160 191 b2 && isCont b3)
  || (inRange 225 236 b1 && isCont b2 && isCont b3)
  || ((b1 =? 237)%N && inRange 128 159 b2 && isCont b3)
  || (inRange 238 239 b1 && isCont b2 && isCont b3).

Definition wf4 (b1 b2 b3 b4 : N) : bool :=
  ((b1 =? 240)%N && inRange 144 191 b2 && isCont b3 && isCont b4)
  || (inRange 241 243 b1 && isCont b2 && isCont b3 && isCont b4)
  || ((b1 =? 244)%N && inRange 128 143 b2 && isCont b3 && isCont b4).

Definition chr (b : N) : ascii := ascii_of_N b.

(** Second pass: rebuild the text, checking each escaped sequence. *)
Fixpoint uriAssemble (ts : list UriToken) : option string :=
  match ts with
  | [] => Some EmptyString
  | Lit c :: rest =>
      match uriAssemble rest with
      | Some r => Some (String c r)
      | None => None
      end
  | Esc b1 :: rest =>
      if (b1 <? 128)%N then
        match uriAssemble rest with
        | Some r => Some (String (chr b1) r)
        | None => None
        end
      else if inRange 192 223 b1 then
        match rest with
        | Esc b2 :: rest2 =>
            if wf2 b1 b2 then
              match uriAssemble rest2 with
              | Some r => Some (String (chr b1) (String (chr b2) r))
              | None => None
              end
            else None
        | _ => None
        end
      else if inRange 224 239 b1 then
        match rest with
        | Esc b2 :: Esc b3 :: rest3 =>
            if wf3 b1 b2 b3 then
              match uriAssemble rest3 with
              | Some r =>
                  Some (String (chr b1) (String (chr b2) (String (chr b3) r)))
              | None => None
              end
            else None
        | _ => None
        end
      else if inRange 240 247 b1 then
        match rest with
        | Esc b2 :: Esc b3 :: Esc b4 :: rest4 =>
            if wf4 b1 b2 b3 b4 then
              match uriAssemble rest4 with
              | Some r =>
                  Some (String (chr b1) (String (chr b2)
                         (String (chr b3) (String (chr b4) r))))
              | None => None
              end
            else None
        | _ => None
        end
      else None
  end.

Definition decodeURIComponent (s : string) : option string :=
  match uriTokens s with
  | Some ts => uriAssemble ts
  | None => None
  end.

(** ** [parseInt] with no radix argument

    Leading white space is skipped, then an optional sign, then an optional
    [0x] / [0X] prefix that selects base 16; the longest run of digits of the
    base is read as an integer, and no digit at all gives [NaN].  The result
    is a Number, that is a double: the integer that was read is rounded to the
    nearest double, a tie going to the even significand, and a magnitude of
    2^1024 or more after rounding is an infinity.  The sign is applied last,
    so that a negative sign before a zero gives the negative zero.  Every
    digit of the run is taken into account, as the engines do (ECMA-262 also
    lets an engine read the decimal digits after the twentieth as zeros). *)

(** The Numbers [parseInt] can return: [NaN], an infinity, or a double whose
    value is an integer, kept as its sign and its magnitude. *)
Inductive JSNumber : Type :=
| NaN
| Infinity (negative : bool)
| Finite (negative : bool) (magnitude : N).

(** The double nearest to a natural number; [None] when it is out of the
    range of the finite doubles.  A double has a significand of 53 bits: a
    number of more bits loses its low bits, rounded to nearest, ties to
    even. *)
Definition toDouble (n : N) : option N :=
  let bits := N.size n in
  if (bits <=? 53)%N then Some n
  else
    let e := (bits - 53)%N in
    let q := N.shiftr n e in
    let r := (n - N.shiftl q e)%N in
    let half := N.shiftl 1 (e - 1) in
    let q' := if (half <? r)%N || ((r =? half)%N && N.odd q)
              then (q + 1)%N else q in
    let v := N.shiftl q' e in
    if (N.shiftl 1 1024 <=? v)%N then None else Some v.

Definition ws1 (a : N) : bool :=
  inRange 9 13 a || (a =? 32)%N.

Definition ws2 (a b : N) : bool :=
  (a =? 194)%N && (b =? 160)%N.                       (* U+00A0 *)

Definition ws3 (a b c : N) : bool :=
  ((a =? 225)%N && (b =? 154)%N && (c =? 128)%N)      (* U+1680 *)
  || ((a =? 226)%N && (b =? 128)%N &&
      (inRange 128 138 c || inRange 168 169 c || (c =? 175)%N))
                                   (* U+2000..U+200A, U+2028, U+2029, U+202F *)
  || ((a =? 226)%N && (b =? 129)%N && (c =? 159)%N)   (* U+205F *)
  || ((a =? 227)%N && (b =? 128)%N && (c =? 128)%N)   (* U+3000 *)
  || ((a =? 239)%N && (b =? 187)%N && (c =? 191)%N).  (* U+FEFF *)

Fixpoint trimStart (s : string) : string :=
  match s with
  | EmptyString => s
  | String a r1 =>
      if ws1 (N_of_ascii a) then trimStart r1
      else
        match r1 with
        | EmptyString => s
        | String b r2 =>
            if ws2 (N_of_ascii a) (N_of_ascii b) then trimStart r2
            else
              match r2 with
              | EmptyString => s
              | String c r3 =>
                  if ws3 (N_of_ascii a) (N_of_ascii b) (N_of_ascii c)
                  then trimStart r3
                  else s
              end
        end
  end.

Definition digitval (radix : N) (c : ascii) : option N :=
  match hexval c with
  | Some d => if (d <? radix)%N then Some d else None
  | None => None
  end.

(** Value of the longest prefix of digits; [None] when that prefix is empty. *)
Fixpoint digitsPrefix (radix : N) (acc : option N) (s : string) : option N :=
  match s with
  | EmptyString => acc
  | String c rest =>
      match digitval radix c with
      | Some d =>
          digitsPrefix radix
            (Some (match acc with Some n => n * radix + d | None => d end)%N)
            rest
      | None => acc
      end
  end.

Definition parseInt (input : string) : JSNumber :=
  let s := trimStart input in
  let '(negative, s1) :=
    match s with
    | String c rest =>
        if Ascii.eqb c "-"%char then (true, rest)
        else if Ascii.eqb c "+"%char then (false, rest)
        else (false, s)
    | EmptyString => (false, s)
    end in
  let '(radix, s2) :=
    match s1 with
    | String z (String x rest) =>
        if Ascii.eqb z "0"%char && (Ascii.eqb x "x"%char || Ascii.eqb x "X"%char)
        then (16%N, rest) else (10%N, s1)
    | _ => (10%N, s1)
    end in
  match digitsPrefix radix None s2 with
  | None => NaN
  | Some mathInt =>
      match toDouble mathInt with
      | Some magnitude => Finite negative magnitude
      | None => Infinity negative
      end
  end.

End JS.

(* ===================================================================== *)
(** * Event handlers as computations: state and exceptions *)
(* ===================================================================== *)

(** The result of running a piece of handler code: it returns a value or it
    throws.  Whatever the code wrote to the state before throwing stays
    written, so the state is returned in both cases. *)
Inductive Res (A : Type) : Type :=
| Ret (a : A)
| Throw (e : JS.Thrown).

Arguments Ret {A} a.
Arguments Throw {A} e.

Definition Eff (S A : Type) : Type := S -> Res A * S.

Definition ret {S A : Type} (a : A) : Eff S A := fun s => (Ret a, s).

Definition throw {S A : Type} (e : JS.Thrown) : Eff S A := fun s => (Throw e, s).

Definition bind {S A B : Type} (m : Eff S A) (k : A -> Eff S B) : Eff S B :=
  fun s =>
    match m s with
    | (Ret a, s1) => k a s1
    | (Throw e, s1) => (Throw e, s1)
    end.

(** [try { body } catch (e) { handler e }] *)
Definition try_catch {S A : Type} (body : Eff S A) (handler : JS.Thrown -> Eff S A)
  : Eff S A :=
  fun s =>
    match body s with
    | (Ret a, s1) => (Ret a, s1)
    | (Throw e, s1) => handler e s1
    end.

Definition modify {S : Type} (f : S -> S) : Eff S unit := fun s => (Ret tt, f s).

Definition gets {S A : Type} (f : S -> A) : Eff S A := fun s => (Ret (f s), s).

(** The state a computation leaves behind. *)
Definition exec {S A : Type} (m : Eff S A) (s : S) : S := snd (m s).

(** A computation preserves [P] when it leaves a state satisfying [P]
    whenever it is started in one, whether it returns or throws. *)
Definition preserves {S : Type} (P : S -> Prop) {A : Type} (m : Eff S A) : Prop :=
  forall s, P s -> P (snd (m s)).

Declare Scope eff_scope.
Delimit Scope eff_scope with eff.

Notation "x <- m ;; k" := (bind m (fun x => k))
  (at level 61, m at next level, right associativity) : eff_scope.
Notation "m ;; k" := (bind m (fun _ => k))
  (at level 61, right associativity) : eff_scope.

(** Statement [if (c) { body }] with no [else]. *)
Definition when {S : Type} (c : bool) (body : Eff S unit) : Eff S unit :=
  if c then body else ret tt.

(** ** Calls of the [authApi] service

    The service receives an object of optional callbacks.  A run of the
    service is described by the callbacks it invoked, in order, and by what
    the awaited promise finally gave: a value, or an exception. *)

Inductive HandlerCall : Type :=
| OnError (error : JS.Thrown)
| Unauthorized
| Forbidden
| ServerError
| NetworkError
| Default.

Record ApiRun (R : Type) : Type := mkApiRun {
  invoked : list HandlerCall;
  outcome : Res R
}.

Arguments mkApiRun {R} invoked outcome.
Arguments invoked {R} a.
Arguments outcome {R} a.

(** A handler object: the body of each callback it defines. *)
Definition Handlers (S : Type) : Type := HandlerCall -> option (Eff S unit).

(** Runs the callbacks of [h] that the service invoked; a callback the object
    does not define is skipped. *)
Fixpoint runHandlers {S : Type} (h : Handlers S) (calls : list HandlerCall)
  : Eff S unit :=
  match calls with
  | [] => ret tt
  | c :: rest =>
      match h c with
      | Some body => (body ;; runHandlers h rest)%eff
      | None => runHandlers h rest
      end
  end.

(** [await authApi.method(..., handlers)] *)
Definition await {S R : Type} (h : Handlers S) (run : ApiRun R) : Eff S R :=
  (runHandlers h (invoked run) ;;
   match outcome run with
   | Ret r => ret r
   | Throw e => throw e
   end)%eff.

(** The shape [{ data, error }] that the service's promises resolve to. *)
Record ApiResult (D : Type) : Type := mkApiResult {
  data : option D;
  error : option string
}.

Arguments mkApiResult {D} data error.
Arguments data {D} a.
Arguments error {D} a.

(** What [saveAuthData] is given: the token, and the optional refresh token
    and lifetimes. *)
Record AuthData : Type := mkAuthData {
  token : string;
  refresh_token : option string;
  expires_in : option JS.JSNumber;
  refresh_expires_in : option JS.JSNumber;
  success : option bool
}.

(** The body [{ code, message, data }] of a response of the server. *)
Record Response (D : Type) : Type := mkResponse {
  resp_code : Z;
  resp_message : option string;
  resp_data : D
}.

Arguments mkResponse {D} resp_code resp_message resp_data.
Arguments resp_code {D} r.
Arguments resp_message {D} r.
Arguments resp_data {D} r.

(** The value [getCurrentUser] resolves to is [{ data: userResponse }]; the
    profile [userResponse.data], when there is one, is kept as the text
    [JSON.stringify] makes of it. *)
Record UserResponse : Type := mkUserResponse {
  profile : option string
}.

(** What the browser offers to the running page: whether [window] is defined,
    and whether a write to [localStorage] or a read of [sessionStorage]
    succeeds (either may throw, for instance when storage is disabled). *)
Record Browser : Type := mkBrowser {
  hasWindow : bool;
  localStorageWritable : bool;
  sessionStorageReadable : bool
}.

(** A browser in which every storage access succeeds. *)
Definition openBrowser : Browser := mkBrowser true true true.

(** The exception a storage access throws when it is refused. *)
Definition StorageError : JS.Thrown := JS.mkThrown true "The operation is insecure.".

(** A notification of the [sonner] toaster. *)
Inductive Toast : Type :=
| ToastSuccess (title : string) (description : string)
| ToastError (title : string).

(* ===================================================================== *)
(** * The email login page: component [EmailLoginPage] *)
(* ===================================================================== *)

Module EmailLogin.

Definition CODE_LENGTH : nat := 6.

Record EmailLoginFormData : Type := mkForm {
  email : string;
  code : string
}.

(** What the page does to the world outside its own state, in order. *)
Inductive Effect : Type :=
| Toasted (t : Toast)
| SendEmailCode (address : string)
| EmailCodeLogin (address otp : string)
| GetCurrentUser
| SaveAuthData (d : AuthData)
| SetTimeoutPush (ms : Z) (path : string).

(** The state of a mounted page.  [countdown], [isSubmitting] and
    [isSendingCode] are the [useState] cells, [timerRef] is the [useRef] cell,
    [form] holds the two registered fields.  [intervals] lists the handles of
    the intervals armed by [setInterval] and not yet cleared, oldest first;
    every one of them runs the countdown callback once per second.
    [nextTimerId] is the next handle [setInterval] will give out.
    [user_profile] is the entry of that name in [localStorage]. *)
Record Page : Type := mkPage {
  countdown : Z;
  isSubmitting : bool;
  isSendingCode : bool;
  timerRef : option nat;
  form : EmailLoginFormData;
  intervals : list nat;
  nextTimerId : nat;
  user_profile : option string;
  effects : list Effect
}.

Definition initial : Page :=
  mkPage 0 false false None (mkForm "" "") [] 1 None [].

Definition setCountdown (v : Z) (s : Page) : Page :=
  mkPage v (isSubmitting s) (isSendingCode s) (timerRef s) (form s)
         (intervals s) (nextTimerId s) (user_profile s) (effects s).

Definition setIsSubmitting (v : bool) (s : Page) : Page :=
  mkPage (countdown s) v (isSendingCode s) (timerRef s) (form s)
         (intervals s) (nextTimerId s) (user_profile s) (effects s).

Definition setIsSendingCode (v : bool) (s : Page) : Page :=
  mkPage (countdown s) (isSubmitting s) v (timerRef s) (form s)
         (intervals s) (nextTimerId s) (user_profile s) (effects s).

Definition setTimerRef (v : option nat) (s : Page) : Page :=
  mkPage (countdown s) (isSubmitting s) (isSendingCode s) v (form s)
         (intervals s) (nextTimerId s) (user_profile s) (effects s).

Definition setForm (v : EmailLoginFormData) (s : Page) : Page :=
  mkPage (countdown s) (isSubmitting s) (isSendingCode s) (timerRef s) v
         (intervals s) (nextTimerId s) (user_profile s) (effects s).

Definition setUserProfile (v : option string) (s : Page) : Page :=
  mkPage (countdown s) (isSubmitting s) (isSendingCode s) (timerRef s) (form s)
         (intervals s) (nextTimerId s) v (effects s).

Definition emit (e : Effect) (s : Page) : Page :=
  mkPage (countdown s) (isSubmitting s) (isSendingCode s) (timerRef s) (form s)
         (intervals s) (nextTimerId s) (user_profile s) (effects s ++ [e]).

(** [clearInterval(id)]: the handle is taken out of the table of armed
    intervals; clearing a handle that is not armed does nothing. *)
Definition clearInterval (id : nat) (s : Page) : Page :=
  mkPage (countdown s) (isSubmitting s) (isSendingCode s) (timerRef s) (form s)
         (filter (fun i => negb (Nat.eqb i id)) (intervals s))
         (nextTimerId s) (user_profile s) (effects s).

(** [setInterval(callback, 1000)]: a fresh handle is armed and returned. *)
Definition setInterval : Eff Page nat :=
  fun s =>
    let id := nextTimerId s in
    (Ret id,
     mkPage (countdown s) (isSubmitting s) (isSendingCode s) (timerRef s) (form s)
            (intervals s ++ [id]) (S id) (user_profile s) (effects s)).

Definition toast (t : Toast) : Eff Page unit := modify (emit (Toasted t)).

(** ** The validation schema [emailLoginSchema]

    Each field runs its checks in the order written; the message of the first
    check that fails is the error of the field.  The pattern behind zod's
    [.email()] belongs to the zod library and is the parameter [isEmail]. *)

Definition isDigit (c : ascii) : bool :=
  let n := N_of_ascii c in ((48 <=? n) && (n <=? 57))%N.

(** The regular expression [/^\d+$/]: one or more characters, all digits. *)
Fixpoint allDigits (s : string) : bool :=
  match s with
  | EmptyString => true
  | String c rest => isDigit c && allDigits rest
  end.

Definition matchesDigits (s : string) : bool := JS.nonempty s && allDigits s.

Section Schema.

Variable isEmail : string -> bool.

Definition emailError (v : string) : option string :=
  if (String.length v <? 1)%nat then Some "请输入邮箱地址"
  else if negb (isEmail v) then Some "请输入有效的邮箱地址"
  else if (100 <? String.length v)%nat then Some "邮箱地址过长"
  else None.

Definition codeError (v : string) : option string :=
  if (String.length v <? 1)%nat then Some "请输入验证码"
  else if negb (String.length v =? CODE_LENGTH)%nat
       then Some "验证码必须是6位数字"
  else if negb (matchesDigits v) then Some "验证码只能包含数字"
  else None.

(** [errors.email] and [errors.code] of the form state. *)
Record FieldErrors : Type := mkErrors {
  errors_email : option string;
  errors_code : option string
}.

Definition emailLoginSchema (f : EmailLoginFormData) : FieldErrors :=
  mkErrors (emailError (email f)) (codeError (code f)).

Definition noError (e : option string) : bool :=
  match e with
  | None => true
  | Some _ => false
  end.

(** [formState.isValid] *)
Definition isValid (f : EmailLoginFormData) : bool :=
  noError (errors_email (emailLoginSchema f))
  && noError (errors_code (emailLoginSchema f)).

End Schema.

(** ** Timer *)

Definition clearTimer : Eff Page unit :=
  fun s =>
    match timerRef s with
    | Some id => (Ret tt, setTimerRef None (clearInterval id s))
    | None => (Ret tt, s)
    end.

(** The function given to [setCountdown] by the interval callback: it returns
    the next value of the counter, and clears the timer when the counter
    reaches its end. *)
Definition countdownUpdater (prev : Z) : Eff Page Z :=
  if (prev <=? 1)%Z then (clearTimer ;; ret 0%Z)%eff
  else ret (prev - 1)%Z.

(** The callback armed by [startCountdown]. *)
Definition intervalCallback : Eff Page unit :=
  (prev <- gets countdown ;;
   next <- countdownUpdater prev ;;
   modify (setCountdown next))%eff.

Definition startCountdown : Eff Page unit :=
  (clearTimer ;;
   modify (setCountdown 60) ;;
   id <- setInterval ;;
   modify (setTimerRef (Some id)))%eff.

(** One second passes: every interval armed at the start of the second fires
    once, oldest first, unless an earlier callback of the same second has
    cleared it.  [ticks n] is [n] seconds in a row. *)
Fixpoint fire (ids : list nat) (s : Page) : Page :=
  match ids with
  | [] => s
  | id :: rest =>
      if existsb (Nat.eqb id) (intervals s)
      then fire rest (exec intervalCallback s)
      else fire rest s
  end.

Definition tick (s : Page) : Page := fire (intervals s) s.

Fixpoint ticks (n : nat) (s : Page) : Page :=
  match n with
  | O => s
  | S k => ticks k (tick s)
  end.

(** The gate of the spec's throttle: a code may be requested when no
    countdown is running. *)
Definition canRequest (s : Page) : bool := (countdown s =? 0)%Z.

(** ** The handler object given to [sendEmailCode] and [emailCodeLogin] *)

Definition errorHandler : Handlers Page :=
  fun c =>
    match c with
    | OnError _ => Some (toast (ToastError "请求失败，请稍后重试"))
    | Forbidden => Some (toast (ToastError "验证码错误或已失效"))
    | ServerError => Some (toast (ToastError "服务器错误，请稍后再试"))
    | NetworkError => Some (toast (ToastError "网络连接失败，请检查网络"))
    | Default => Some (toast (ToastError "未知错误"))
    | Unauthorized => None
    end.

(** The handler object given to [getCurrentUser] by [onSubmit]. *)
Definition profileHandlers : Handlers Page :=
  fun c =>
    match c with
    | OnError _ => Some (toast (ToastError "获取用户资料失败，但登录成功"))
    | Unauthorized => Some (toast (ToastError "用户认证失败"))
    | _ => None
    end.

Section Handlers.

Variable isEmail : string -> bool.
Variable browser : Browser.

(** ** [handleSendCode] *)
Definition handleSendCode (run : ApiRun (ApiResult (Response unit)))
  : Eff Page unit :=
  (watchedEmail <- gets (fun s => email (form s)) ;;
   let emailValid := noError (emailError isEmail watchedEmail) in
   if negb emailValid || negb (JS.nonempty watchedEmail) then ret tt
   else
     sending <- gets isSendingCode ;;
     remaining <- gets countdown ;;
     if sending || (0 <? remaining)%Z then ret tt
     else
       modify (setIsSendingCode true) ;;
       modify (emit (SendEmailCode watchedEmail)) ;;
       r <- await errorHandler run ;;
       if JS.truthy (error r) then modify (setIsSendingCode false)
       else
         match data r with
         | Some d =>
             if (resp_code d =? 201)%Z then
               toast (ToastSuccess "验证码已发送"
                        ("验证码已发送到 " ++ watchedEmail ++ "，请查收")) ;;
               startCountdown
             else toast (ToastError (JS.or_default (resp_message d) "发送验证码失败"))
         | None => toast (ToastError "发送验证码失败")
         end ;;
         modify (setIsSendingCode false))%eff.

(** [localStorage.setItem('user_profile', text)] *)
Definition storeProfile (text : string) : Eff Page unit :=
  if localStorageWritable browser then modify (setUserProfile (Some text))
  else throw StorageError.

(** ** [onSubmit] *)
Definition onSubmit (d : EmailLoginFormData)
    (login : ApiRun (ApiResult (Response AuthData)))
    (user : ApiRun (ApiResult UserResponse)) : Eff Page unit :=
  (busy <- gets isSubmitting ;;
   if busy then ret tt
   else
     modify (setIsSubmitting true) ;;
     modify (emit (EmailCodeLogin (email d) (code d))) ;;
     r <- await errorHandler login ;;
     if JS.truthy (error r) then modify (setIsSubmitting false)
     else
       match data r with
       | Some responseData =>
           if (resp_code responseData =? 201)%Z then
             toast (ToastSuccess "登录成功！" "正在获取用户资料...") ;;
             modify (emit (SaveAuthData (resp_data responseData))) ;;
             try_catch
               (modify (emit GetCurrentUser) ;;
                u <- await profileHandlers user ;;
                match data u with
                | Some userResponse =>
                    match profile userResponse with
                    | Some text => when (hasWindow browser) (storeProfile text)
                    | None => ret tt
                    end
                | None => ret tt
                end)
               (fun _ => toast (ToastError "获取用户资料失败，但登录成功")) ;;
             clearTimer ;;
             modify (emit (SetTimeoutPush 1000 "/"))
           else
             toast (ToastError (JS.or_default (resp_message responseData)
                                  "登录失败，请检查验证码是否正确"))
       | None => toast (ToastError "登录失败，请检查验证码是否正确")
       end ;;
       modify (setIsSubmitting false))%eff.

(** [handleSubmit(onSubmit)] of react-hook-form with the zod resolver: the
    submit event validates the whole form against the schema and calls
    [onSubmit] with the field values only when no field has an error;
    otherwise the errors are shown and nothing else happens. *)
Definition handleSubmit
    (onValid : EmailLoginFormData -> Eff Page unit) : Eff Page unit :=
  (f <- gets form ;;
   if isValid isEmail f then onValid f else ret tt)%eff.

(** ** [handleCodeChange]: [value.replace(/\D/g, '').slice(0, CODE_LENGTH)] *)

Fixpoint stripNonDigits (s : string) : string :=
  match s with
  | EmptyString => EmptyString
  | String c rest =>
      if isDigit c then String c (stripNonDigits rest) else stripNonDigits rest
  end.

Definition slice0 (n : nat) (s : string) : string := String.substring 0 n s.

Definition handleCodeChange (value : string) : Eff Page unit :=
  let value' := slice0 CODE_LENGTH (stripNonDigits value) in
  modify (fun s => setForm (mkForm (email (form s)) value') s).

(** The email field is registered without a handler of its own: what is typed
    is what is stored. *)
Definition handleEmailChange (value : string) : Eff Page unit :=
  modify (fun s => setForm (mkForm value (code (form s))) s).

(** ** Derived flags of the rendered buttons *)

Definition isSendCodeDisabled (s : Page) : bool :=
  negb (JS.nonempty (email (form s)))
  || negb (noError (emailError isEmail (email (form s))))
  || isSendingCode s
  || (0 <? countdown s)%Z.

Definition isLoginDisabled (s : Page) : bool :=
  negb (isValid isEmail (form s)) || isSubmitting s.

(** ** The page as a transition system

    What can happen to a mounted page: the user types in a field, presses
    the send button, submits the form, a second passes, or the page is
    unmounted (the cleanup of the effect calls [clearTimer]). *)
Inductive Event : Type :=
| TypeEmail (value : string)
| TypeCode (value : string)
| ClickSend (run : ApiRun (ApiResult (Response unit)))
| Submit (login : ApiRun (ApiResult (Response AuthData)))
         (user : ApiRun (ApiResult UserResponse))
| Tick
| Unmount.

Definition step (s : Page) (e : Event) : Page :=
  match e with
  | TypeEmail v => exec (handleEmailChange v) s
  | TypeCode v => exec (handleCodeChange v) s
  | ClickSend run => exec (handleSendCode run) s
  | Submit login user =>
      exec (handleSubmit (fun f => onSubmit f login user)) s
  | Tick => tick s
  | Unmount => exec clearTimer s
  end.

Definition run (events : list Event) : Page := fold_left step events initial.

Definition reachable (s : Page) : Prop := exists events, s = run events.

End Handlers.

(** ** Notions used to state the properties of the page *)

(** At most one interval is armed, it is the one [timerRef] holds, and the
    handles given out so far are below the next one. *)
Definition timer_inv (s : Page) : Prop :=
  intervals s = match timerRef s with
                | Some id => [id]
                | None => []
                end
  /\ forall id, In id (intervals s) -> id < nextTimerId s.

(** A countdown is running at [c]: one interval is armed and [timerRef]
    holds its handle. *)
Definition counting (c : Z) (id : nat) (s : Page) : Prop :=
  intervals s = [id] /\ timerRef s = Some id /\ countdown s = c.

(** No countdown is running. *)
Definition idle (s : Page) : Prop :=
  intervals s = [] /\ timerRef s = None /\ countdown s = 0%Z.

(** The page with [es] added at the end of its effects. *)
Definition appendEffects (es : list Effect) (s : Page) : Page :=
  mkPage (countdown s) (isSubmitting s) (isSendingCode s) (timerRef s) (form s)
         (intervals s) (nextTimerId s) (user_profile s) (effects s ++ es).

(** The notification each callback of [errorHandler] shows. *)
Definition categoryMessage (c : HandlerCall) : option string :=
  match c with
  | OnError _ => Some "请求失败，请稍后重试"
  | Forbidden => Some "验证码错误或已失效"
  | ServerError => Some "服务器错误，请稍后再试"
  | NetworkError => Some "网络连接失败，请检查网络"
  | Default => Some "未知错误"
  | Unauthorized => None
  end.

(** The notifications [errorHandler] shows for a list of invoked
    callbacks. *)
Fixpoint errorToasts (calls : list HandlerCall) : list Effect :=
  match calls with
  | [] => []
  | c :: rest =>
      match categoryMessage c with
      | Some m => Toasted (ToastError m) :: errorToasts rest
      | None => errorToasts rest
      end
  end.

(** ** Sample inputs *)

(** A stand-in for the pattern of zod's [.email()]. *)
Definition hasAtSign (v : string) : bool := JS.includes v "@".

(** The page after the user typed an address. *)
Definition addressTyped : Page :=
  run hasAtSign openBrowser [TypeEmail "ada@example.com"].

(** The page after the user typed an address and a code with a letter in
    it: the change handler drops the letter and four digits remain. *)
Definition shortCodeTyped : Page :=
  run hasAtSign openBrowser [TypeEmail "ada@example.com"; TypeCode "12a45"].

(** The server confirms that the code was sent. *)
Definition codeSent : ApiRun (ApiResult (Response unit)) :=
  mkApiRun [] (Ret (mkApiResult (Some (mkResponse 201 None tt)) None)).

(** The server refuses the login with 403: the request layer invokes the
    [forbidden] callback and resolves with an error. *)
Definition loginForbidden : ApiRun (ApiResult (Response AuthData)) :=
  mkApiRun [Forbidden] (Ret (mkApiResult None (Some "Forbidden"))).

(** The server answers the login with code 400 and a message of its own. *)
Definition loginRefused : ApiRun (ApiResult (Response AuthData)) :=
  mkApiRun []
    (Ret (mkApiResult
            (Some (mkResponse 400 (Some "验证码已过期")
                              (mkAuthData "" None None None None)))
            None)).

(** The login request fails and the request layer resolves with an error
    without invoking a callback of the handler object. *)
Definition loginUnanswered : ApiRun (ApiResult (Response AuthData)) :=
  mkApiRun [] (Ret (mkApiResult None (Some "Network Error"))).

(** A profile fetch that gives nothing. *)
Definition noProfile : ApiRun (ApiResult UserResponse) :=
  mkApiRun [] (Ret (mkApiResult None None)).

(** ** Further notions: requests, notifications, bounds *)

Definition isSendRequest (e : Effect) : bool :=
  match e with
  | SendEmailCode _ => true
  | _ => false
  end.

Definition isLoginRequest (e : Effect) : bool :=
  match e with
  | EmailCodeLogin _ _ => true
  | _ => false
  end.

Definition isErrorToast (e : Effect) : bool :=
  match e with
  | Toasted (ToastError _) => true
  | _ => false
  end.

(** The number of code requests, and of login requests, issued so far. *)
Definition sendRequests (s : Page) : nat :=
  List.length (filter isSendRequest (effects s)).

Definition loginRequests (s : Page) : nat :=
  List.length (filter isLoginRequest (effects s)).


(** A request is in flight and [n] code requests have been issued. *)
Definition sendBlocked (n : nat) (s : Page) : Prop :=
  isSendingCode s = true /\ sendRequests s = n.

(** A submission is in flight and [n] login requests have been issued. *)
Definition loginBlocked (n : nat) (s : Page) : Prop :=
  isSubmitting s = true /\ loginRequests s = n.

(** The countdown stays between 0 and 60, and is at least 1 while the
    interval is armed. *)
Definition countdown_inv (s : Page) : Prop :=
  timer_inv s
  /\ (0 <= countdown s <= 60)%Z
  /\ (forall id, timerRef s = Some id -> (1 <= countdown s)%Z).

(** The notifications the handler object of [onSubmit]'s profile fetch shows
    for a list of invoked callbacks. *)
Fixpoint profileToasts (calls : list HandlerCall) : list Effect :=
  match calls with
  | [] => []
  | OnError _ :: rest =>
      Toasted (ToastError "获取用户资料失败，但登录成功") :: profileToasts rest
  | Unauthorized :: rest =>
      Toasted (ToastError "用户认证失败") :: profileToasts rest
  | _ :: rest => profileToasts rest
  end.

(** The notification [handleSendCode] shows for a response that is not a
    success. *)
Definition sendFailureMessage (r : ApiResult (Response unit)) : string :=
  JS.or_default
    (match data r with
     | Some d => resp_message d
     | None => None
     end)
    "发送验证码失败".

(** What a code request that the server did not confirm adds to the effects
    of the page. *)
Definition failedSendCode (address : string)
    (run : ApiRun (ApiResult (Response unit)))
    (r : ApiResult (Response unit)) : list Effect :=
  SendEmailCode address
  :: errorToasts (invoked run)
  ++ (if JS.truthy (error r) then []
      else [Toasted (ToastError (sendFailureMessage r))]).

(** A login that the server confirms with code 201 and a session. *)
Definition loginConfirmed : ApiRun (ApiResult (Response AuthData)) :=
  mkApiRun []
    (Ret (mkApiResult
            (Some (mkResponse 201 None (mkAuthData "t0k" None None None None)))
            None)).

(** A request whose promise rejects. *)
Definition sendRejected : ApiRun (ApiResult (Response unit)) :=
  mkApiRun [] (Throw (JS.mkThrown true "Failed to fetch")).

Definition loginRejected : ApiRun (ApiResult (Response AuthData)) :=
  mkApiRun [] (Throw (JS.mkThrown true "Failed to fetch")).

(** The server answers the code request with code 429 and a message. *)
Definition codeRefused : ApiRun (ApiResult (Response unit)) :=
  mkApiRun []
    (Ret (mkApiResult (Some (mkResponse 429 (Some "too many requests") tt)) None)).

(** The page seven seconds after a confirmed code request. *)
Definition cooldownRunning : Page :=
  run hasAtSign openBrowser
      [TypeEmail "ada@example.com"; ClickSend codeSent;
       Tick; Tick; Tick; Tick; Tick; Tick; Tick].

(** The page with a valid form, ready to submit. *)
Definition formFilled : Page :=
  run hasAtSign openBrowser [TypeEmail "ada@example.com"; TypeCode "123456"].

End EmailLogin.

(* ===================================================================== *)
(** * The OAuth callback page: component [CallbackContent] *)
(* ===================================================================== *)

Module AuthCallback.

(** The [state] cell of the component. *)
Inductive FlowState : Type :=
| loading
| success
| error_.

(** What the component does to the world outside its storage cells, in
    order; [SetState] records each call of the setter of the [state] cell. *)
Inductive Effect : Type :=
| SaveAuthData (d : AuthData)
| GithubCallback (code : string)
| GetCurrentUser
| SetState (st : FlowState)
| SetTimeoutPush (ms : Z) (url : string).

(** [status], [state] and [mounted] are the [useState] cells; [auth_redirect]
    is the entry of that name in [sessionStorage] and [user_profile] the entry
    of that name in [localStorage]. *)
Record World : Type := mkWorld {
  status : string;
  state : FlowState;
  mounted : bool;
  auth_redirect : option string;
  user_profile : option string;
  effects : list Effect
}.

(** The component before its first effect, with whatever the storages hold. *)
Definition initial (stash profile : option string) : World :=
  mkWorld "处理中..." loading false stash profile [].

Definition setStatus (v : string) : Eff World unit :=
  modify (fun w => mkWorld v (state w) (mounted w) (auth_redirect w)
                           (user_profile w) (effects w)).

Definition emit (e : Effect) : Eff World unit :=
  modify (fun w => mkWorld (status w) (state w) (mounted w) (auth_redirect w)
                           (user_profile w) (effects w ++ [e])).

Definition setState (v : FlowState) : Eff World unit :=
  (modify (fun w => mkWorld (status w) v (mounted w) (auth_redirect w)
                            (user_profile w) (effects w)) ;;
   emit (SetState v))%eff.

Definition setMounted (v : bool) : Eff World unit :=
  modify (fun w => mkWorld (status w) (state w) v (auth_redirect w)
                           (user_profile w) (effects w)).

Definition setAuthRedirect (v : option string) : Eff World unit :=
  modify (fun w => mkWorld (status w) (state w) (mounted w) v
                           (user_profile w) (effects w)).

Definition setUserProfile (v : option string) : Eff World unit :=
  modify (fun w => mkWorld (status w) (state w) (mounted w) (auth_redirect w)
                           v (effects w)).

Definition decodeURIComponent (s : string) : Eff World string :=
  match JS.decodeURIComponent s with
  | Some v => ret v
  | None => throw JS.URIError
  end.

Section Component.

(** [useSearchParams()]: the parameters of the callback URL, or [null]. *)
Variable searchParams : option (list (string * string)).
Variable browser : Browser.

(** [searchParams?.get(name)] *)
Definition param (name : string) : option string :=
  match searchParams with
  | Some p => JS.get p name
  | None => None
  end.

(** [sessionStorage.getItem('auth_redirect')] *)
Definition getSavedRedirect : Eff World (option string) :=
  if sessionStorageReadable browser then gets auth_redirect
  else throw StorageError.

(** [localStorage.setItem('user_profile', text)] *)
Definition storeProfile (text : string) : Eff World unit :=
  if localStorageWritable browser then setUserProfile (Some text)
  else throw StorageError.

(** ** [getRedirectUrl]

    The function is a chain of three sources and a default; each source
    below gives [Some url] where the source's block executes [return url],
    and [None] where control falls through to the next block. *)

(** [const state = searchParams?.get('state'); if (state) { try { return
    decodeURIComponent(state) } catch { } }] *)
Definition fromState : Eff World (option string) :=
  match param "state" with
  | Some st =>
      if JS.nonempty st then
        try_catch (v <- decodeURIComponent st ;; ret (Some v))%eff
                  (fun _ => ret None)
      else ret None
  | None => ret None
  end.

(** [const redirectTo = searchParams?.get('redirect_to') ||
    searchParams?.get('returnTo'); if (redirectTo) { return
    decodeURIComponent(redirectTo) }] *)
Definition fromRedirectTo : Eff World (option string) :=
  match JS.or_else (param "redirect_to") (param "returnTo") with
  | Some redirectTo =>
      if JS.nonempty redirectTo then
        (v <- decodeURIComponent redirectTo ;; ret (Some v))%eff
      else ret None
  | None => ret None
  end.

(** [if (mounted && typeof window !== 'undefined') { try { ... } catch { } }] *)
Definition fromSessionStorage : Eff World (option string) :=
  (m <- gets mounted ;;
   if m && hasWindow browser then
     try_catch
       (savedRedirect <- getSavedRedirect ;;
        match savedRedirect with
        | Some v =>
            if JS.nonempty v then (setAuthRedirect None ;; ret (Some v))
            else ret None
        | None => ret None
        end)
       (fun _ => ret None)
   else ret None)%eff.

Definition getRedirectUrl : Eff World string :=
  (a <- fromState ;;
   match a with
   | Some url => ret url
   | None =>
       b <- fromRedirectTo ;;
       match b with
       | Some url => ret url
       | None =>
           c <- fromSessionStorage ;;
           match c with
           | Some url => ret url
           | None => ret "/"
           end
       end
   end)%eff.

(** ** [handleAuthSuccess] *)

(** The handler object given to [getCurrentUser]. *)
Definition profileHandlers : Handlers World :=
  fun c =>
    match c with
    | OnError _ => Some (setStatus "获取用户资料失败，但登录成功")
    | Unauthorized => Some (setStatus "用户认证失败" ;; setState error_)%eff
    | _ => None
    end.

(** The [try { ... } catch (error) { ... }] statement of [handleAuthSuccess]:
    the profile is fetched and cached; whatever is thrown ends in a status
    text. *)
Definition fetchProfile (user : ApiRun (ApiResult UserResponse))
  : Eff World unit :=
  try_catch
    (emit GetCurrentUser ;;
     u <- await profileHandlers user ;;
     match data u with
     | Some userResponse =>
         match profile userResponse with
         | Some text =>
             when (hasWindow browser)
                  (storeProfile text ;; setStatus "登录成功! 正在跳转...")
         | None => ret tt
         end
     | None => ret tt
     end)%eff
    (fun _ => setStatus "获取用户资料失败，但登录成功").

Definition handleAuthSuccess (authData : AuthData)
    (user : ApiRun (ApiResult UserResponse)) : Eff World unit :=
  (emit (SaveAuthData authData) ;;
   setStatus "登录成功! 正在获取用户资料..." ;;
   setState success ;;
   fetchProfile user ;;
   redirectUrl <- getRedirectUrl ;;
   emit (SetTimeoutPush 1000 redirectUrl))%eff.

(** ** [processAuth] *)

(** The handler object given to [githubCallback]. *)
Definition exchangeHandlers : Handlers World :=
  fun c =>
    match c with
    | OnError e =>
        Some (when (JS.instanceofError e)
                (if JS.includes (JS.message e) "超时"
                    || JS.includes (JS.message e) "timeout"
                 then setStatus "GitHub认证超时，请重试或检查网络连接"
                 else if JS.includes (JS.message e) "网络"
                 then setStatus "网络连接错误，请检查您的网络设置"
                 else setStatus ("认证失败: " ++ JS.message e)))
    | _ => None
    end.

(** The object built from the parameters when the URL carries a token. *)
Definition authDataOfParams (token : string) : AuthData :=
  mkAuthData token
    (if JS.truthy (param "refresh_token") then param "refresh_token" else None)
    (match param "expires_in" with
     | Some v => if JS.nonempty v then Some (JS.parseInt v) else None
     | None => None
     end)
    (match param "refresh_expires_in" with
     | Some v => if JS.nonempty v then Some (JS.parseInt v) else None
     | None => None
     end)
    (Some true).

(** The [catch (e)] block of [processAuth]. *)
Definition processAuthCatch (e : JS.Thrown) : Eff World unit :=
  ((if JS.instanceofError e then
      if JS.includes (JS.message e) "Failed to fetch"
         || JS.includes (JS.message e) "Network"
      then setStatus "网络连接失败，请检查网络设置后重试"
      else if JS.includes (JS.message e) "timeout"
              || JS.includes (JS.message e) "超时"
      then setStatus "请求超时，服务器响应较慢，请重试"
      else setStatus ("认证失败: " ++ JS.message e)
    else setStatus "登录过程中发生未知错误，请重试") ;;
   setState error_)%eff.

Definition processAuth
    (exchange : ApiRun (ApiResult (Response AuthData)))
    (user : ApiRun (ApiResult UserResponse)) : Eff World unit :=
  try_catch
    (match searchParams with
     | None => setStatus "URL参数获取失败" ;; setState error_
     | Some p =>
         (* a truthy string is a non-empty one, [String c t] *)
         match JS.get p "token" with
         | Some (String c t) =>
             handleAuthSuccess (authDataOfParams (String c t)) user
         | _ =>
             match JS.get p "code" with
             | Some (String c k) =>
                 setStatus "正在与GitHub服务器通信..." ;;
                 emit (GithubCallback (String c k)) ;;
                 r <- await exchangeHandlers exchange ;;
                 match error r with
                 | Some (String c' m) =>
                     setStatus ("登录失败: " ++ String c' m) ;;
                     setState error_
                 | _ =>
                     match data r with
                     | Some d =>
                         if (resp_code d =? 200)%Z
                         then handleAuthSuccess (resp_data d) user
                         else
                           setStatus ("登录失败: "
                                      ++ JS.or_default (resp_message d) "未知错误") ;;
                           setState error_
                     | None =>
                         setStatus "登录失败: 未知错误" ;;
                         setState error_
                     end
                 end
             | _ =>
                 setStatus "未收到授权码或Token，请重新尝试登录" ;;
                 setState error_
             end
         end
     end)%eff
    processAuthCatch.

(** ** The two effects of the component and the retry button *)

(** [useEffect(() => { setMounted(true) }, [])] *)
Definition mountEffect : Eff World unit := setMounted true.

(** [useEffect(() => { if (!mounted) return; ... processAuth() }, ...)] *)
Definition authEffect
    (exchange : ApiRun (ApiResult (Response AuthData)))
    (user : ApiRun (ApiResult UserResponse)) : Eff World unit :=
  (m <- gets mounted ;;
   if m then processAuth exchange user else ret tt)%eff.

(** The click handler of the retry button, up to the reload of the page. *)
Definition retryClick : Eff World unit :=
  (setState loading ;; setStatus "重新尝试认证...")%eff.

End Component.

(** ** The resolver as the specification words it

    A source is present when the parameter has a non-empty value that
    percent-decodes; the first present source, in the order [state],
    [redirect_to], [returnTo], stashed value, gives the target, and reading
    the stashed value erases it; with no source the target is the root. *)
Definition decoded (v : option string) : option string :=
  match v with
  | Some s => if JS.nonempty s then JS.decodeURIComponent s else None
  | None => None
  end.

Definition resolve_spec (params : list (string * string)) (stash : option string)
  : string * option string :=
  match decoded (JS.get params "state") with
  | Some url => (url, stash)
  | None =>
      match decoded (JS.get params "redirect_to") with
      | Some url => (url, stash)
      | None =>
          match decoded (JS.get params "returnTo") with
          | Some url => (url, stash)
          | None =>
              match stash with
              | Some (String c v) => (String c v, None)
              | _ => ("/", stash)
              end
          end
      end
  end.


(** ** Notions used to state the properties of the component *)

(** The [unauthorized] callback. *)
Definition isUnauthorized (c : HandlerCall) : bool :=
  match c with
  | Unauthorized => true
  | _ => false
  end.

(** The calls of [setState] the handler object makes: one per
    [unauthorized] signal. *)
Fixpoint profileSignals (calls : list HandlerCall) : list Effect :=
  match calls with
  | [] => []
  | Unauthorized :: rest => SetState error_ :: profileSignals rest
  | _ :: rest => profileSignals rest
  end.


(** The world [w] with the stashed redirect set to [v]. *)
Definition withStash (v : option string) (w : World) : World :=
  mkWorld (status w) (state w) (mounted w) v (user_profile w) (effects w).

(** [w] differs from [w0] in the stashed redirect at most. *)
Definition sameButStash (w0 w : World) : Prop :=
  w = withStash (auth_redirect w) w0.

(** The second source of the code decodes: either no redirect hint besides
    [state] is given, or the one the code picks percent-decodes. *)
Definition redirectToDecodes (params : list (string * string)) : bool :=
  match JS.or_else (JS.get params "redirect_to") (JS.get params "returnTo") with
  | Some r =>
      if JS.nonempty r
      then match JS.decodeURIComponent r with Some _ => true | None => false end
      else true
  | None => true
  end.

(** The world when the profile fetch of [handleAuthSuccess] has completed,
    given what is still open: the status text [st] and the cached profile
    [up]. *)
Definition afterProfile (authData : AuthData)
    (user : ApiRun (ApiResult UserResponse)) (st : string)
    (up : option string) (w : World) : World :=
  mkWorld st
          (if existsb isUnauthorized (invoked user) then error_ else success)
          (mounted w) (auth_redirect w) up
          (effects w
           ++ SaveAuthData authData :: SetState success :: GetCurrentUser
           :: profileSignals (invoked user)).

(** ** Sample inputs *)

(** The component after its mount effect, with a given stashed redirect. *)
Definition mountedWorld (stash : option string) : World :=
  exec mountEffect (initial stash None).


(** A string of [n] copies of a character. *)
Fixpoint replicate (n : nat) (c : ascii) : string :=
  match n with
  | O => EmptyString
  | S k => String c (replicate k c)
  end.

(** A run of the code exchange that is never consulted. *)
Definition idleExchange : ApiRun (ApiResult (Response AuthData)) :=
  mkApiRun [] (Ret (mkApiResult None None)).

(** A profile fetch that delivers a profile. *)
Definition profileDelivered : ApiRun (ApiResult UserResponse) :=
  mkApiRun [] (Ret (mkApiResult (Some (mkUserResponse (Some "{}"))) None)).

(** A profile fetch that the server answers with 401: the service invokes
    the [unauthorized] callback and resolves with an error. *)
Definition profileUnauthorized : ApiRun (ApiResult UserResponse) :=
  mkApiRun [Unauthorized] (Ret (mkApiResult None (Some "Unauthorized"))).

(** ** Further notions: the runs of [processAuth] *)

(** The world [w] with the status text set to [st]. *)
Definition withStatus (st : string) (w : World) : World :=
  mkWorld st (state w) (mounted w) (auth_redirect w) (user_profile w) (effects w).

Definition isSave (e : Effect) : bool :=
  match e with
  | SaveAuthData _ => true
  | _ => false
  end.

Definition isExchange (e : Effect) : bool :=
  match e with
  | GithubCallback _ => true
  | _ => false
  end.

Definition isProfileFetch (e : Effect) : bool :=
  match e with
  | GetCurrentUser => true
  | _ => false
  end.

Definition isNavigation (e : Effect) : bool :=
  match e with
  | SetTimeoutPush _ _ => true
  | _ => false
  end.

(** How many effects of a kind a list holds. *)
Definition count (kind : Effect -> bool) (es : list Effect) : nat :=
  List.length (filter kind es).

(** What may precede the saving of the session: nothing on the token path,
    the code exchange on the code path. *)
Definition sessionPrefix (pre : list Effect) : Prop :=
  pre = [] \/ exists code, pre = [GithubCallback code].

(** The state changes made during the profile fetch: only changes to
    error. *)
Definition errorSignals (signals : list Effect) : Prop :=
  forall e, In e signals -> e = SetState error_.

(** The shapes of what [processAuth] adds to the effects, with the state the
    component is left in: the callback is rejected before any request; the
    code exchange fails; a session is saved but an exception ends the run
    before the navigation; a session is saved and the navigation
    scheduled. *)
Inductive settled : list Effect -> FlowState -> Prop :=
| settled_rejected :
    settled [SetState error_] error_
| settled_exchange_failed (code : string) :
    settled [GithubCallback code; SetState error_] error_
| settled_thrown (pre : list Effect) (a : AuthData) (signals : list Effect) :
    sessionPrefix pre -> errorSignals signals ->
    settled (pre ++ SaveAuthData a :: SetState success :: GetCurrentUser
                 :: signals ++ [SetState error_])
            error_
| settled_navigate (pre : list Effect) (a : AuthData) (signals : list Effect)
                   (url : string) :
    sessionPrefix pre -> errorSignals signals ->
    settled (pre ++ SaveAuthData a :: SetState success :: GetCurrentUser
                 :: signals ++ [SetTimeoutPush 1000 url])
            (match signals with
             | [] => success
             | _ :: _ => error_
             end).

(** The status text [processAuth] shows for a code exchange that resolved
    without a session: the error of the result when there is one, else the
    message of the server's response, else a fixed text. *)
Definition exchangeFailureStatus (r : ApiResult (Response AuthData)) : string :=
  "登录失败: "
  ++ match error r with
     | Some (String c m) => String c m
     | _ =>
         JS.or_default
           (match data r with
            | Some d => resp_message d
            | None => None
            end)
           "未知错误"
     end.

(** The profile a run of [getCurrentUser] delivers, if any. *)
Definition deliveredProfile (user : ApiRun (ApiResult UserResponse))
  : option string :=
  match outcome user with
  | Ret u =>
      match data u with
      | Some userResponse => profile userResponse
      | None => None
      end
  | Throw _ => None
  end.

(** A code exchange the server answers with a session. *)
Definition exchangeConfirmed : ApiRun (ApiResult (Response AuthData)) :=
  mkApiRun []
    (Ret (mkApiResult
            (Some (mkResponse 200 None (mkAuthData "t0k" None None None None)))
            None)).

(** A code exchange the server refuses with 401: the service invokes the
    [onError] callback and resolves with an error. *)
Definition exchangeRefused : ApiRun (ApiResult (Response AuthData)) :=
  mkApiRun [OnError (JS.mkThrown true "Unauthorized")]
           (Ret (mkApiResult None (Some "Unauthorized"))).

(** A code exchange whose promise rejects. *)
Definition exchangeRejected : ApiRun (ApiResult (Response AuthData)) :=
  mkApiRun [] (Throw (JS.mkThrown true "Failed to fetch")).

End AuthCallback.

(* ===================================================================== *)
(** * Reasoning about handler code *)
(* ===================================================================== *)

Section Preservation.

Context {S : Type} (P : S -> Prop).

Lemma preserves_ret {A : Type} (a : A) : preserves P (ret a).
Proof. intros s H. exact H. Qed.

Lemma preserves_throw {A : Type} (e : JS.Thrown) : preserves P (@throw S A e).
Proof. intros s H. exact H. Qed.

Lemma preserves_gets {A : Type} (f : S -> A) : preserves P (gets f).
Proof. intros s H. exact H. Qed.

Lemma preserves_modify (f : S -> S) :
  (forall s, P s -> P (f s)) -> preserves P (modify f).
Proof. intros Hf s H. apply Hf, H. Qed.

Lemma preserves_bind {A B : Type} (m : Eff S A) (k : A -> Eff S B) :
  preserves P m -> (forall a, preserves P (k a)) -> preserves P (bind m k).
Proof.
  intros Hm Hk s H. unfold bind.
  specialize (Hm s H). destruct (m s) as [[a | e] s1]; simpl in *.
  - apply Hk, Hm.
  - exact Hm.
Qed.

Lemma preserves_try_catch {A : Type} (m : Eff S A) (h : JS.Thrown -> Eff S A) :
  preserves P m -> (forall e, preserves P (h e)) -> preserves P (try_catch m h).
Proof.
  intros Hm Hh s H. unfold try_catch.
  specialize (Hm s H). destruct (m s) as [[a | e] s1]; simpl in *.
  - exact Hm.
  - apply Hh, Hm.
Qed.

Lemma preserves_when (c : bool) (m : Eff S unit) :
  preserves P m -> preserves P (when c m).
Proof. intros Hm. destruct c; simpl; [exact Hm | apply preserves_ret]. Qed.

Lemma preserves_runHandlers (h : Handlers S) (calls : list HandlerCall) :
  (forall c body, h c = Some body -> preserves P body) ->
  preserves P (runHandlers h calls).
Proof.
  intros Hh. induction calls as [| c rest IH]; simpl.
  - apply preserves_ret.
  - destruct (h c) as [body |] eqn:E.
    + apply preserves_bind; [eapply Hh, E | intros _; exact IH].
    + exact IH.
Qed.

Lemma preserves_await {R : Type} (h : Handlers S) (run : ApiRun R) :
  (forall c body, h c = Some body -> preserves P body) ->
  preserves P (await h run).
Proof.
  intros Hh. unfold await. apply preserves_bind.
  - apply preserves_runHandlers, Hh.
  - intros _. destruct (outcome run); [apply preserves_ret | apply preserves_throw].
Qed.

End Preservation.

(* ===================================================================== *)
(** * Properties of the email login page *)
(* ===================================================================== *)

Module EmailLoginFacts.

Import EmailLogin.

(** ** The code field *)

Lemma allDigits_stripNonDigits (s : string) :
  allDigits (stripNonDigits s) = true.
Proof.
  induction s as [| c rest IH]; simpl.
  - reflexivity.
  - destruct (isDigit c) eqn:E; simpl.
    + rewrite E, IH. reflexivity.
    + exact IH.
Qed.

Lemma allDigits_slice0 (n : nat) (s : string) :
  allDigits s = true -> allDigits (slice0 n s) = true.
Proof.
  unfold slice0. revert s.
  induction n as [| n IH]; intros s H.
  - destruct s; reflexivity.
  - destruct s as [| c rest]; simpl in *.
    + reflexivity.
    + apply andb_true_iff in H as [Hc Hr].
      rewrite Hc. simpl. apply IH, Hr.
Qed.

Lemma length_slice0 (n : nat) (s : string) :
  String.length (slice0 n s) <= n.
Proof.
  unfold slice0. revert s.
  induction n as [| n IH]; intros s.
  - destruct s; simpl; lia.
  - destruct s as [| c rest]; simpl.
    + lia.
    + specialize (IH rest). lia.
Qed.

Lemma allDigits_chars (s : string) :
  allDigits s = true ->
  Forall (fun c => (48 <= N_of_ascii c <= 57)%N) (list_ascii_of_string s).
Proof.
  induction s as [| c rest IH]; simpl; intros H.
  - constructor.
  - apply andb_true_iff in H as [Hc Hr].
    constructor; [| apply IH, Hr].
    unfold isDigit in Hc. apply andb_true_iff in Hc as [H1 H2].
    apply N.leb_le in H1. apply N.leb_le in H2. lia.
Qed.

Lemma chars_stripNonDigits (s : string) :
  list_ascii_of_string (stripNonDigits s)
  = filter isDigit (list_ascii_of_string s).
Proof.
  induction s as [| c rest IH]; simpl.
  - reflexivity.
  - destruct (isDigit c); simpl; now rewrite IH.
Qed.

Lemma chars_slice0 (n : nat) (s : string) :
  list_ascii_of_string (slice0 n s) = firstn n (list_ascii_of_string s).
Proof.
  unfold slice0. revert s.
  induction n as [| n IH]; intros s.
  - destruct s; reflexivity.
  - destruct s as [| c rest]; simpl.
    + reflexivity.
    + now rewrite IH.
Qed.

Lemma length_chars (s : string) :
  List.length (list_ascii_of_string s) = String.length s.
Proof. induction s as [| c rest IH]; simpl; [reflexivity | now rewrite IH]. Qed.

(** C9. Whatever is typed into the code field, the value the change handler
    stores in the form is made of the digits of the typed text, in the order
    in which they were typed, up to the sixth: the characters that are not
    ASCII digits are dropped, the digits after the sixth are dropped, and
    every other typed digit is kept.  So the stored value holds ASCII digits
    only, its length is the number of typed digits or six, whichever is
    less, and a text of at most six digits is stored as typed.  The email
    field is not touched. *)
Theorem handleCodeChange_digits_at_most_six (value : string) (s : Page) :
  let s' := exec (handleCodeChange value) s in
  let stored := code (form s') in
  let digit (c : ascii) := (48 <=? N_of_ascii c)%N && (N_of_ascii c <=? 57)%N in
  let typedDigits := filter digit (list_ascii_of_string value) in
  list_ascii_of_string stored = firstn 6 typedDigits
  /\ Forall (fun c => (48 <= N_of_ascii c <= 57)%N) (list_ascii_of_string stored)
  /\ String.length stored <= 6
  /\ String.length stored = Nat.min 6 (List.length typedDigits)
  /\ (typedDigits = list_ascii_of_string value -> String.length value <= 6 ->
      stored = value)
  /\ email (form s') = email (form s).
Proof.
  intros s' stored digit typedDigits.
  assert (Hchars : list_ascii_of_string stored = firstn 6 typedDigits).
  { unfold stored, s', exec, handleCodeChange, modify; simpl.
    rewrite (chars_slice0 CODE_LENGTH), chars_stripNonDigits. reflexivity. }
  split; [exact Hchars |]. split; [| split; [| split; [| split]]].
  - apply allDigits_chars, allDigits_slice0, allDigits_stripNonDigits.
  - apply (length_slice0 CODE_LENGTH).
  - rewrite <- length_chars, Hchars. apply length_firstn.
  - intros Hall Hlen.
    rewrite <- (string_of_list_ascii_of_string stored), Hchars, Hall.
    rewrite firstn_all2 by (rewrite length_chars; exact Hlen).
    apply string_of_list_ascii_of_string.
  - reflexivity.
Qed.

(** ** The countdown timer *)

Lemma timer_inv_initial : timer_inv initial.
Proof. split; simpl; [reflexivity | tauto]. Qed.

Lemma timer_inv_setCountdown v s : timer_inv s -> timer_inv (setCountdown v s).
Proof. intros H. exact H. Qed.

Lemma timer_inv_setIsSubmitting v s : timer_inv s -> timer_inv (setIsSubmitting v s).
Proof. intros H. exact H. Qed.

Lemma timer_inv_setIsSendingCode v s : timer_inv s -> timer_inv (setIsSendingCode v s).
Proof. intros H. exact H. Qed.

Lemma timer_inv_setForm v s : timer_inv s -> timer_inv (setForm v s).
Proof. intros H. exact H. Qed.

Lemma timer_inv_setUserProfile v s : timer_inv s -> timer_inv (setUserProfile v s).
Proof. intros H. exact H. Qed.

Lemma timer_inv_emit e s : timer_inv s -> timer_inv (emit e s).
Proof. intros H. exact H. Qed.

Create HintDb timer.

#[local] Hint Resolve timer_inv_setCountdown timer_inv_setIsSubmitting
  timer_inv_setIsSendingCode timer_inv_setForm timer_inv_setUserProfile
  timer_inv_emit : timer.

Lemma clearTimer_result (s : Page) :
  timer_inv s ->
  clearTimer s =
    (Ret tt,
     mkPage (countdown s) (isSubmitting s) (isSendingCode s) None (form s)
            [] (nextTimerId s) (user_profile s) (effects s)).
Proof.
  intros [Hi _]. unfold clearTimer.
  destruct s as [cd sub snd tr f ivs nid up effs]; simpl in *.
  destruct tr as [id |]; subst ivs.
  - unfold setTimerRef, clearInterval; simpl.
    rewrite Nat.eqb_refl. reflexivity.
  - reflexivity.
Qed.

Lemma preserves_clearTimer : preserves timer_inv clearTimer.
Proof.
  intros s H. rewrite (clearTimer_result s H). simpl.
  split; simpl; [reflexivity | tauto].
Qed.

Lemma startCountdown_result (s : Page) :
  timer_inv s ->
  startCountdown s =
    (Ret tt,
     mkPage 60 (isSubmitting s) (isSendingCode s) (Some (nextTimerId s)) (form s)
            [nextTimerId s] (S (nextTimerId s)) (user_profile s) (effects s)).
Proof.
  intros H. unfold startCountdown, bind.
  rewrite (clearTimer_result s H). reflexivity.
Qed.

Lemma preserves_startCountdown : preserves timer_inv startCountdown.
Proof.
  intros s H. rewrite (startCountdown_result s H). simpl.
  split; simpl; [reflexivity |].
  intros id [<- | []]. lia.
Qed.

Lemma preserves_toast t : preserves timer_inv (toast t).
Proof. apply preserves_modify. auto with timer. Qed.

Lemma preserves_intervalCallback : preserves timer_inv intervalCallback.
Proof.
  unfold intervalCallback.
  apply preserves_bind; [apply preserves_gets |]. intros prev.
  apply preserves_bind.
  - unfold countdownUpdater. destruct (prev <=? 1)%Z.
    + apply preserves_bind; [apply preserves_clearTimer |].
      intros _. apply preserves_ret.
    + apply preserves_ret.
  - intros next. apply preserves_modify. auto with timer.
Qed.

Lemma timer_inv_fire (ids : list nat) (s : Page) :
  timer_inv s -> timer_inv (fire ids s).
Proof.
  revert s. induction ids as [| id rest IH]; intros s H; simpl.
  - exact H.
  - destruct (existsb (Nat.eqb id) (intervals s)).
    + apply IH. apply preserves_intervalCallback, H.
    + apply IH, H.
Qed.

Lemma timer_inv_tick (s : Page) : timer_inv s -> timer_inv (tick s).
Proof. apply timer_inv_fire. Qed.

Lemma timer_inv_ticks (n : nat) (s : Page) :
  timer_inv s -> timer_inv (ticks n s).
Proof.
  revert s. induction n as [| n IH]; intros s H; simpl.
  - exact H.
  - apply IH, timer_inv_tick, H.
Qed.

Lemma errorHandler_preserves c body :
  errorHandler c = Some body -> preserves timer_inv body.
Proof.
  destruct c; simpl; intros E; inversion E; subst; apply preserves_toast.
Qed.

Lemma profileHandlers_preserves c body :
  profileHandlers c = Some body -> preserves timer_inv body.
Proof.
  destruct c; simpl; intros E; inversion E; subst; apply preserves_toast.
Qed.

Section Reachable.

Variable isEmail : string -> bool.
Variable browser : Browser.

Lemma preserves_handleSendCode run :
  preserves timer_inv (handleSendCode isEmail run).
Proof.
  unfold handleSendCode.
  apply preserves_bind; [apply preserves_gets |]. intros watchedEmail.
  destruct (_ || _); [apply preserves_ret |].
  apply preserves_bind; [apply preserves_gets |]. intros sending.
  apply preserves_bind; [apply preserves_gets |]. intros remaining.
  destruct (_ || _); [apply preserves_ret |].
  apply preserves_bind; [apply preserves_modify; auto with timer |]. intros _.
  apply preserves_bind; [apply preserves_modify; auto with timer |]. intros _.
  apply preserves_bind; [apply preserves_await, errorHandler_preserves |].
  intros r.
  destruct (JS.truthy (error r)); [apply preserves_modify; auto with timer |].
  apply preserves_bind; [| intros _; apply preserves_modify; auto with timer].
  destruct (data r) as [d |]; [| apply preserves_toast].
  destruct (resp_code d =? 201)%Z; [| apply preserves_toast].
  apply preserves_bind; [apply preserves_toast |].
  intros _. apply preserves_startCountdown.
Qed.

Lemma preserves_storeProfile text :
  preserves timer_inv (storeProfile browser text).
Proof.
  unfold storeProfile. destruct (localStorageWritable browser).
  - apply preserves_modify. auto with timer.
  - apply preserves_throw.
Qed.

Lemma preserves_onSubmit d login user :
  preserves timer_inv (onSubmit browser d login user).
Proof.
  unfold onSubmit.
  apply preserves_bind; [apply preserves_gets |]. intros busy.
  destruct busy; [apply preserves_ret |].
  apply preserves_bind; [apply preserves_modify; auto with timer |]. intros _.
  apply preserves_bind; [apply preserves_modify; auto with timer |]. intros _.
  apply preserves_bind; [apply preserves_await, errorHandler_preserves |].
  intros r.
  destruct (JS.truthy (error r)); [apply preserves_modify; auto with timer |].
  apply preserves_bind; [| intros _; apply preserves_modify; auto with timer].
  destruct (data r) as [responseData |]; [| apply preserves_toast].
  destruct (resp_code responseData =? 201)%Z; [| apply preserves_toast].
  apply preserves_bind; [apply preserves_toast |]. intros _.
  apply preserves_bind; [apply preserves_modify; auto with timer |]. intros _.
  apply preserves_bind.
  - apply preserves_try_catch; [| intros _; apply preserves_toast].
    apply preserves_bind; [apply preserves_modify; auto with timer |]. intros _.
    apply preserves_bind; [apply preserves_await, profileHandlers_preserves |].
    intros u. destruct (data u) as [userResponse |]; [| apply preserves_ret].
    destruct (profile userResponse); [| apply preserves_ret].
    apply preserves_when, preserves_storeProfile.
  - intros _. apply preserves_bind; [apply preserves_clearTimer |].
    intros _. apply preserves_modify. auto with timer.
Qed.

Lemma timer_inv_step (s : Page) (e : Event) :
  timer_inv s -> timer_inv (step isEmail browser s e).
Proof.
  intros H. destruct e; simpl; unfold exec.
  - exact H.
  - exact H.
  - apply preserves_handleSendCode, H.
  - unfold handleSubmit.
    apply (preserves_bind timer_inv); [apply preserves_gets | | exact H].
    intros f. destruct (isValid isEmail f);
      [apply preserves_onSubmit | apply preserves_ret].
  - apply timer_inv_tick, H.
  - apply preserves_clearTimer, H.
Qed.

(** Every state the page can be in satisfies the timer invariant. *)
Lemma reachable_timer_inv (s : Page) :
  reachable isEmail browser s -> timer_inv s.
Proof.
  intros [events ->]. unfold run.
  generalize timer_inv_initial. generalize initial.
  induction events as [| e rest IH]; intros s0 H0; simpl.
  - exact H0.
  - apply IH, timer_inv_step, H0.
Qed.

End Reachable.

(** ** The countdown, second by second *)

Lemma tick_idle (s : Page) : intervals s = [] -> tick s = s.
Proof. intros H. unfold tick. rewrite H. reflexivity. Qed.

Lemma ticks_idle (n : nat) (s : Page) : intervals s = [] -> ticks n s = s.
Proof.
  induction n as [| n IH]; intros H; simpl.
  - reflexivity.
  - rewrite (tick_idle s H). apply IH, H.
Qed.

Lemma tick_counting (c : Z) (id : nat) (s : Page) :
  counting c id s -> (1 < c)%Z -> counting (c - 1) id (tick s).
Proof.
  intros (Hi & Hr & Hc) Hlt.
  destruct s as [cd sub snd tr f ivs nid up effs]; simpl in *; subst.
  unfold tick, fire, exec, intervalCallback, countdownUpdater, bind, gets;
    simpl.
  rewrite Nat.eqb_refl; simpl.
  destruct (c <=? 1)%Z eqn:E; [apply Z.leb_le in E; lia |].
  repeat split.
Qed.

Lemma tick_last (c : Z) (id : nat) (s : Page) :
  counting c id s -> (c <= 1)%Z -> idle (tick s).
Proof.
  intros (Hi & Hr & Hc) Hle.
  destruct s as [cd sub snd tr f ivs nid up effs]; simpl in *; subst.
  unfold tick, fire, exec, intervalCallback, countdownUpdater, bind, gets;
    simpl.
  rewrite Nat.eqb_refl; simpl.
  destruct (c <=? 1)%Z eqn:E; [| apply Z.leb_gt in E; lia].
  unfold clearTimer; simpl. repeat split.
  simpl. now rewrite Nat.eqb_refl.
Qed.

(** From a countdown at [c], [k] seconds later the countdown is at [c - k]
    while [k < c], and it has stopped at 0 from then on. *)
Lemma ticks_counting (k : nat) :
  forall (c : Z) (id : nat) (s : Page),
    counting c id s -> (1 <= c)%Z ->
    (Z.of_nat k < c -> counting (c - Z.of_nat k) id (ticks k s))%Z
    /\ (c <= Z.of_nat k -> idle (ticks k s))%Z.
Proof.
  induction k as [| k IH]; intros c id s H Hc.
  - simpl. split; [| lia]. intros _. now rewrite Z.sub_0_r.
  - cbn [ticks]. destruct (Z.eq_dec c 1) as [-> | Hne].
    + pose proof (tick_last 1 id s H ltac:(lia)) as Hidle.
      split; [lia |]. intros _.
      rewrite ticks_idle; [exact Hidle | apply Hidle].
    + pose proof (tick_counting c id s H ltac:(lia)) as Hnext.
      destruct (IH (c - 1)%Z id (tick s) Hnext ltac:(lia)) as [IH1 IH2].
      split.
      * intros Hlt.
        replace (c - Z.of_nat (S k))%Z with (c - 1 - Z.of_nat k)%Z by lia.
        apply IH1. lia.
      * intros Hge. apply IH2. lia.
Qed.

Lemma counting_countdown (k : nat) (c : Z) (id : nat) (s : Page) :
  counting c id s -> (1 <= c)%Z ->
  countdown (ticks k s) = Z.max 0 (c - Z.of_nat k)
  /\ intervals (ticks k s) = (if (Z.of_nat k <? c)%Z then [id] else [])
  /\ timerRef (ticks k s) = (if (Z.of_nat k <? c)%Z then Some id else None).
Proof.
  intros H Hc. destruct (ticks_counting k c id s H Hc) as [H1 H2].
  destruct (Z.of_nat k <? c)%Z eqn:E.
  - apply Z.ltb_lt in E. destruct (H1 E) as (Hi & Hr & Hcd).
    repeat split; try assumption. lia.
  - apply Z.ltb_ge in E. destruct (H2 E) as (Hi & Hr & Hcd).
    repeat split; try assumption. lia.
Qed.

Lemma startCountdown_counting (s : Page) :
  timer_inv s -> counting 60 (nextTimerId s) (exec startCountdown s).
Proof.
  intros H. unfold exec. rewrite (startCountdown_result s H).
  repeat split.
Qed.

(** ** What the handler objects do *)

Lemma appendEffects_nil (s : Page) : appendEffects [] s = s.
Proof. destruct s. unfold appendEffects; simpl. now rewrite app_nil_r. Qed.

Lemma appendEffects_app (es1 es2 : list Effect) (s : Page) :
  appendEffects es2 (appendEffects es1 s) = appendEffects (es1 ++ es2) s.
Proof. unfold appendEffects; simpl. now rewrite app_assoc. Qed.

Lemma runHandlers_errorHandler (calls : list HandlerCall) (s : Page) :
  runHandlers errorHandler calls s = (Ret tt, appendEffects (errorToasts calls) s).
Proof.
  revert s. induction calls as [| c rest IH]; intros s; simpl.
  - now rewrite appendEffects_nil.
  - destruct c; simpl; unfold bind, toast, modify; simpl;
      rewrite IH; try reflexivity;
      (change (emit ?e s) with (appendEffects [e] s);
       now rewrite appendEffects_app).
Qed.

Lemma await_errorHandler {R : Type} (run : ApiRun R) (s : Page) :
  await errorHandler run s =
    (outcome run, appendEffects (errorToasts (invoked run)) s).
Proof.
  unfold await, bind. rewrite runHandlers_errorHandler.
  destruct (outcome run); reflexivity.
Qed.

(** ** Requesting a code *)

Lemma emailError_None_nonempty (isEmail : string -> bool) (v : string) :
  emailError isEmail v = None -> JS.nonempty v = true.
Proof.
  unfold emailError. destruct v; simpl; [discriminate | reflexivity].
Qed.

(** The state after a request that the guards let through and the server
    confirmed with code 201. *)
Lemma handleSendCode_success (isEmail : string -> bool) (s : Page)
    (run : ApiRun (ApiResult (Response unit))) (r : ApiResult (Response unit))
    (d : Response unit) :
  timer_inv s ->
  emailError isEmail (email (form s)) = None ->
  isSendingCode s = false ->
  canRequest s = true ->
  outcome run = Ret r ->
  JS.truthy (error r) = false ->
  data r = Some d ->
  resp_code d = 201%Z ->
  exec (handleSendCode isEmail run) s =
    mkPage 60 (isSubmitting s) false (Some (nextTimerId s)) (form s)
           [nextTimerId s] (S (nextTimerId s)) (user_profile s)
           (effects s
            ++ [SendEmailCode (email (form s))]
            ++ errorToasts (invoked run)
            ++ [Toasted (ToastSuccess "验证码已发送"
                           ("验证码已发送到 " ++ email (form s) ++ "，请查收"))]).
Proof.
  intros Hinv Hemail Hsending Hcan Hout Herr Hdata Hcode.
  pose proof (emailError_None_nonempty _ _ Hemail) as Hne.
  apply Z.eqb_eq in Hcan.
  unfold exec, handleSendCode, bind at 1, gets at 1.
  rewrite Hemail, Hne. simpl.
  unfold bind at 1, gets at 1. unfold bind at 1, gets at 1.
  rewrite Hsending, Hcan. simpl.
  unfold bind at 1, modify at 1. unfold bind at 1, modify at 1.
  unfold bind at 1. rewrite await_errorHandler, Hout, Herr, Hdata, Hcode.
  simpl.
  unfold bind at 1. unfold bind at 1, toast, modify at 1.
  match goal with
  | |- context [startCountdown ?st] =>
      assert (Hst : timer_inv st) by exact Hinv;
      rewrite (startCountdown_result st Hst)
  end.
  unfold modify; simpl. rewrite <- !app_assoc. reflexivity.
Qed.

(** C5. A request for a code that the page issues for a well-formed email
    and that the server confirms with code 201 sets the countdown to 60, so
    that no further request is possible immediately afterwards; with no new
    start, the countdown loses one per second and a request becomes possible
    again exactly when 60 seconds have passed. *)
Theorem sendCode_success_starts_sixty_second_cooldown
    (isEmail : string -> bool) (browser : Browser) (s : Page)
    (run : ApiRun (ApiResult (Response unit))) (r : ApiResult (Response unit))
    (d : Response unit) :
  reachable isEmail browser s ->
  emailError isEmail (email (form s)) = None ->
  isSendingCode s = false ->
  canRequest s = true ->
  outcome run = Ret r ->
  JS.truthy (error r) = false ->
  data r = Some d ->
  resp_code d = 201%Z ->
  let s1 := exec (handleSendCode isEmail run) s in
  In (SendEmailCode (email (form s))) (effects s1)
  /\ countdown s1 = 60%Z
  /\ canRequest s1 = false
  /\ forall k : nat,
       countdown (ticks k s1) = Z.max 0 (60 - Z.of_nat k)
       /\ (canRequest (ticks k s1) = true <-> 60 <= k).
Proof.
  intros Hreach Hemail Hsending Hcan Hout Herr Hdata Hcode s1.
  pose proof (reachable_timer_inv _ _ _ Hreach) as Hinv.
  pose proof (handleSendCode_success isEmail s run r d
                Hinv Hemail Hsending Hcan Hout Herr Hdata Hcode) as Hs1.
  fold s1 in Hs1.
  assert (Hcount : counting 60 (nextTimerId s) s1)
    by (rewrite Hs1; repeat split).
  split; [| split; [| split]].
  - rewrite Hs1. simpl. apply in_or_app. right. left. reflexivity.
  - apply Hcount.
  - unfold canRequest. now rewrite (proj2 (proj2 Hcount)).
  - intros k.
    destruct (counting_countdown k 60 _ s1 Hcount ltac:(lia)) as (Hcd & _ & _).
    split; [exact Hcd |].
    unfold canRequest. rewrite Hcd. split.
    + intros H. apply Z.eqb_eq in H. lia.
    + intros H. apply Z.eqb_eq. lia.
Qed.

(** C6. Starting the countdown twice, however many seconds apart, leaves
    one armed interval: the second start clears the interval of the first,
    sets the countdown back to 60 and arms a new interval, the only one; from
    there the countdown loses exactly one per second, reaches 0 after 60
    seconds, and at that point no interval is armed any more. *)
Theorem startCountdown_twice_single_timer
    (isEmail : string -> bool) (browser : Browser) (s : Page) (j : nat) :
  reachable isEmail browser s ->
  let s1 := exec startCountdown s in
  let s2 := exec startCountdown (ticks j s1) in
  exists first latest : nat,
    timerRef s1 = Some first
    /\ ~ In first (intervals s2)
    /\ intervals s2 = [latest]
    /\ timerRef s2 = Some latest
    /\ countdown s2 = 60%Z
    /\ forall k : nat,
         countdown (ticks k s2) = Z.max 0 (60 - Z.of_nat k)
         /\ intervals (ticks k s2) = (if (k <? 60)%nat then [latest] else [])
         /\ timerRef (ticks k s2) = (if (k <? 60)%nat then Some latest else None).
Proof.
  intros Hreach s1 s2.
  pose proof (reachable_timer_inv _ _ _ Hreach) as Hinv.
  pose proof (startCountdown_counting s Hinv) as H1. fold s1 in H1.
  assert (Hinv1 : timer_inv s1) by (apply preserves_startCountdown, Hinv).
  pose proof (timer_inv_ticks j s1 Hinv1) as Hinvj.
  pose proof (startCountdown_counting _ Hinvj) as H2. fold s2 in H2.
  assert (Hfresh : nextTimerId s < nextTimerId (ticks j s1)).
  { destruct (counting_countdown j 60 _ s1 H1 ltac:(lia)) as (_ & Hi & _).
    assert (Hn1 : nextTimerId s1 = S (nextTimerId s)).
    { unfold s1, exec. now rewrite (startCountdown_result s Hinv). }
    assert (Hmono : forall n t, nextTimerId (ticks n t) = nextTimerId t).
    { clear. induction n as [| n IH]; intros t; simpl; [reflexivity |].
      rewrite IH. unfold tick. generalize (intervals t) as ids. intros ids.
      revert t. induction ids as [| i ids IHi]; intros t; simpl.
      - reflexivity.
      - destruct (existsb (Nat.eqb i) (intervals t)); rewrite IHi;
          [| reflexivity].
        unfold exec, intervalCallback, countdownUpdater, bind, gets, modify.
        destruct (countdown t <=? 1)%Z; simpl; [| reflexivity].
        unfold clearTimer. destruct (timerRef t); reflexivity. }
    rewrite Hmono, Hn1. lia. }
  exists (nextTimerId s), (nextTimerId (ticks j s1)).
  destruct H1 as (_ & Hr1 & _). destruct H2 as (Hi2 & Hr2 & Hc2).
  split; [exact Hr1 |]. split.
  { rewrite Hi2. intros [E | []]. lia. }
  split; [exact Hi2 |]. split; [exact Hr2 |]. split; [exact Hc2 |].
  intros k.
  destruct (counting_countdown k 60 _ s2 (conj Hi2 (conj Hr2 Hc2)) ltac:(lia))
    as (Hcd & Hi & Hr).
  assert (E : (Z.of_nat k <? 60)%Z = (k <? 60)%nat).
  { destruct (k <? 60)%nat eqn:Ek.
    - apply Nat.ltb_lt in Ek. apply Z.ltb_lt. lia.
    - apply Nat.ltb_ge in Ek. apply Z.ltb_ge. lia. }
  rewrite E in Hi, Hr. auto.
Qed.

(** ** Submitting the form *)

Lemma codeError_None (v : string) :
  codeError v = None <-> String.length v = 6 /\ allDigits v = true.
Proof.
  unfold codeError, matchesDigits, CODE_LENGTH. split.
  - intros H.
    destruct (String.length v <? 1)%nat; [discriminate |].
    destruct (String.length v =? 6)%nat eqn:El; simpl in H; [| discriminate].
    apply Nat.eqb_eq in El.
    destruct (JS.nonempty v && allDigits v) eqn:Ed; simpl in H; [| discriminate].
    apply andb_true_iff in Ed. tauto.
  - intros [Hl Hd]. rewrite Hl, Hd. simpl.
    destruct v; [discriminate | reflexivity].
Qed.

Lemma nonDigit_not_allDigits (v : string) :
  Exists (fun c => isDigit c = false) (list_ascii_of_string v) ->
  allDigits v = false.
Proof.
  induction v as [| c rest IH]; simpl; intros H.
  - inversion H.
  - inversion H as [x l Hc | x l Hr]; subst.
    + now rewrite Hc.
    + rewrite (IH Hr). apply andb_false_r.
Qed.

(** C7. When the code field holds a character that is not a digit, or is
    not exactly six characters long, or the email field fails its validation,
    the submit event leaves the page as it was: [onSubmit] is not run and no
    login request is issued. *)
Theorem submit_blocked_when_form_invalid
    (isEmail : string -> bool) (browser : Browser) (s : Page)
    (login : ApiRun (ApiResult (Response AuthData)))
    (user : ApiRun (ApiResult UserResponse)) :
  Exists (fun c => isDigit c = false) (list_ascii_of_string (code (form s)))
  \/ String.length (code (form s)) <> 6
  \/ emailError isEmail (email (form s)) <> None ->
  let s' := step isEmail browser s (Submit login user) in
  s' = s
  /\ forall address otp,
       In (EmailCodeLogin address otp) (effects s') ->
       In (EmailCodeLogin address otp) (effects s).
Proof.
  intros H s'.
  assert (Hs : s' = s).
  { unfold s', step, exec, handleSubmit, bind, gets.
    assert (Hv : isValid isEmail (form s) = false).
    { unfold isValid, emailLoginSchema; simpl.
      destruct H as [Hnd | [Hlen | Hemail]].
      - destruct (codeError (code (form s))) eqn:E;
          [apply andb_false_r |].
        apply codeError_None in E as [_ Hd].
        rewrite (nonDigit_not_allDigits _ Hnd) in Hd. discriminate.
      - destruct (codeError (code (form s))) eqn:E;
          [apply andb_false_r |].
        apply codeError_None in E as [Hl _]. contradiction.
      - destruct (emailError isEmail (email (form s)));
          [reflexivity | contradiction]. }
    rewrite Hv. reflexivity. }
  split; [exact Hs |]. rewrite Hs. auto.
Qed.

Lemma errorToasts_spec (calls : list HandlerCall) (e : Effect) :
  In e (errorToasts calls) <->
  exists c m, In c calls /\ categoryMessage c = Some m
              /\ e = Toasted (ToastError m).
Proof.
  induction calls as [| c rest IH]; simpl.
  - split; [tauto | intros (c & m & [] & _)].
  - destruct (categoryMessage c) as [m |] eqn:E; simpl; rewrite IH; split.
    + intros [<- | (c' & m' & Hin & Hm & He)].
      * exists c, m. auto.
      * exists c', m'. auto.
    + intros (c' & m' & [<- | Hin] & Hm & He).
      * left. congruence.
      * right. exists c', m'. auto.
    + intros (c' & m' & Hin & Hm & He). exists c', m'. auto.
    + intros (c' & m' & [<- | Hin] & Hm & He).
      * congruence.
      * exists c', m'. auto.
Qed.

(** C8, as the code has it.  A submission whose request resolves with an
    error, or with a response that does not carry code 201, saves no session
    and schedules no navigation; the submitting flag is released and the
    fields keep their values, so that the form can be submitted again.  What
    is shown depends on the kind of failure.  For a response of the server
    [onSubmit] shows one error notification: the message of the server when
    it sent a non-empty one, the fixed failure text otherwise.  For a request
    resolved with an error [onSubmit] shows nothing of its own.  In both
    cases the callbacks of [errorHandler] that the request layer invoked have
    each shown their fixed message before, and nothing else is shown. *)
Theorem onSubmit_failure_keeps_page_retryable
    (browser : Browser) (s : Page) (d : EmailLoginFormData)
    (login : ApiRun (ApiResult (Response AuthData)))
    (user : ApiRun (ApiResult UserResponse))
    (r : ApiResult (Response AuthData)) :
  isSubmitting s = false ->
  outcome login = Ret r ->
  JS.truthy (error r) = true
  \/ (forall responseData, data r = Some responseData ->
                           resp_code responseData <> 201%Z) ->
  let s' := exec (onSubmit browser d login user) s in
  exists own,
    let added :=
      EmailCodeLogin (email d) (code d) :: errorToasts (invoked login) ++ own in
    s' = appendEffects added s
    /\ isSubmitting s' = false
    /\ form s' = form s
    /\ (forall a, ~ In (SaveAuthData a) added)
    /\ (forall ms path, ~ In (SetTimeoutPush ms path) added)
    /\ (JS.truthy (error r) = true -> own = [])
    /\ (JS.truthy (error r) = false ->
        exists msg,
          own = [Toasted (ToastError msg)]
          /\ (forall responseData m,
                data r = Some responseData ->
                resp_message responseData = Some m -> m <> EmptyString ->
                msg = m)
          /\ ((forall responseData m,
                 data r = Some responseData ->
                 resp_message responseData = Some m -> m = EmptyString) ->
              msg = "登录失败，请检查验证码是否正确")).
Proof.
  intros Hbusy Hout Hfail s'.
  assert (Hown : exists own,
            s' = appendEffects
                   (EmailCodeLogin (email d) (code d)
                    :: errorToasts (invoked login) ++ own) s
            /\ (JS.truthy (error r) = true -> own = [])
            /\ (JS.truthy (error r) = false ->
                exists msg,
                  own = [Toasted (ToastError msg)]
                  /\ (forall responseData m,
                        data r = Some responseData ->
                        resp_message responseData = Some m -> m <> EmptyString ->
                        msg = m)
                  /\ ((forall responseData m,
                         data r = Some responseData ->
                         resp_message responseData = Some m -> m = EmptyString) ->
                      msg = "登录失败，请检查验证码是否正确"))).
  { unfold s', exec, onSubmit.
    unfold bind at 1, gets at 1. rewrite Hbusy.
    unfold bind at 1, modify at 1. unfold bind at 1, modify at 1.
    unfold bind at 1. rewrite await_errorHandler, Hout.
    destruct (JS.truthy (error r)) eqn:Eerr.
    - exists []. split; [| split; [reflexivity | discriminate]].
      unfold modify, setIsSubmitting, appendEffects, emit; simpl.
      rewrite app_nil_r, <- app_assoc, <- Hbusy. reflexivity.
    - destruct Hfail as [Hfail | Hfail]; [discriminate |].
      destruct (data r) as [responseData |] eqn:Edata.
      + specialize (Hfail responseData eq_refl).
        apply Z.eqb_neq in Hfail. rewrite Hfail.
        exists [Toasted (ToastError
                           (JS.or_default (resp_message responseData)
                              "登录失败，请检查验证码是否正确"))].
        split; [| split; [discriminate |]].
        * unfold bind, toast, modify, setIsSubmitting, appendEffects, emit; simpl.
          rewrite <- !app_assoc, <- Hbusy. reflexivity.
        * intros _. eexists. split; [reflexivity |]. split.
          -- intros rd m E Hm Hne. injection E as <-. rewrite Hm.
             destruct m; [contradiction | reflexivity].
          -- intros Hnone.
             destruct (resp_message responseData) as [m |] eqn:Em;
               [| reflexivity].
             rewrite (Hnone responseData m eq_refl Em). reflexivity.
      + exists [Toasted (ToastError "登录失败，请检查验证码是否正确")].
        split; [| split; [discriminate |]].
        * unfold bind, toast, modify, setIsSubmitting, appendEffects, emit; simpl.
          rewrite <- !app_assoc, <- Hbusy. reflexivity.
        * intros _. eexists. split; [reflexivity |]. split.
          -- intros rd m E. discriminate.
          -- reflexivity. }
  destruct Hown as (own & Hs' & Herr & Hok).
  exists own. cbv zeta.
  assert (Hshape : forall e,
            In e (EmailCodeLogin (email d) (code d)
                  :: errorToasts (invoked login) ++ own) ->
            e = EmailCodeLogin (email d) (code d)
            \/ exists m, e = Toasted (ToastError m)).
  { intros e [<- | He]; [now left | right].
    apply in_app_or in He as [He | He].
    - apply errorToasts_spec in He as (c & m & _ & _ & ->). now exists m.
    - destruct (JS.truthy (error r)).
      + rewrite (Herr eq_refl) in He. destruct He.
      + destruct (Hok eq_refl) as (msg & -> & _).
        destruct He as [<- | []]. now exists msg. }
  split; [exact Hs' |].
  split; [rewrite Hs'; exact Hbusy |].
  split; [rewrite Hs'; reflexivity |].
  split; [| split; [| split; [exact Herr | exact Hok]]].
  - intros a0 Ha. destruct (Hshape _ Ha) as [E | [m E]]; discriminate.
  - intros ms path Ha. destruct (Hshape _ Ha) as [E | [m E]]; discriminate.
Qed.

(** The claim of C8 as worded fails: the login request fails, the request
    layer resolves with an error and has invoked no callback of the handler
    object; the submission ends with the flag released, and the page has
    shown no notification at all. *)
Lemma failed_login_request_shows_no_notification :
  exec (onSubmit openBrowser (form formFilled) loginUnanswered noProfile)
       formFilled
  = appendEffects [EmailCodeLogin "ada@example.com" "123456"] formFilled
  /\ forall t,
       ~ In (Toasted t)
            (effects (exec (onSubmit openBrowser (form formFilled)
                                     loginUnanswered noProfile)
                           formFilled)).
Proof.
  assert (E : exec (onSubmit openBrowser (form formFilled) loginUnanswered
                             noProfile) formFilled
              = appendEffects [EmailCodeLogin "ada@example.com" "123456"]
                              formFilled) by reflexivity.
  split; [exact E |].
  rewrite E. intros t [H | []]. discriminate.
Qed.

Lemma sendCode_success_starts_sixty_second_cooldown_witness :
  In (SendEmailCode "ada@example.com")
     (effects (exec (handleSendCode hasAtSign codeSent) addressTyped))
  /\ countdown (exec (handleSendCode hasAtSign codeSent) addressTyped) = 60%Z
  /\ canRequest (exec (handleSendCode hasAtSign codeSent) addressTyped) = false
  /\ forall k : nat,
       countdown (ticks k (exec (handleSendCode hasAtSign codeSent) addressTyped))
       = Z.max 0 (60 - Z.of_nat k)
       /\ (canRequest
             (ticks k (exec (handleSendCode hasAtSign codeSent) addressTyped))
           = true <-> 60 <= k).
Proof.
  apply (sendCode_success_starts_sixty_second_cooldown
           hasAtSign openBrowser addressTyped codeSent
           (mkApiResult (Some (mkResponse 201 None tt)) None)
           (mkResponse 201 None tt)).
  - exists [TypeEmail "ada@example.com"]. reflexivity.
  - reflexivity.
  - reflexivity.
  - reflexivity.
  - reflexivity.
  - reflexivity.
  - reflexivity.
  - reflexivity.
Defined.

Lemma startCountdown_twice_single_timer_witness :
  exists first latest : nat,
    timerRef (exec startCountdown initial) = Some first
    /\ ~ In first
         (intervals (exec startCountdown (ticks 3 (exec startCountdown initial))))
    /\ intervals (exec startCountdown (ticks 3 (exec startCountdown initial)))
       = [latest]
    /\ timerRef (exec startCountdown (ticks 3 (exec startCountdown initial)))
       = Some latest
    /\ countdown (exec startCountdown (ticks 3 (exec startCountdown initial)))
       = 60%Z
    /\ forall k : nat,
         countdown
           (ticks k (exec startCountdown (ticks 3 (exec startCountdown initial))))
         = Z.max 0 (60 - Z.of_nat k)
         /\ intervals
              (ticks k (exec startCountdown (ticks 3 (exec startCountdown initial))))
            = (if (k <? 60)%nat then [latest] else [])
         /\ timerRef
              (ticks k (exec startCountdown (ticks 3 (exec startCountdown initial))))
            = (if (k <? 60)%nat then Some latest else None).
Proof.
  apply (startCountdown_twice_single_timer hasAtSign openBrowser initial 3).
  exists []. reflexivity.
Defined.

Lemma submit_blocked_when_form_invalid_witness :
  step hasAtSign openBrowser shortCodeTyped (Submit loginForbidden noProfile)
  = shortCodeTyped
  /\ forall address otp,
       In (EmailCodeLogin address otp)
          (effects (step hasAtSign openBrowser shortCodeTyped
                         (Submit loginForbidden noProfile))) ->
       In (EmailCodeLogin address otp) (effects shortCodeTyped).
Proof.
  apply (submit_blocked_when_form_invalid
           hasAtSign openBrowser shortCodeTyped loginForbidden noProfile).
  right. left. vm_compute. discriminate.
Defined.

Lemma onSubmit_failure_keeps_page_retryable_witness :
  exec (onSubmit openBrowser (form formFilled) loginRefused noProfile)
       formFilled
  = appendEffects [EmailCodeLogin "ada@example.com" "123456";
                   Toasted (ToastError "验证码已过期")]
                  formFilled
  /\ isSubmitting (exec (onSubmit openBrowser (form formFilled) loginRefused
                                  noProfile) formFilled)
     = false.
Proof.
  destruct (onSubmit_failure_keeps_page_retryable
              openBrowser formFilled (form formFilled) loginRefused noProfile
              (mkApiResult
                 (Some (mkResponse 400 (Some "验证码已过期")
                                   (mkAuthData "" None None None None)))
                 None)
              eq_refl eq_refl)
    as (own & Hs & Hsub & _ & _ & _ & _ & Hok).
  - right. intros responseData E. injection E as <-. discriminate.
  - cbv zeta in Hs, Hsub.
    destruct (Hok eq_refl) as (msg & Hown & Hmsg & _).
    rewrite (Hmsg _ "验证码已过期" eq_refl eq_refl) in Hown by discriminate.
    rewrite Hown in Hs.
    split; [exact Hs | exact Hsub].
Defined.

(** A login the server refuses with 403: the [forbidden] callback shows its
    message, [onSubmit] adds nothing, and the flag is released. *)
Example login_forbidden_run :
  exec (onSubmit openBrowser (form formFilled) loginForbidden noProfile)
       formFilled
  = appendEffects [EmailCodeLogin "ada@example.com" "123456";
                   Toasted (ToastError "验证码错误或已失效")]
                  formFilled.
Proof. reflexivity. Qed.

(** ** The page at work *)

(** An address is typed, a code is requested and confirmed, the six digits
    are typed, and the login succeeds with a profile: the session is saved,
    the profile cached, the countdown timer cleared and the navigation to the
    root scheduled one second ahead. *)
Example login_success_run :
  let final :=
    run hasAtSign openBrowser
        [TypeEmail "ada@example.com"; ClickSend codeSent; Tick; Tick;
         TypeCode "123456";
         Submit (mkApiRun []
                   (Ret (mkApiResult
                           (Some (mkResponse 201 None
                                    (mkAuthData "t0k" None None None None)))
                           None)))
                (mkApiRun []
                   (Ret (mkApiResult (Some (mkUserResponse (Some "{}"))) None)))]
  in
  effects final =
    [SendEmailCode "ada@example.com";
     Toasted (ToastSuccess "验证码已发送"
                "验证码已发送到 ada@example.com，请查收");
     EmailCodeLogin "ada@example.com" "123456";
     Toasted (ToastSuccess "登录成功！" "正在获取用户资料...");
     SaveAuthData (mkAuthData "t0k" None None None None);
     GetCurrentUser;
     SetTimeoutPush 1000 "/"]
  /\ countdown final = 58%Z
  /\ intervals final = []
  /\ user_profile final = Some "{}"
  /\ isSubmitting final = false.
Proof. repeat split. Qed.

(** While the countdown runs, a second press of the send button issues no
    request. *)
Example send_suppressed_during_cooldown :
  effects (run hasAtSign openBrowser
             [TypeEmail "ada@example.com"; ClickSend codeSent; Tick;
              ClickSend codeSent])
  = effects (run hasAtSign openBrowser
               [TypeEmail "ada@example.com"; ClickSend codeSent]).
Proof. reflexivity. Qed.

(** Sixty seconds after a confirmed request the button is enabled again,
    and not one second earlier. *)
Example cooldown_ends_after_sixty_seconds :
  isSendCodeDisabled hasAtSign
    (ticks 59 (run hasAtSign openBrowser
                 [TypeEmail "ada@example.com"; ClickSend codeSent])) = true
  /\ isSendCodeDisabled hasAtSign
       (ticks 60 (run hasAtSign openBrowser
                    [TypeEmail "ada@example.com"; ClickSend codeSent])) = false.
Proof. split; reflexivity. Qed.

(** ** Invariants of the handlers, in general *)

Lemma preserves_clearTimer_gen (P : Page -> Prop) :
  (forall id s, P s -> P (setTimerRef None (clearInterval id s))) ->
  preserves P clearTimer.
Proof.
  intros H s Hs. unfold clearTimer.
  destruct (timerRef s) as [id |]; simpl; [apply H, Hs | exact Hs].
Qed.

Lemma preserves_setInterval_gen (P : Page -> Prop) :
  (forall s, P s ->
     P (mkPage (countdown s) (isSubmitting s) (isSendingCode s) (timerRef s)
               (form s) (intervals s ++ [nextTimerId s]) (S (nextTimerId s))
               (user_profile s) (effects s))) ->
  preserves P setInterval.
Proof. intros H s Hs. apply H, Hs. Qed.

Lemma fire_preserves (P : Page -> Prop) (ids : list nat) :
  preserves P intervalCallback -> forall s, P s -> P (fire ids s).
Proof.
  intros Hcb. induction ids as [| id rest IH]; intros s Hs; simpl.
  - exact Hs.
  - destruct (existsb (Nat.eqb id) (intervals s)).
    + apply IH, Hcb, Hs.
    + apply IH, Hs.
Qed.

Lemma fold_step_preserves (P : Page -> Prop) (isEmail : string -> bool)
    (browser : Browser) :
  (forall s e, P s -> P (step isEmail browser s e)) ->
  forall events s, P s -> P (fold_left (step isEmail browser) events s).
Proof.
  intros Hstep. induction events as [| e rest IH]; intros s Hs; simpl.
  - exact Hs.
  - apply IH, Hstep, Hs.
Qed.

(** Takes a goal [preserves P m] apart along the structure of [m]:
    [special] is tried first on every subgoal, [leaf] has to close the goals
    [P (f s)] that the state updates leave. *)
Ltac eff_preserves special leaf :=
  repeat first
    [ special
    | apply preserves_ret
    | apply preserves_throw
    | apply preserves_gets
    | apply preserves_when
    | apply preserves_modify; intros ? ?; solve [leaf]
    | apply preserves_clearTimer_gen; intros ? ? ?; solve [leaf]
    | apply preserves_setInterval_gen; intros ? ?; solve [leaf]
    | apply preserves_await;
      let c := fresh "c" in
      let body := fresh "body" in
      let E := fresh "E" in
      intros c body E; destruct c; simpl in E;
      try discriminate E; injection E as <-
    | apply preserves_try_catch; [| intros ?]
    | apply preserves_bind; [| intros ?]
    | match goal with
      | |- preserves _ (if ?b then _ else _) => destruct b
      | |- preserves _ (match ?x with Some _ => _ | None => _ end) => destruct x
      end ].

(** ** Bounds of the countdown *)

Lemma countdown_inv_initial : countdown_inv initial.
Proof.
  split; [apply timer_inv_initial |]. simpl.
  split; [lia | discriminate].
Qed.

Lemma preserves_clearTimer_countdown_inv : preserves countdown_inv clearTimer.
Proof.
  intros s (Ht & Hb & Ha). rewrite (clearTimer_result s Ht). simpl.
  split; [| split]; simpl.
  - split; simpl; [reflexivity | tauto].
  - exact Hb.
  - discriminate.
Qed.

Lemma preserves_startCountdown_countdown_inv :
  preserves countdown_inv startCountdown.
Proof.
  intros s (Ht & Hb & Ha). pose proof (preserves_startCountdown s Ht) as Ht'.
  rewrite (startCountdown_result s Ht) in *. simpl in *.
  split; [exact Ht' |]. simpl. split; intros; lia.
Qed.

Lemma countdown_inv_tick (s : Page) : countdown_inv s -> countdown_inv (tick s).
Proof.
  intros (Ht & Hb & Ha).
  destruct (timerRef s) as [id |] eqn:Er.
  - assert (Hc : counting (countdown s) id s).
    { destruct Ht as [Hi _]. rewrite Er in Hi. repeat split; assumption. }
    specialize (Ha id eq_refl).
    pose proof (timer_inv_tick s Ht) as Ht'.
    destruct (Z.eq_dec (countdown s) 1) as [E1 | Hne].
    + destruct (tick_last _ id s Hc ltac:(lia)) as (Hi & Hr & Hcd).
      split; [exact Ht' |]. rewrite Hcd, Hr. split; [lia | discriminate].
    + destruct (tick_counting _ id s Hc ltac:(lia)) as (Hi & Hr & Hcd).
      split; [exact Ht' |]. rewrite Hcd. split; intros; lia.
  - destruct Ht as [Hi Hf]. rewrite Er in Hi.
    rewrite (tick_idle s Hi). repeat split; try assumption; try lia.
    + now rewrite Er.
    + intros id E. rewrite Er in E. discriminate.
Qed.

Ltac countdown_inv_leaf :=
  idtac;
  match goal with
  | H : countdown_inv _ |- _ => exact H
  end.

Ltac countdown_inv_special :=
  idtac;
  first [ apply preserves_clearTimer_countdown_inv
        | apply preserves_startCountdown_countdown_inv ].

Lemma countdown_inv_step (isEmail : string -> bool) (browser : Browser)
    (s : Page) (e : Event) :
  countdown_inv s -> countdown_inv (step isEmail browser s e).
Proof.
  intros H. destruct e as [v | v | sendRun | login user | |]; simpl; unfold exec.
  - exact H.
  - exact H.
  - revert s H. change (preserves countdown_inv (handleSendCode isEmail sendRun)).
    unfold handleSendCode, toast.
    eff_preserves countdown_inv_special countdown_inv_leaf.
  - revert s H.
    change (preserves countdown_inv
              (handleSubmit isEmail (fun f => onSubmit browser f login user))).
    unfold handleSubmit, onSubmit, storeProfile, toast.
    eff_preserves countdown_inv_special countdown_inv_leaf.
  - apply countdown_inv_tick, H.
  - apply preserves_clearTimer_countdown_inv, H.
Qed.

(** X1. In every state the page can reach, the countdown is between 0 and
    60, at most one interval is armed, and while one is armed the countdown
    is at least 1. *)
Theorem reachable_countdown_bounds
    (isEmail : string -> bool) (browser : Browser) (s : Page) :
  reachable isEmail browser s ->
  (0 <= countdown s <= 60)%Z
  /\ List.length (intervals s) <= 1
  /\ (intervals s <> [] -> (1 <= countdown s)%Z).
Proof.
  intros [events ->].
  assert (H : countdown_inv (run isEmail browser events)).
  { unfold run. apply fold_step_preserves; [| apply countdown_inv_initial].
    intros s e. apply countdown_inv_step. }
  destruct H as ([Hi _] & Hb & Ha).
  split; [exact Hb |].
  destruct (timerRef (run isEmail browser events)) as [id |];
    rewrite Hi; simpl.
  - split; [lia |]. intros _. apply (Ha id eq_refl).
  - split; [lia |]. intros Hne. now contradiction Hne.
Qed.

Lemma reachable_countdown_bounds_witness :
  (0 <= countdown cooldownRunning <= 60)%Z
  /\ List.length (intervals cooldownRunning) <= 1
  /\ (intervals cooldownRunning <> [] -> (1 <= countdown cooldownRunning)%Z).
Proof.
  apply (reachable_countdown_bounds hasAtSign openBrowser).
  exists [TypeEmail "ada@example.com"; ClickSend codeSent;
          Tick; Tick; Tick; Tick; Tick; Tick; Tick].
  reflexivity.
Defined.

(** X2. When the page is unmounted, the cleanup clears the interval: none
    stays armed, and the passing of time no longer changes the page. *)
Theorem unmount_clears_timer
    (isEmail : string -> bool) (browser : Browser) (s : Page) :
  reachable isEmail browser s ->
  let s' := step isEmail browser s Unmount in
  intervals s' = []
  /\ timerRef s' = None
  /\ countdown s' = countdown s
  /\ forall n, ticks n s' = s'.
Proof.
  intros Hreach s'.
  pose proof (reachable_timer_inv _ _ _ Hreach) as Hinv.
  unfold s', step, exec. rewrite (clearTimer_result s Hinv). simpl.
  repeat split. intros n. now apply ticks_idle.
Qed.

Lemma unmount_clears_timer_witness :
  intervals (step hasAtSign openBrowser cooldownRunning Unmount) = []
  /\ timerRef (step hasAtSign openBrowser cooldownRunning Unmount) = None
  /\ countdown (step hasAtSign openBrowser cooldownRunning Unmount)
     = countdown cooldownRunning
  /\ forall n,
       ticks n (step hasAtSign openBrowser cooldownRunning Unmount)
       = step hasAtSign openBrowser cooldownRunning Unmount.
Proof.
  apply (unmount_clears_timer hasAtSign openBrowser).
  exists [TypeEmail "ada@example.com"; ClickSend codeSent;
          Tick; Tick; Tick; Tick; Tick; Tick; Tick].
  reflexivity.
Defined.

(** ** Requesting a code: guards and failures *)



Lemma sendCode_guard (isEmail : string -> bool) (s : Page) :
  isSendCodeDisabled isEmail s = false ->
  emailError isEmail (email (form s)) = None
  /\ JS.nonempty (email (form s)) = true
  /\ isSendingCode s = false
  /\ (0 <? countdown s)%Z = false.
Proof.
  unfold isSendCodeDisabled, noError. intros H.
  destruct (JS.nonempty (email (form s))); [| discriminate].
  destruct (emailError isEmail (email (form s))); [discriminate |].
  destruct (isSendingCode s); [discriminate |].
  destruct (0 <? countdown s)%Z; [discriminate |]. auto.
Qed.

Lemma handleSendCode_disabled (isEmail : string -> bool) (s : Page)
    (run : ApiRun (ApiResult (Response unit))) :
  isSendCodeDisabled isEmail s = true ->
  handleSendCode isEmail run s = (Ret tt, s).
Proof.
  unfold isSendCodeDisabled, handleSendCode. intros H.
  unfold bind at 1, gets at 1.
  destruct (noError (emailError isEmail (email (form s)))), 
           (JS.nonempty (email (form s))); simpl in *; try reflexivity.
  unfold bind at 1, gets at 1. unfold bind at 1, gets at 1.
  rewrite H. reflexivity.
Qed.


(** X4. A code request that the server does not confirm (the request
    resolves with an error, or with a response whose code is not 201) does not
    start the countdown: the page differs from before only by the request and
    the error notifications added to its effects, the last of which, for a
    response of the server, carries the server's message or else the fixed
    failure text. *)
Theorem handleSendCode_failure_leaves_throttle
    (isEmail : string -> bool) (s : Page)
    (run : ApiRun (ApiResult (Response unit)))
    (r : ApiResult (Response unit)) :
  isSendCodeDisabled isEmail s = false ->
  outcome run = Ret r ->
  JS.truthy (error r) = true
  \/ (forall d, data r = Some d -> resp_code d <> 201%Z) ->
  let s' := exec (handleSendCode isEmail run) s in
  s' = appendEffects (failedSendCode (email (form s)) run r) s
  /\ countdown s' = countdown s
  /\ intervals s' = intervals s
  /\ timerRef s' = timerRef s
  /\ isSendCodeDisabled isEmail s' = false.
Proof.
  intros E Hout Hfail s'.
  destruct (sendCode_guard isEmail s E) as (Hemail & Hne & Hsending & Hcd).
  assert (Hs' : s' = appendEffects (failedSendCode (email (form s)) run r) s).
  { unfold s', exec, handleSendCode, failedSendCode, sendFailureMessage.
    unfold bind at 1, gets at 1. rewrite Hemail, Hne. simpl.
    unfold bind at 1, gets at 1. unfold bind at 1, gets at 1.
    rewrite Hsending, Hcd. simpl.
    unfold bind at 1, modify at 1. unfold bind at 1, modify at 1.
    unfold bind at 1. rewrite await_errorHandler, Hout.
    destruct s as [cd sub snd tr f ivs nid up effs]; simpl in *; subst snd.
    destruct (JS.truthy (error r)) eqn:Eerr.
    - unfold modify, setIsSendingCode, appendEffects, emit; simpl.
      rewrite app_nil_r, <- app_assoc. reflexivity.
    - destruct Hfail as [Hfail | Hfail]; [discriminate |].
      destruct (data r) as [d |] eqn:Edata.
      + specialize (Hfail d eq_refl). apply Z.eqb_neq in Hfail. rewrite Hfail.
        unfold bind, toast, modify, setIsSendingCode, appendEffects, emit; simpl.
        rewrite <- !app_assoc. reflexivity.
      + unfold bind, toast, modify, setIsSendingCode, appendEffects, emit; simpl.
        rewrite <- !app_assoc. reflexivity. }
  rewrite Hs'. repeat split. exact E.
Qed.

Lemma handleSendCode_failure_leaves_throttle_witness :
  exec (handleSendCode hasAtSign codeRefused) addressTyped
  = appendEffects
      [SendEmailCode "ada@example.com";
       Toasted (ToastError "too many requests")]
      addressTyped
  /\ countdown (exec (handleSendCode hasAtSign codeRefused) addressTyped) = 0%Z.
Proof.
  assert (Hfail :
            JS.truthy
              (error (mkApiResult
                        (Some (mkResponse 429 (Some "too many requests") tt))
                        None)) = true
            \/ (forall d,
                  data (mkApiResult
                          (Some (mkResponse 429 (Some "too many requests") tt))
                          None) = Some d ->
                  resp_code d <> 201%Z)).
  { right. intros d E. simpl in E. injection E as <-. simpl. discriminate. }
  pose proof (handleSendCode_failure_leaves_throttle
                hasAtSign addressTyped codeRefused
                (mkApiResult (Some (mkResponse 429 (Some "too many requests") tt))
                             None)
                eq_refl eq_refl Hfail)
    as H.
  cbv zeta in H. destruct H as (Hs & Hc & _).
  split; [exact Hs | exact Hc].
Defined.

(** ** A request whose promise rejects *)

Ltac blocked_leaf :=
  idtac;
  match goal with
  | H : sendBlocked _ _ |- _ =>
      first
        [ exact H
        | let H1 := fresh in
          let H2 := fresh in
          destruct H as [H1 H2]; split; [exact H1 |];
          unfold sendRequests in *; simpl; rewrite filter_app; simpl;
          rewrite app_nil_r; exact H2 ]
  | H : loginBlocked _ _ |- _ =>
      first
        [ exact H
        | let H1 := fresh in
          let H2 := fresh in
          destruct H as [H1 H2]; split; [exact H1 |];
          unfold loginRequests in *; simpl; rewrite filter_app; simpl;
          rewrite app_nil_r; exact H2 ]
  end.

Lemma handleSendCode_busy (isEmail : string -> bool) (s : Page)
    (run : ApiRun (ApiResult (Response unit))) :
  isSendingCode s = true -> handleSendCode isEmail run s = (Ret tt, s).
Proof.
  intros H. apply handleSendCode_disabled. unfold isSendCodeDisabled.
  rewrite H. now rewrite orb_true_r.
Qed.

Lemma onSubmit_busy (browser : Browser) (s : Page) (d : EmailLoginFormData)
    (login : ApiRun (ApiResult (Response AuthData)))
    (user : ApiRun (ApiResult UserResponse)) :
  isSubmitting s = true -> onSubmit browser d login user s = (Ret tt, s).
Proof.
  intros H. unfold onSubmit, bind at 1, gets at 1. now rewrite H.
Qed.

Lemma sendBlocked_step (isEmail : string -> bool) (browser : Browser)
    (n : nat) (s : Page) (e : Event) :
  sendBlocked n s -> sendBlocked n (step isEmail browser s e).
Proof.
  intros H. destruct e as [v | v | sendRun | login user | |]; simpl; unfold exec.
  - exact H.
  - exact H.
  - rewrite handleSendCode_busy; [exact H | apply H].
  - revert s H.
    change (preserves (sendBlocked n)
              (handleSubmit isEmail (fun f => onSubmit browser f login user))).
    unfold handleSubmit, onSubmit, storeProfile, toast.
    eff_preserves fail blocked_leaf.
  - unfold tick. apply fire_preserves; [| exact H].
    unfold intervalCallback, countdownUpdater.
    eff_preserves fail blocked_leaf.
  - revert s H. change (preserves (sendBlocked n) clearTimer).
    eff_preserves fail blocked_leaf.
Qed.

(** X5. If the promise of [sendEmailCode] rejects, [isSendingCode] is never
    reset: whatever happens on the page afterwards, the send button stays
    disabled and no further code request is issued. *)
Theorem rejected_sendEmailCode_blocks_further_requests
    (isEmail : string -> bool) (browser : Browser) (s : Page)
    (run : ApiRun (ApiResult (Response unit))) (e : JS.Thrown)
    (events : list Event) :
  isSendCodeDisabled isEmail s = false ->
  outcome run = Throw e ->
  let s1 := exec (handleSendCode isEmail run) s in
  let s2 := fold_left (step isEmail browser) events s1 in
  isSendingCode s2 = true
  /\ isSendCodeDisabled isEmail s2 = true
  /\ sendRequests s2 = sendRequests s1.
Proof.
  intros E Hout s1 s2.
  destruct (sendCode_guard isEmail s E) as (Hemail & Hne & Hsending & Hcd).
  assert (H1 : sendBlocked (sendRequests s1) s1).
  { split; [| reflexivity].
    unfold s1, exec, handleSendCode.
    unfold bind at 1, gets at 1. rewrite Hemail, Hne. simpl.
    unfold bind at 1, gets at 1. unfold bind at 1, gets at 1.
    rewrite Hsending, Hcd. simpl.
    unfold bind at 1, modify at 1. unfold bind at 1, modify at 1.
    unfold bind at 1. rewrite await_errorHandler, Hout. reflexivity. }
  assert (H2 : sendBlocked (sendRequests s1) s2).
  { apply fold_step_preserves; [| exact H1].
    intros s0 ev. apply sendBlocked_step. }
  destruct H2 as [Hb Hn]. split; [exact Hb |]. split; [| exact Hn].
  unfold isSendCodeDisabled. rewrite Hb. now rewrite orb_true_r.
Qed.

Lemma rejected_sendEmailCode_blocks_further_requests_witness :
  isSendingCode
    (fold_left (step hasAtSign openBrowser) [Tick; ClickSend codeSent]
               (exec (handleSendCode hasAtSign sendRejected) addressTyped))
  = true
  /\ isSendCodeDisabled hasAtSign
       (fold_left (step hasAtSign openBrowser) [Tick; ClickSend codeSent]
                  (exec (handleSendCode hasAtSign sendRejected) addressTyped))
     = true
  /\ sendRequests
       (fold_left (step hasAtSign openBrowser) [Tick; ClickSend codeSent]
                  (exec (handleSendCode hasAtSign sendRejected) addressTyped))
     = sendRequests (exec (handleSendCode hasAtSign sendRejected) addressTyped).
Proof.
  exact (rejected_sendEmailCode_blocks_further_requests
           hasAtSign openBrowser addressTyped sendRejected
           (JS.mkThrown true "Failed to fetch") [Tick; ClickSend codeSent]
           eq_refl eq_refl).
Defined.

(** ** Submitting the form: guards, success and rejection *)

(** Evaluates nested state updates from the inside out. *)
Ltac page_norm :=
  cbv beta iota delta
    [snd fst setCountdown setIsSubmitting setIsSendingCode setTimerRef setForm
     setUserProfile emit appendEffects clearInterval
     countdown isSubmitting isSendingCode timerRef form intervals nextTimerId
     user_profile effects].



Lemma runHandlers_page_profileHandlers (calls : list HandlerCall) (s : Page) :
  runHandlers profileHandlers calls s =
    (Ret tt, appendEffects (profileToasts calls) s).
Proof.
  revert s. induction calls as [| c rest IH]; intros s; simpl.
  - now rewrite appendEffects_nil.
  - destruct c; simpl; try apply IH;
      unfold bind, toast, modify; simpl; rewrite IH;
      (change (emit ?e s) with (appendEffects [e] s);
       now rewrite appendEffects_app).
Qed.

Lemma profileToasts_errors (calls : list HandlerCall) :
  Forall (fun e => isErrorToast e = true) (profileToasts calls).
Proof.
  induction calls as [| c rest IH]; simpl; [constructor |].
  destruct c; simpl; auto.
Qed.

(** The profile fetch of [onSubmit] always completes: it adds the request
    and error notifications to the effects and may cache a profile. *)
Lemma onSubmit_profile_phase (browser : Browser)
    (user : ApiRun (ApiResult UserResponse)) (s : Page) :
  exists up notes,
    Forall (fun e => isErrorToast e = true) notes
    /\ try_catch
         (modify (emit GetCurrentUser) ;;
          u <- await profileHandlers user ;;
          match data u with
          | Some userResponse =>
              match profile userResponse with
              | Some text => when (hasWindow browser) (storeProfile browser text)
              | None => ret tt
              end
          | None => ret tt
          end)%eff
         (fun _ => toast (ToastError "获取用户资料失败，但登录成功")) s
       = (Ret tt, setUserProfile up (appendEffects (GetCurrentUser :: notes) s)).
Proof.
  unfold try_catch, await.
  unfold bind at 1, modify at 1. unfold bind at 1. unfold bind at 1.
  rewrite runHandlers_page_profileHandlers.
  change (emit GetCurrentUser s) with (appendEffects [GetCurrentUser] s).
  rewrite appendEffects_app. simpl.
  pose proof (profileToasts_errors (invoked user)) as Hp.
  assert (Hkeep : forall es,
             appendEffects es s = setUserProfile (user_profile s) (appendEffects es s))
    by reflexivity.
  destruct (outcome user) as [u | e]; simpl.
  - destruct (data u) as [userResponse |]; simpl;
      [| exists (user_profile s), (profileToasts (invoked user));
         split; [exact Hp | now rewrite <- Hkeep]].
    destruct (profile userResponse) as [text |]; simpl;
      [| exists (user_profile s), (profileToasts (invoked user));
         split; [exact Hp | now rewrite <- Hkeep]].
    destruct (hasWindow browser); simpl;
      [| exists (user_profile s), (profileToasts (invoked user));
         split; [exact Hp | now rewrite <- Hkeep]].
    unfold storeProfile. destruct (localStorageWritable browser).
    + exists (Some text), (profileToasts (invoked user)).
      split; [exact Hp | reflexivity].
    + exists (user_profile s),
        (profileToasts (invoked user)
         ++ [Toasted (ToastError "获取用户资料失败，但登录成功")]).
      split.
      * apply Forall_app. split; [exact Hp | repeat constructor].
      * unfold throw, toast, modify; simpl.
        change (emit ?e ?t) with (appendEffects [e] t).
        rewrite appendEffects_app. simpl. now rewrite <- Hkeep.
  - exists (user_profile s),
      (profileToasts (invoked user)
       ++ [Toasted (ToastError "获取用户资料失败，但登录成功")]).
    split.
    + apply Forall_app. split; [exact Hp | repeat constructor].
    + unfold throw, toast, modify; simpl.
      change (emit ?e ?t) with (appendEffects [e] t).
      rewrite appendEffects_app. simpl. now rewrite <- Hkeep.
Qed.

(** X7. A login that the server confirms with code 201 saves the session of
    the response, clears the countdown timer and schedules the navigation to
    the root one second ahead, whatever the profile fetch does afterwards:
    a profile, none, an error signal, an exception or a refused storage only
    add error notifications.  The submitting flag is released at the end. *)
Theorem onSubmit_success_saves_and_navigates
    (browser : Browser) (s : Page) (d : EmailLoginFormData)
    (login : ApiRun (ApiResult (Response AuthData)))
    (user : ApiRun (ApiResult UserResponse))
    (r : ApiResult (Response AuthData)) (responseData : Response AuthData) :
  isSubmitting s = false ->
  outcome login = Ret r ->
  JS.truthy (error r) = false ->
  data r = Some responseData ->
  resp_code responseData = 201%Z ->
  let s' := exec (onSubmit browser d login user) s in
  (exists notes,
     Forall (fun e => isErrorToast e = true) notes
     /\ effects s' =
          effects s
          ++ EmailCodeLogin (email d) (code d)
          :: errorToasts (invoked login)
          ++ Toasted (ToastSuccess "登录成功！" "正在获取用户资料...")
          :: SaveAuthData (resp_data responseData)
          :: GetCurrentUser
          :: notes ++ [SetTimeoutPush 1000 "/"])
  /\ timerRef s' = None
  /\ (forall id, timerRef s = Some id -> ~ In id (intervals s'))
  /\ countdown s' = countdown s
  /\ isSubmitting s' = false.
Proof.
  intros Hbusy Hout Herr Hdata Hcode s'.
  assert (Hs' : exists up notes,
            Forall (fun e => isErrorToast e = true) notes
            /\ s' =
               mkPage (countdown s) false (isSendingCode s) None (form s)
                      (match timerRef s with
                       | Some id =>
                           filter (fun i => negb (Nat.eqb i id)) (intervals s)
                       | None => intervals s
                       end)
                      (nextTimerId s) up
                      (effects s
                       ++ EmailCodeLogin (email d) (code d)
                       :: errorToasts (invoked login)
                       ++ Toasted (ToastSuccess "登录成功！" "正在获取用户资料...")
                       :: SaveAuthData (resp_data responseData)
                       :: GetCurrentUser
                       :: notes ++ [SetTimeoutPush 1000 "/"])).
  { unfold s', exec, onSubmit.
    unfold bind at 1, gets at 1. rewrite Hbusy.
    unfold bind at 1, modify at 1. unfold bind at 1, modify at 1.
    unfold bind at 1. rewrite await_errorHandler, Hout, Herr, Hdata, Hcode.
    simpl.
    unfold bind at 1. unfold bind at 1, toast at 1, modify at 1.
    unfold bind at 1, modify at 1. unfold bind at 1.
    match goal with
    | |- context [try_catch _ _ ?s1] =>
        destruct (onSubmit_profile_phase browser user s1)
          as (up & notes & Hnotes & Hphase);
        rewrite Hphase
    end.
    exists up, notes. split; [exact Hnotes |].
    unfold bind, modify, clearTimer. simpl.
    destruct s as [cd sub snd tr f ivs nid up0 effs]; simpl in *.
    destruct tr as [id |]; page_norm;
      rewrite <- !app_assoc; reflexivity. }
  destruct Hs' as (up & notes & Hnotes & ->). simpl.
  split; [exists notes; auto |]. repeat split.
  intros id E Hin. rewrite E in Hin.
  apply filter_In in Hin as [_ Hin]. now rewrite Nat.eqb_refl in Hin.
Qed.

Lemma onSubmit_success_saves_and_navigates_witness :
  (exists notes,
     Forall (fun e => isErrorToast e = true) notes
     /\ effects (exec (onSubmit openBrowser (mkForm "ada@example.com" "123456")
                                loginConfirmed noProfile) cooldownRunning)
        = effects cooldownRunning
          ++ EmailCodeLogin "ada@example.com" "123456"
          :: errorToasts []
          ++ Toasted (ToastSuccess "登录成功！" "正在获取用户资料...")
          :: SaveAuthData (mkAuthData "t0k" None None None None)
          :: GetCurrentUser
          :: notes ++ [SetTimeoutPush 1000 "/"])
  /\ timerRef (exec (onSubmit openBrowser (mkForm "ada@example.com" "123456")
                              loginConfirmed noProfile) cooldownRunning)
     = None.
Proof.
  pose proof (onSubmit_success_saves_and_navigates
                openBrowser cooldownRunning (mkForm "ada@example.com" "123456")
                loginConfirmed noProfile
                (mkApiResult
                   (Some (mkResponse 201 None
                            (mkAuthData "t0k" None None None None)))
                   None)
                (mkResponse 201 None (mkAuthData "t0k" None None None None))
                eq_refl eq_refl eq_refl eq_refl eq_refl) as H.
  cbv zeta in H. destruct H as (H1 & H2 & _).
  split; [exact H1 | exact H2].
Defined.

Lemma loginBlocked_step (isEmail : string -> bool) (browser : Browser)
    (n : nat) (s : Page) (e : Event) :
  loginBlocked n s -> loginBlocked n (step isEmail browser s e).
Proof.
  intros H. destruct e as [v | v | sendRun | login user | |]; simpl; unfold exec.
  - exact H.
  - exact H.
  - revert s H.
    change (preserves (loginBlocked n) (handleSendCode isEmail sendRun)).
    unfold handleSendCode, startCountdown, toast.
    eff_preserves fail blocked_leaf.
  - unfold handleSubmit, bind at 1, gets at 1.
    destruct (isValid isEmail (form s)); [| exact H].
    rewrite onSubmit_busy; [exact H | apply H].
  - unfold tick. apply fire_preserves; [| exact H].
    unfold intervalCallback, countdownUpdater.
    eff_preserves fail blocked_leaf.
  - revert s H. change (preserves (loginBlocked n) clearTimer).
    eff_preserves fail blocked_leaf.
Qed.

(** X8. If the promise of [emailCodeLogin] rejects, [isSubmitting] is never
    reset: whatever happens on the page afterwards, the login button stays
    disabled and no further login request is issued. *)
Theorem rejected_emailCodeLogin_blocks_further_submissions
    (isEmail : string -> bool) (browser : Browser) (s : Page)
    (d : EmailLoginFormData)
    (login : ApiRun (ApiResult (Response AuthData)))
    (user : ApiRun (ApiResult UserResponse)) (e : JS.Thrown)
    (events : list Event) :
  isSubmitting s = false ->
  outcome login = Throw e ->
  let s1 := exec (onSubmit browser d login user) s in
  let s2 := fold_left (step isEmail browser) events s1 in
  isSubmitting s2 = true
  /\ isLoginDisabled isEmail s2 = true
  /\ loginRequests s2 = loginRequests s1.
Proof.
  intros Hbusy Hout s1 s2.
  assert (H1 : loginBlocked (loginRequests s1) s1).
  { split; [| reflexivity].
    unfold s1, exec, onSubmit.
    unfold bind at 1, gets at 1. rewrite Hbusy.
    unfold bind at 1, modify at 1. unfold bind at 1, modify at 1.
    unfold bind at 1. rewrite await_errorHandler, Hout. reflexivity. }
  assert (H2 : loginBlocked (loginRequests s1) s2).
  { apply fold_step_preserves; [| exact H1].
    intros s0 ev. apply loginBlocked_step. }
  destruct H2 as [Hb Hn]. split; [exact Hb |]. split; [| exact Hn].
  unfold isLoginDisabled. rewrite Hb. apply orb_true_r.
Qed.

Lemma rejected_emailCodeLogin_blocks_further_submissions_witness :
  isSubmitting
    (fold_left (step hasAtSign openBrowser) [Submit loginConfirmed noProfile]
               (exec (onSubmit openBrowser (mkForm "ada@example.com" "123456")
                               loginRejected noProfile) formFilled))
  = true
  /\ isLoginDisabled hasAtSign
       (fold_left (step hasAtSign openBrowser) [Submit loginConfirmed noProfile]
                  (exec (onSubmit openBrowser (mkForm "ada@example.com" "123456")
                                  loginRejected noProfile) formFilled))
     = true
  /\ loginRequests
       (fold_left (step hasAtSign openBrowser) [Submit loginConfirmed noProfile]
                  (exec (onSubmit openBrowser (mkForm "ada@example.com" "123456")
                                  loginRejected noProfile) formFilled))
     = loginRequests
         (exec (onSubmit openBrowser (mkForm "ada@example.com" "123456")
                         loginRejected noProfile) formFilled).
Proof.
  exact (rejected_emailCodeLogin_blocks_further_submissions
           hasAtSign openBrowser formFilled (mkForm "ada@example.com" "123456")
           loginRejected noProfile (JS.mkThrown true "Failed to fetch")
           [Submit loginConfirmed noProfile] eq_refl eq_refl).
Defined.

(** ** The code field and the schema together *)

Lemma length_slice0_min (n : nat) (s : string) :
  String.length (slice0 n s) = Nat.min n (String.length s).
Proof.
  unfold slice0. revert s.
  induction n as [| n IH]; intros s.
  - destruct s; reflexivity.
  - destruct s as [| c rest]; simpl; [reflexivity |].
    now rewrite IH.
Qed.

Lemma stripNonDigits_allDigits (s : string) :
  allDigits s = true -> stripNonDigits s = s.
Proof.
  induction s as [| c rest IH]; simpl; intros H; [reflexivity |].
  apply andb_true_iff in H as [Hc Hr]. rewrite Hc. now rewrite IH.
Qed.

Lemma slice0_short (n : nat) (s : string) :
  String.length s <= n -> slice0 n s = s.
Proof.
  unfold slice0. revert s.
  induction n as [| n IH]; intros s H.
  - destruct s; [reflexivity | simpl in H; lia].
  - destruct s as [| c rest]; simpl in *; [reflexivity |].
    rewrite IH; [reflexivity | lia].
Qed.

(** X9. The code the change handler stores passes the validation of the
    code field exactly when the typed text holds at least six digits: other
    characters never make a code invalid, and missing digits always do. *)
Theorem typed_code_valid_iff_six_digits (value : string) (s : Page) :
  codeError (code (form (exec (handleCodeChange value) s))) = None
  <-> 6 <= String.length (stripNonDigits value).
Proof.
  simpl. rewrite codeError_None, length_slice0_min.
  unfold CODE_LENGTH. split.
  - intros [H _]. lia.
  - intros H. split; [lia |].
    apply allDigits_slice0, allDigits_stripNonDigits.
Qed.

(** X10. The change handler is idempotent: feeding it the value it has
    stored stores the same value again, and a text of at most six digits is
    stored unchanged. *)
Theorem handleCodeChange_idempotent (value : string) (s : Page) :
  let stored := code (form (exec (handleCodeChange value) s)) in
  exec (handleCodeChange stored) (exec (handleCodeChange value) s)
  = exec (handleCodeChange value) s
  /\ (allDigits value = true ->
      String.length value <= 6 ->
      stored = value).
Proof.
  simpl. split.
  - unfold exec, handleCodeChange, modify, setForm; simpl.
    rewrite stripNonDigits_allDigits
      by apply allDigits_slice0, allDigits_stripNonDigits.
    rewrite (slice0_short CODE_LENGTH) by apply length_slice0.
    reflexivity.
  - intros Hd Hl. rewrite stripNonDigits_allDigits by exact Hd.
    now apply slice0_short.
Qed.

(** ** What the schema accepts *)

Lemma emailError_None (isEmail : string -> bool) (v : string) :
  emailError isEmail v = None
  <-> 1 <= String.length v <= 100 /\ isEmail v = true.
Proof.
  unfold emailError. split.
  - intros H.
    destruct (String.length v <? 1)%nat eqn:E1; [discriminate |].
    destruct (isEmail v); simpl in H; [| discriminate].
    destruct (100 <? String.length v)%nat eqn:E2; [discriminate |].
    apply Nat.ltb_ge in E1. apply Nat.ltb_ge in E2. auto.
  - intros [[H1 H2] He]. rewrite He. simpl.
    destruct (String.length v <? 1)%nat eqn:E1; [apply Nat.ltb_lt in E1; lia |].
    destruct (100 <? String.length v)%nat eqn:E2;
      [apply Nat.ltb_lt in E2; lia |].
    reflexivity.
Qed.

(** X26. The schema accepts a form exactly when the address has between 1
    and 100 characters and matches zod's email pattern, and the code is made
    of exactly six digits. *)
Theorem emailLoginSchema_accepts (isEmail : string -> bool)
    (f : EmailLoginFormData) :
  isValid isEmail f = true
  <-> (1 <= String.length (email f) <= 100 /\ isEmail (email f) = true)
      /\ (String.length (code f) = 6
          /\ Forall (fun c => (48 <= N_of_ascii c <= 57)%N)
                    (list_ascii_of_string (code f))).
Proof.
  unfold isValid, emailLoginSchema, noError; simpl.
  rewrite <- emailError_None.
  assert (Hcode : codeError (code f) = None
                  <-> String.length (code f) = 6
                      /\ Forall (fun c => (48 <= N_of_ascii c <= 57)%N)
                                (list_ascii_of_string (code f))).
  { rewrite codeError_None. split; intros [Hl Hd]; (split; [exact Hl |]).
    - now apply allDigits_chars.
    - revert Hd. generalize (code f) as s. clear.
      induction s as [| c rest IH]; simpl; intros H; [reflexivity |].
      inversion H as [| x l [H1 H2] Hl]; subst.
      rewrite (IH Hl), andb_true_r. unfold isDigit.
      apply andb_true_iff. split; apply N.leb_le; assumption. }
  rewrite <- Hcode.
  destruct (emailError isEmail (email f)), (codeError (code f)); simpl;
    split; intros H; try discriminate; try (destruct H; discriminate); auto.
Qed.

End EmailLoginFacts.

(* ===================================================================== *)
(** * Properties of the OAuth callback page *)
(* ===================================================================== *)

Module AuthCallbackFacts.

Import AuthCallback.

(** ** The numbers [parseInt] reads *)

(** An integer below 2^53 is read exactly. *)
Lemma toDouble_exact (n : N) : (n < 2 ^ 53)%N -> JS.toDouble n = Some n.
Proof.
  intros H. unfold JS.toDouble.
  assert (Hsize : (N.size n <=? 53)%N = true).
  { apply N.leb_le.
    destruct (N.eq_dec n 0) as [-> | Hn]; [cbn; lia |].
    rewrite N.size_log2 by exact Hn.
    apply N.le_succ_l, N.log2_lt_pow2; lia. }
  now rewrite Hsize.
Qed.

(** What [toDouble] gives is a double: a significand [q] of at most 53 bits
    (or 2^53 itself) times a power of two, below 2^1024; and it is as near
    to the number as that power of two allows: the two differ by half of it
    at most. *)
Lemma toDouble_nearest (n v : N) :
  JS.toDouble n = Some v ->
  exists q e : N,
    (v = q * 2 ^ e /\ q <= 2 ^ 53
     /\ 2 * n <= 2 * v + 2 ^ e /\ 2 * v <= 2 * n + 2 ^ e
     /\ v < 2 ^ 1024)%N.
Proof.
  unfold JS.toDouble.
  destruct (N.size n <=? 53)%N eqn:Hsize.
  - intros [= <-]. exists n, 0%N. apply N.leb_le in Hsize.
    assert (Hn : (n < 2 ^ 53)%N).
    { eapply N.lt_le_trans; [apply N.size_gt |].
      apply N.pow_le_mono_r; [lia | exact Hsize]. }
    assert (2 ^ 53 < 2 ^ 1024)%N by (apply N.pow_lt_mono_r; lia).
    cbn [N.pow]. repeat split; try lia.
  - apply N.leb_gt in Hsize.
    set (e := (N.size n - 53)%N).
    set (q := N.shiftr n e).
    set (r := (n - N.shiftl q e)%N).
    set (half := N.shiftl 1 (e - 1)).
    set (q' := if (half <? r)%N || ((r =? half)%N && N.odd q) then (q + 1)%N else q).
    cbv zeta. fold e q r half q'.
    destruct (N.shiftl 1 1024 <=? N.shiftl q' e)%N eqn:Hover; [discriminate |].
    intros [= <-]. apply N.leb_gt in Hover.
    rewrite !N.shiftl_mul_pow2, N.mul_1_l in Hover.
    rewrite N.shiftl_mul_pow2.
    assert (He : (1 <= e)%N) by (unfold e; lia).
    assert (Hpos : (0 < 2 ^ e)%N) by (apply N.neq_0_lt_0, N.pow_nonzero; lia).
    assert (Hle : (q * 2 ^ e <= n)%N).
    { unfold q. rewrite N.shiftr_div_pow2, N.mul_comm.
      apply N.Div0.mul_div_le. }
    assert (Hr : (n = q * 2 ^ e + r)%N).
    { unfold r. rewrite N.shiftl_mul_pow2, N.add_comm.
      symmetry. apply N.sub_add, Hle. }
    assert (Hrlt : (r < 2 ^ e)%N).
    { unfold r, q. rewrite N.shiftl_mul_pow2, N.shiftr_div_pow2.
      rewrite (N.mul_comm (n / 2 ^ e)), <- N.Div0.mod_eq.
      apply N.mod_lt. apply N.pow_nonzero. lia. }
    assert (Hhalf : (2 * half = 2 ^ e)%N).
    { unfold half. rewrite N.shiftl_mul_pow2, N.mul_1_l.
      replace e with (N.succ (e - 1)) at 2 by lia.
      now rewrite N.pow_succ_r'. }
    assert (Hqlt : (q < 2 ^ 53)%N).
    { assert (Hn : (n < 2 ^ (53 + e))%N).
      { replace (53 + e)%N with (N.size n) by (unfold e; lia). apply N.size_gt. }
      rewrite N.pow_add_r in Hn.
      apply (N.mul_lt_mono_pos_r (2 ^ e)); [exact Hpos |].
      eapply N.le_lt_trans; [exact Hle | exact Hn]. }
    exists q', e. split; [reflexivity |].
    assert (Hq' : q' = q /\ (r <= half)%N \/ q' = (q + 1)%N /\ (half <= r)%N).
    { unfold q'.
      destruct ((half <? r)%N || ((r =? half)%N && N.odd q)) eqn:Hup.
      - right. split; [reflexivity |].
        apply orb_true_iff in Hup as [Hup | Hup].
        + apply N.ltb_lt in Hup. lia.
        + apply andb_true_iff in Hup as [Hup _]. apply N.eqb_eq in Hup. lia.
      - left. split; [reflexivity |].
        apply orb_false_iff in Hup as [Hup _]. apply N.ltb_ge in Hup. exact Hup. }
    clearbody q'. clearbody half. clearbody r. clearbody q.
    remember (2 ^ e)%N as p eqn:Hp. clear Hp. clearbody e.
    split; [lia |].
    split; [| split; [| exact Hover]];
      destruct Hq' as [[-> Hcmp] | [-> Hcmp]];
      rewrite ?N.mul_add_distr_r; lia.
Qed.

(** The largest double is 2^1024 - 2^971; from half a step above it the
    result is out of range. *)
Example toDouble_largest :
  JS.toDouble (2 ^ 1024 - 2 ^ 970 - 1) = Some (2 ^ 1024 - 2 ^ 971)%N
  /\ JS.toDouble (2 ^ 1024 - 2 ^ 970) = None.
Proof. split; vm_compute; reflexivity. Qed.

Example parseInt_reads :
  JS.parseInt "3600" = JS.Finite false 3600
  /\ JS.parseInt "  42px" = JS.Finite false 42
  /\ JS.parseInt "0x1F" = JS.Finite false 31
  /\ JS.parseInt "-15" = JS.Finite true 15
  /\ JS.parseInt "soon" = JS.NaN.
Proof. repeat split. Qed.

(** Above 2^53 the integer read is rounded to a double, a sign before a zero
    gives the negative zero, and a run of digits beyond the range of the
    doubles gives an infinity. *)
Example parseInt_rounds :
  JS.parseInt "9007199254740993" = JS.Finite false 9007199254740992
  /\ JS.parseInt "9007199254740995" = JS.Finite false 9007199254740996
  /\ JS.parseInt "-0" = JS.Finite true 0
  /\ JS.parseInt (String "1" (replicate 400 "0")) = JS.Infinity false
  /\ JS.parseInt (String "-" (String "1" (replicate 400 "0")))
     = JS.Infinity true.
Proof. repeat split; vm_compute; reflexivity. Qed.

(** ** The profile fetch *)

Lemma profileSignals_shape (calls : list HandlerCall) (e : Effect) :
  In e (profileSignals calls) -> e = SetState error_.
Proof.
  induction calls as [| c rest IH]; simpl; [tauto |].
  destruct c; simpl; auto. intros [<- | H]; auto.
Qed.

Lemma runHandlers_profileHandlers (calls : list HandlerCall) (w : World) :
  exists st,
    runHandlers profileHandlers calls w =
      (Ret tt,
       mkWorld st
               (if existsb isUnauthorized calls then error_ else state w)
               (mounted w) (auth_redirect w) (user_profile w)
               (effects w ++ profileSignals calls)).
Proof.
  revert w. induction calls as [| c rest IH]; intros w.
  - exists (status w). destruct w; simpl. now rewrite app_nil_r.
  - destruct c; simpl; try apply IH.
    + (* onError *)
      unfold bind, setStatus, modify; simpl.
      match goal with |- context [runHandlers _ _ ?w1] =>
        destruct (IH w1) as [st Hst]; rewrite Hst end.
      now exists st.
    + (* unauthorized *)
      unfold bind, setStatus, setState, emit, modify; simpl.
      match goal with |- context [runHandlers _ _ ?w1] =>
        destruct (IH w1) as [st Hst]; rewrite Hst end.
      exists st. simpl. rewrite <- app_assoc.
      destruct (existsb isUnauthorized rest); reflexivity.
Qed.

(** The profile fetch always completes; it may change the status text, the
    cached profile and, on an [unauthorized] signal, the state. *)
Lemma fetchProfile_result (browser : Browser)
    (user : ApiRun (ApiResult UserResponse)) (w : World) :
  exists st up,
    fetchProfile browser user w =
      (Ret tt,
       mkWorld st
               (if existsb isUnauthorized (invoked user) then error_ else state w)
               (mounted w) (auth_redirect w) up
               (effects w ++ GetCurrentUser :: profileSignals (invoked user))).
Proof.
  unfold fetchProfile, try_catch, await.
  unfold bind at 1. unfold emit at 1, modify at 1.
  unfold bind at 1. unfold bind at 1.
  match goal with |- context [runHandlers _ _ ?w1] =>
    destruct (runHandlers_profileHandlers (invoked user) w1) as [st Hst];
    rewrite Hst end.
  simpl. rewrite <- app_assoc. simpl.
  destruct (outcome user) as [u | e]; simpl.
  - destruct (data u) as [userResponse |]; simpl; [| now eexists; eexists].
    destruct (profile userResponse) as [text |]; simpl; [| now eexists; eexists].
    destruct (hasWindow browser); simpl; [| now eexists; eexists].
    unfold storeProfile. destruct (localStorageWritable browser);
      unfold bind, setUserProfile, setStatus, modify, throw; simpl;
      now eexists; eexists.
  - unfold throw, setStatus, modify; simpl. now eexists; eexists.
Qed.

(** ** The redirect target *)

Lemma withStash_same (w : World) : withStash (auth_redirect w) w = w.
Proof. destruct w; reflexivity. Qed.

Lemma fromState_result (params : list (string * string)) (w : World) :
  fromState (Some params) w = (Ret (decoded (JS.get params "state")), w).
Proof.
  unfold fromState, decoded, param.
  destruct (JS.get params "state") as [st |]; [| reflexivity].
  destruct (JS.nonempty st); [| reflexivity].
  unfold try_catch, bind, decodeURIComponent.
  destruct (JS.decodeURIComponent st); reflexivity.
Qed.

(** A [state] parameter that does not decode counts as no [state]
    parameter. *)
Lemma fromState_malformed_is_absent
    (params : list (string * string)) (st : string) (w : World) :
  JS.get params "state" = Some st ->
  JS.decodeURIComponent st = None ->
  fromState (Some params) w = (Ret None, w).
Proof.
  intros Hget Hdec. rewrite fromState_result, Hget. unfold decoded.
  rewrite Hdec. now destruct (JS.nonempty st).
Qed.

Lemma fromSessionStorage_result (browser : Browser) (w : World) :
  mounted w = true ->
  hasWindow browser = true ->
  sessionStorageReadable browser = true ->
  fromSessionStorage browser w =
    match auth_redirect w with
    | Some (String c v) => (Ret (Some (String c v)), withStash None w)
    | _ => (Ret None, w)
    end.
Proof.
  intros Hm Hw Hr.
  unfold fromSessionStorage, bind at 1, gets at 1.
  rewrite Hm, Hw. simpl. unfold try_catch, bind at 1, getSavedRedirect.
  rewrite Hr. unfold gets.
  destruct (auth_redirect w) as [[| c v] |]; reflexivity.
Qed.

(** When the second source decodes, the code computes the target the
    specification describes, and erases the stash exactly when the
    specification does. *)
Lemma getRedirectUrl_agrees_with_spec
    (params : list (string * string)) (browser : Browser) (w : World) :
  mounted w = true ->
  hasWindow browser = true ->
  sessionStorageReadable browser = true ->
  decoded (JS.get params "state") <> None \/ redirectToDecodes params = true ->
  getRedirectUrl (Some params) browser w =
    (Ret (fst (resolve_spec params (auth_redirect w))),
     withStash (snd (resolve_spec params (auth_redirect w))) w).
Proof.
  intros Hm Hw Hr Hdec.
  unfold getRedirectUrl, bind at 1. rewrite fromState_result.
  unfold resolve_spec.
  destruct (decoded (JS.get params "state")) as [url |] eqn:Est.
  - simpl. now rewrite withStash_same.
  - destruct Hdec as [Hdec | Hdec]; [contradiction |].
    unfold bind at 1, fromRedirectTo, param.
    unfold redirectToDecodes in Hdec. unfold JS.or_else in *.
    unfold decoded.
    destruct (JS.get params "redirect_to") as [r1 |] eqn:E1; simpl in *.
    + destruct (JS.nonempty r1) eqn:N1; simpl in *.
      * rewrite N1 in *. unfold bind, decodeURIComponent.
        destruct (JS.decodeURIComponent r1); [| discriminate].
        simpl. now rewrite withStash_same.
      * destruct (JS.get params "returnTo") as [r2 |] eqn:E2; simpl in *.
        -- destruct (JS.nonempty r2) eqn:N2; simpl in *.
           ++ unfold bind at 1, decodeURIComponent.
              destruct (JS.decodeURIComponent r2); [| discriminate].
              simpl. now rewrite withStash_same.
           ++ unfold bind. rewrite fromSessionStorage_result; auto.
              destruct (auth_redirect w) as [[| c v] |] eqn:Ea; simpl;
                try reflexivity; now rewrite <- Ea, withStash_same.
        -- unfold bind. rewrite fromSessionStorage_result; auto.
           destruct (auth_redirect w) as [[| c v] |] eqn:Ea; simpl;
             try reflexivity; now rewrite <- Ea, withStash_same.
    + destruct (JS.get params "returnTo") as [r2 |] eqn:E2; simpl in *.
      * destruct (JS.nonempty r2) eqn:N2; simpl in *.
        -- unfold bind at 1, decodeURIComponent.
           destruct (JS.decodeURIComponent r2); [| discriminate].
           simpl. now rewrite withStash_same.
        -- unfold bind. rewrite fromSessionStorage_result; auto.
           destruct (auth_redirect w) as [[| c v] |] eqn:Ea; simpl;
             try reflexivity; now rewrite <- Ea, withStash_same.
      * unfold bind. rewrite fromSessionStorage_result; auto.
        destruct (auth_redirect w) as [[| c v] |] eqn:Ea; simpl;
          try reflexivity; now rewrite <- Ea, withStash_same.
Qed.

(** In the other case, a [state] that gives nothing and a second source that
    does not decode, the code throws and leaves the world as it was. *)
Lemma getRedirectUrl_throws
    (params : list (string * string)) (browser : Browser) (w : World) :
  decoded (JS.get params "state") = None ->
  redirectToDecodes params = false ->
  getRedirectUrl (Some params) browser w = (Throw JS.URIError, w).
Proof.
  intros Hst Hdec.
  unfold getRedirectUrl, bind at 1. rewrite fromState_result, Hst.
  unfold bind at 1, fromRedirectTo, param.
  unfold redirectToDecodes in Hdec.
  destruct (JS.or_else _ _) as [r |]; [| discriminate].
  destruct (JS.nonempty r); [| discriminate].
  unfold bind, decodeURIComponent.
  destruct (JS.decodeURIComponent r); [discriminate | reflexivity].
Qed.

Lemma sameButStash_refl (w : World) : sameButStash w w.
Proof. unfold sameButStash. now rewrite withStash_same. Qed.

Lemma preserves_decodeURIComponent (P : World -> Prop) (s : string) :
  preserves P (decodeURIComponent s).
Proof.
  unfold decodeURIComponent.
  destruct (JS.decodeURIComponent s); [apply preserves_ret | apply preserves_throw].
Qed.

(** [getRedirectUrl] touches nothing but the stashed redirect, whatever the
    parameters and the browser, and whether it returns or throws. *)
Lemma getRedirectUrl_frame (sp : option (list (string * string)))
    (browser : Browser) (w0 : World) :
  preserves (sameButStash w0) (getRedirectUrl sp browser).
Proof.
  unfold getRedirectUrl.
  apply preserves_bind.
  { unfold fromState. destruct (param sp "state") as [st |];
      [| apply preserves_ret].
    destruct (JS.nonempty st); [| apply preserves_ret].
    apply preserves_try_catch; [| intros _; apply preserves_ret].
    apply preserves_bind; [apply preserves_decodeURIComponent |].
    intros v. apply preserves_ret. }
  intros [url |]; [apply preserves_ret |].
  apply preserves_bind.
  { unfold fromRedirectTo. destruct (JS.or_else _ _) as [r |];
      [| apply preserves_ret].
    destruct (JS.nonempty r); [| apply preserves_ret].
    apply preserves_bind; [apply preserves_decodeURIComponent |].
    intros v. apply preserves_ret. }
  intros [url |]; [apply preserves_ret |].
  apply preserves_bind.
  { unfold fromSessionStorage.
    apply preserves_bind; [apply preserves_gets |]. intros m.
    destruct (m && hasWindow browser); [| apply preserves_ret].
    apply preserves_try_catch; [| intros _; apply preserves_ret].
    apply preserves_bind.
    - unfold getSavedRedirect. destruct (sessionStorageReadable browser);
        [apply preserves_gets | apply preserves_throw].
    - intros [v |]; [| apply preserves_ret].
      destruct (JS.nonempty v); [| apply preserves_ret].
      apply preserves_bind; [| intros _; apply preserves_ret].
      apply preserves_modify. intros w Hw. unfold sameButStash in *.
      rewrite Hw. reflexivity. }
  intros [url |]; apply preserves_ret.
Qed.

(** ** [handleAuthSuccess], step by step *)

Lemma handleAuthSuccess_result (sp : option (list (string * string)))
    (browser : Browser) (authData : AuthData)
    (user : ApiRun (ApiResult UserResponse)) (w : World) :
  exists st up,
    let w2 := afterProfile authData user st up w in
    handleAuthSuccess sp browser authData user w =
      match getRedirectUrl sp browser w2 with
      | (Ret url, w3) =>
          (Ret tt,
           mkWorld (status w3) (state w3) (mounted w3) (auth_redirect w3)
                   (user_profile w3)
                   (effects w3 ++ [SetTimeoutPush 1000 url]))
      | (Throw e, w3) => (Throw e, w3)
      end.
Proof.
  unfold handleAuthSuccess.
  unfold bind at 1, emit at 1, modify at 1.
  unfold bind at 1, setStatus at 1, modify at 1.
  unfold bind at 1, setState at 1, bind at 1, emit at 1, modify.
  unfold bind at 1.
  match goal with |- context [fetchProfile _ _ ?w1] =>
    destruct (fetchProfile_result browser user w1) as (st & up & Hf);
    rewrite Hf end.
  exists st, up. simpl. unfold afterProfile, bind.
  rewrite <- !app_assoc. simpl.
  destruct (getRedirectUrl sp browser _) as [[url | e] w3]; reflexivity.
Qed.

(** C1. After [handleAuthSuccess] has saved the session and set the state to
    success, the state at the end of the function is success for every run
    of the profile fetch in which the [unauthorized] callback was not
    invoked: a profile, no profile, an [onError] signal or an exception all
    leave it at success.  When the [unauthorized] callback was invoked the
    state is error.  In both cases the session stays saved. *)
Theorem handleAuthSuccess_state_after_profile_fetch
    (sp : option (list (string * string))) (browser : Browser)
    (authData : AuthData) (user : ApiRun (ApiResult UserResponse))
    (w : World) :
  let w' := exec (handleAuthSuccess sp browser authData user) w in
  state w' = (if existsb isUnauthorized (invoked user) then error_ else success)
  /\ In (SaveAuthData authData) (effects w')
  /\ In (SetState success) (effects w').
Proof.
  intros w'.
  destruct (handleAuthSuccess_result sp browser authData user w)
    as (st & up & H).
  cbv zeta in H. unfold w', exec. rewrite H. clear H.
  pose proof (getRedirectUrl_frame sp browser _ _
                (sameButStash_refl (afterProfile authData user st up w)))
    as Hframe.
  destruct (getRedirectUrl sp browser _) as [[url | e] w3]; simpl in *;
    rewrite Hframe; simpl;
    (split; [reflexivity |]);
    split; repeat rewrite in_app_iff; simpl; auto 10.
Qed.

(** The claim of C1 as worded fails: with [token=abc123] in the URL and a
    profile fetch answered with 401, the session is saved, the state is set to
    success, and the state the page ends in is error, not success. *)
Lemma unauthorized_profile_fetch_leaves_success_state :
  effects (exec (authEffect (Some [("token", "abc123")]) openBrowser
                            idleExchange profileUnauthorized)
                (mountedWorld None))
  = [SaveAuthData (mkAuthData "abc123" None None None (Some true));
     SetState success; GetCurrentUser; SetState error_;
     SetTimeoutPush 1000 "/"]
  /\ state (exec (authEffect (Some [("token", "abc123")]) openBrowser
                             idleExchange profileUnauthorized)
                 (mountedWorld None))
     <> success.
Proof. split; [reflexivity | discriminate]. Qed.

(** ** Scheduling the redirect *)

Lemma fromSessionStorage_returns (browser : Browser) (w : World) :
  exists r v, fromSessionStorage browser w = (Ret r, withStash v w).
Proof.
  unfold fromSessionStorage, bind at 1, gets at 1.
  destruct (mounted w && hasWindow browser).
  - unfold try_catch, bind, getSavedRedirect.
    destruct (sessionStorageReadable browser); unfold gets, throw.
    + destruct (auth_redirect w) as [[| c v] |] eqn:E.
      * exists None, (auth_redirect w). now rewrite withStash_same.
      * exists (Some (String c v)), None. reflexivity.
      * exists None, (auth_redirect w). now rewrite withStash_same.
    + exists None, (auth_redirect w). now rewrite withStash_same.
  - exists None, (auth_redirect w). now rewrite withStash_same.
Qed.

(** [getRedirectUrl] returns whenever [state] decodes or the second source
    decodes. *)
Lemma getRedirectUrl_returns
    (params : list (string * string)) (browser : Browser) (w : World) :
  decoded (JS.get params "state") <> None \/ redirectToDecodes params = true ->
  exists url v,
    getRedirectUrl (Some params) browser w = (Ret url, withStash v w).
Proof.
  intros Hdec.
  unfold getRedirectUrl, bind at 1. rewrite fromState_result.
  destruct (decoded (JS.get params "state")) as [url |].
  - exists url, (auth_redirect w). now rewrite withStash_same.
  - destruct Hdec as [Hdec | Hdec]; [contradiction |].
    unfold bind at 1, fromRedirectTo, param.
    unfold redirectToDecodes in Hdec.
    assert (Hstore : exists url v,
               (c <- fromSessionStorage browser ;;
                match c with
                | Some url => ret url
                | None => ret "/"
                end)%eff w = (Ret url, withStash v w)).
    { unfold bind.
      destruct (fromSessionStorage_returns browser w) as (r & v & ->).
      destruct r as [url |]; [exists url, v | exists "/", v]; reflexivity. }
    destruct (JS.or_else _ _) as [r |]; [| exact Hstore].
    destruct (JS.nonempty r); [| exact Hstore].
    unfold bind, decodeURIComponent.
    destruct (JS.decodeURIComponent r) as [url |]; [| discriminate].
    exists url, (auth_redirect w). now rewrite withStash_same.
Qed.

(** X23. Whatever the profile fetch does, once the session is saved the
    navigation is scheduled one second ahead, provided the redirect target
    can be computed. *)
Lemma handleAuthSuccess_schedules_redirect
    (params : list (string * string)) (browser : Browser)
    (authData : AuthData) (user : ApiRun (ApiResult UserResponse))
    (w : World) :
  decoded (JS.get params "state") <> None \/ redirectToDecodes params = true ->
  exists url,
    effects (exec (handleAuthSuccess (Some params) browser authData user) w) =
      effects w
      ++ SaveAuthData authData :: SetState success :: GetCurrentUser
      :: profileSignals (invoked user) ++ [SetTimeoutPush 1000 url].
Proof.
  intros Hdec.
  destruct (handleAuthSuccess_result (Some params) browser authData user w)
    as (st & up & H).
  cbv zeta in H. unfold exec. rewrite H. clear H.
  destruct (getRedirectUrl_returns params browser
              (afterProfile authData user st up w) Hdec) as (url & v & ->).
  exists url. simpl. rewrite <- app_assoc. reflexivity.
Qed.

(** With a token in the URL, a [state] that gives nothing and a second
    source that does not decode, the session is saved, the state is set to
    success and then to error, and no navigation is scheduled, whatever the
    profile fetch does. *)
Lemma processAuth_token_undecodable_hint
    (params : list (string * string)) (browser : Browser)
    (exchange : ApiRun (ApiResult (Response AuthData)))
    (user : ApiRun (ApiResult UserResponse)) (w : World) (t : string) :
  JS.get params "token" = Some t ->
  JS.nonempty t = true ->
  decoded (JS.get params "state") = None ->
  redirectToDecodes params = false ->
  let w' := exec (processAuth (Some params) browser exchange user) w in
  effects w' =
    effects w
    ++ SaveAuthData (authDataOfParams (Some params) t)
    :: SetState success :: GetCurrentUser
    :: profileSignals (invoked user) ++ [SetState error_]
  /\ state w' = error_.
Proof.
  intros Hget Hne Hst Hdec w'.
  destruct t as [| c t]; [discriminate |].
  unfold w', exec, processAuth, try_catch. rewrite Hget.
  destruct (handleAuthSuccess_result (Some params) browser
              (authDataOfParams (Some params) (String c t)) user w)
    as (st & up & H).
  cbv zeta in H. rewrite H. clear H.
  rewrite (getRedirectUrl_throws params browser _ Hst Hdec).
  split.
  - simpl. rewrite <- app_assoc. reflexivity.
  - reflexivity.
Qed.

(** ** The token path of [processAuth] *)





(** C10. With [token=abc123] and a [redirect_to] hint that does not
    percent-decode, the session is saved and the state set to success, the
    profile is fetched, and then the computation of the redirect target
    throws: the state becomes error and no navigation is scheduled. *)
Theorem malformed_redirect_to_saved_session_without_navigation :
  effects (exec (authEffect
                   (Some [("token", "abc123"); ("redirect_to", "/search?q=100%")])
                   openBrowser idleExchange profileDelivered)
                (mountedWorld None))
  = [SaveAuthData (mkAuthData "abc123" None None None (Some true));
     SetState success; GetCurrentUser; SetState error_]
  /\ state (exec (authEffect
                    (Some [("token", "abc123"); ("redirect_to", "/search?q=100%")])
                    openBrowser idleExchange profileDelivered)
                 (mountedWorld None))
     = error_
  /\ status (exec (authEffect
                     (Some [("token", "abc123"); ("redirect_to", "/search?q=100%")])
                     openBrowser idleExchange profileDelivered)
                  (mountedWorld None))
     = "认证失败: URI malformed".
Proof. repeat split. Qed.

(** C2. With no [state], a [redirect_to] hint that does not percent-decode
    and a stashed redirect [/settings], [getRedirectUrl] throws [URIError]
    and leaves the stash in place, where the resolver of the specification
    returns [/settings] and erases the stash. *)
Theorem getRedirectUrl_throws_on_malformed_redirect_to :
  getRedirectUrl (Some [("redirect_to", "/search?q=100%")]) openBrowser
                 (mountedWorld (Some "/settings"))
  = (Throw JS.URIError, mountedWorld (Some "/settings"))
  /\ resolve_spec [("redirect_to", "/search?q=100%")] (Some "/settings")
     = ("/settings", None).
Proof. split; reflexivity. Qed.

(** C3. A [state] that does not percent-decode is skipped, but a
    [returnTo] that does not percent-decode is not: with both malformed,
    the first source gives nothing and falls through, and [getRedirectUrl]
    then throws [URIError] instead of going on to the stash and the root. *)
Theorem getRedirectUrl_throws_on_malformed_returnTo :
  fromState (Some [("state", "%E0%A4%A"); ("returnTo", "%")])
            (mountedWorld None)
  = (Ret None, mountedWorld None)
  /\ getRedirectUrl (Some [("state", "%E0%A4%A"); ("returnTo", "%")])
                    openBrowser (mountedWorld None)
     = (Throw JS.URIError, mountedWorld None)
  /\ resolve_spec [("state", "%E0%A4%A"); ("returnTo", "%")] None
     = ("/", None).
Proof. repeat split. Qed.

(** The examples of the specification on which code and specification
    agree. *)
Example resolve_state_docs :
  getRedirectUrl (Some [("state", "%2Fdocs")]) openBrowser (mountedWorld None)
  = (Ret "/docs", mountedWorld None).
Proof. reflexivity. Qed.

Example resolve_redirect_to_team :
  getRedirectUrl (Some [("redirect_to", "%2Fteam")]) openBrowser
                 (mountedWorld None)
  = (Ret "/team", mountedWorld None).
Proof. reflexivity. Qed.

Example resolve_stash_then_root :
  getRedirectUrl (Some []) openBrowser (mountedWorld (Some "/settings"))
  = (Ret "/settings", mountedWorld None)
  /\ getRedirectUrl (Some []) openBrowser (mountedWorld None)
     = (Ret "/", mountedWorld None).
Proof. split; reflexivity. Qed.

(** The session built from the parameters of a token callback. *)
Example authData_of_token_callback :
  authDataOfParams
    (Some [("token", "abc123"); ("refresh_token", "r1");
           ("expires_in", "3600"); ("refresh_expires_in", "soon")])
    "abc123"
  = mkAuthData "abc123" (Some "r1") (Some (JS.Finite false 3600)) (Some JS.NaN)
               (Some true).
Proof. reflexivity. Qed.

(** A code callback whose exchange the server answers with code 200. *)
Example code_callback_run :
  effects (exec (authEffect (Some [("code", "xyz"); ("state", "%2Fdocs")])
                            openBrowser
                            (mkApiRun []
                               (Ret (mkApiResult
                                       (Some (mkResponse 200 None
                                                (mkAuthData "t0k" None None None None)))
                                       None)))
                            profileDelivered)
                (mountedWorld None))
  = [GithubCallback "xyz";
     SaveAuthData (mkAuthData "t0k" None None None None);
     SetState success; GetCurrentUser; SetTimeoutPush 1000 "/docs"].
Proof. reflexivity. Qed.

(** Before the mount effect has run, the authentication effect does
    nothing. *)
Example authEffect_waits_for_mount :
  exec (authEffect (Some [("token", "abc123")]) openBrowser
                   idleExchange profileDelivered)
       (initial None None)
  = initial None None.
Proof. reflexivity. Qed.

(** ** Every run of [processAuth] *)

Lemma try_catch_bind {S A B : Type} (m : Eff S A) (k : A -> Eff S B)
    (h : JS.Thrown -> Eff S B) (s : S) :
  try_catch (bind m k) h s =
    match m s with
    | (Ret a, s1) => try_catch (k a) h s1
    | (Throw e, s1) => h e s1
    end.
Proof. unfold try_catch, bind. destruct (m s) as [[a | e] s1]; reflexivity. Qed.

Lemma runHandlers_exchangeHandlers (calls : list HandlerCall) (w : World) :
  exists st, runHandlers exchangeHandlers calls w = (Ret tt, withStatus st w).
Proof.
  revert w. induction calls as [| c rest IH]; intros w.
  - exists (status w). destruct w; reflexivity.
  - destruct c as [err | | | | |]; simpl; try apply IH.
    unfold bind, when, setStatus, modify.
    destruct (JS.instanceofError err); [| apply IH].
    destruct (_ || _); [| destruct (JS.includes _ _)];
      match goal with |- context [runHandlers _ _ ?w1] =>
        destruct (IH w1) as [st Hst]; rewrite Hst; now exists st end.
Qed.

Lemma await_exchangeHandlers {R : Type} (run : ApiRun R) (w : World) :
  exists st, await exchangeHandlers run w = (outcome run, withStatus st w).
Proof.
  unfold await, bind.
  destruct (runHandlers_exchangeHandlers (invoked run) w) as [st ->].
  exists st. destruct (outcome run); reflexivity.
Qed.

Lemma processAuthCatch_result (e : JS.Thrown) (w : World) :
  exists st,
    processAuthCatch e w =
      (Ret tt,
       mkWorld st error_ (mounted w) (auth_redirect w) (user_profile w)
               (effects w ++ [SetState error_])).
Proof.
  unfold processAuthCatch, bind, setState, setStatus, emit, modify.
  destruct (JS.instanceofError e);
    [destruct (_ || _); [| destruct (_ || _)] |];
    simpl; now eexists.
Qed.

Lemma profileSignals_errorSignals (calls : list HandlerCall) :
  errorSignals (profileSignals calls).
Proof. intros e. apply profileSignals_shape. Qed.

Lemma profileSignals_state (calls : list HandlerCall) :
  (if existsb isUnauthorized calls then error_ else success)
  = match profileSignals calls with
    | [] => success
    | _ :: _ => error_
    end.
Proof.
  induction calls as [| c rest IH]; simpl; [reflexivity |].
  destruct c; simpl; auto.
Qed.

(** [handleAuthSuccess] under the [catch] of [processAuth]. *)
Lemma handleAuthSuccess_caught (sp : option (list (string * string)))
    (browser : Browser) (a : AuthData)
    (user : ApiRun (ApiResult UserResponse)) (w : World) :
  exists st fs ar up tail,
    try_catch (handleAuthSuccess sp browser a user) processAuthCatch w =
      (Ret tt,
       mkWorld st fs (mounted w) ar up
               (effects w
                ++ SaveAuthData a :: SetState success :: GetCurrentUser
                :: profileSignals (invoked user) ++ [tail]))
    /\ ((tail = SetState error_ /\ fs = error_)
        \/ (exists url,
              tail = SetTimeoutPush 1000 url
              /\ fs = match profileSignals (invoked user) with
                      | [] => success
                      | _ :: _ => error_
                      end)).
Proof.
  unfold try_catch.
  destruct (handleAuthSuccess_result sp browser a user w) as (st & up & H).
  cbv zeta in H. rewrite H. clear H.
  match goal with |- context [getRedirectUrl _ _ ?w2] =>
    pose proof (getRedirectUrl_frame sp browser _ _ (sameButStash_refl w2))
      as Hframe
  end.
  destruct (getRedirectUrl sp browser _) as [[url | e] w3];
    simpl in Hframe; rewrite Hframe.
  - exists st, (if existsb isUnauthorized (invoked user) then error_ else success),
      (auth_redirect w3), up, (SetTimeoutPush 1000 url).
    split.
    + simpl. rewrite <- app_assoc. reflexivity.
    + right. exists url. split; [reflexivity | apply profileSignals_state].
  - match goal with |- context [processAuthCatch e ?w4] =>
      destruct (processAuthCatch_result e w4) as [st' Hc]; rewrite Hc end.
    exists st', error_, (auth_redirect w3), up, (SetState error_).
    split.
    + simpl. rewrite <- app_assoc. reflexivity.
    + left. auto.
Qed.

Lemma settled_session (pre : list Effect) (a : AuthData)
    (signals : list Effect) (tail : Effect) (fs : FlowState) :
  sessionPrefix pre ->
  errorSignals signals ->
  (tail = SetState error_ /\ fs = error_)
  \/ (exists url,
        tail = SetTimeoutPush 1000 url
        /\ fs = match signals with
                | [] => success
                | _ :: _ => error_
                end) ->
  settled (pre ++ SaveAuthData a :: SetState success :: GetCurrentUser
               :: signals ++ [tail]) fs.
Proof.
  intros Hpre Hsig [[-> ->] | (url & -> & ->)].
  - now apply settled_thrown.
  - now apply settled_navigate.
Qed.

(** Whatever the parameters, the browser, the service and the world,
    [processAuth] returns, and what it has done is one of the four shapes of
    [settled]. *)
Lemma processAuth_settled (sp : option (list (string * string)))
    (browser : Browser)
    (exchange : ApiRun (ApiResult (Response AuthData)))
    (user : ApiRun (ApiResult UserResponse)) (w : World) :
  exists st fs ar up added,
    processAuth sp browser exchange user w =
      (Ret tt, mkWorld st fs (mounted w) ar up (effects w ++ added))
    /\ settled added fs.
Proof.
  assert (Hrejected : forall st,
             exists st' fs ar up added,
               try_catch (setStatus st ;; setState error_)%eff processAuthCatch w =
                 (Ret tt, mkWorld st' fs (mounted w) ar up (effects w ++ added))
               /\ settled added fs).
  { intros st. exists st, error_, (auth_redirect w), (user_profile w),
      [SetState error_].
    split; [reflexivity | constructor]. }
  unfold processAuth. destruct sp as [p |]; [| apply Hrejected].
  assert (Hcode :
            exists st fs ar up added,
              try_catch
                (match JS.get p "code" with
                 | Some (String c k) =>
                     setStatus "正在与GitHub服务器通信..." ;;
                     emit (GithubCallback (String c k)) ;;
                     r <- await exchangeHandlers exchange ;;
                     match error r with
                     | Some (String c' m) =>
                         setStatus ("登录失败: " ++ String c' m) ;;
                         setState error_
                     | _ =>
                         match data r with
                         | Some d =>
                             if (resp_code d =? 200)%Z
                             then handleAuthSuccess (Some p) browser (resp_data d) user
                             else
                               setStatus ("登录失败: "
                                          ++ JS.or_default (resp_message d) "未知错误") ;;
                               setState error_
                         | None =>
                             setStatus "登录失败: 未知错误" ;;
                             setState error_
                         end
                     end
                 | _ =>
                     setStatus "未收到授权码或Token，请重新尝试登录" ;;
                     setState error_
                 end)%eff
                processAuthCatch w =
                (Ret tt, mkWorld st fs (mounted w) ar up (effects w ++ added))
              /\ settled added fs).
  { destruct (JS.get p "code") as [[| c k] |]; try apply Hrejected.
    rewrite try_catch_bind. unfold setStatus at 1, modify at 1.
    rewrite try_catch_bind. unfold emit at 1, modify at 1.
    rewrite try_catch_bind.
    match goal with |- context [await exchangeHandlers exchange ?w1] =>
      destruct (await_exchangeHandlers exchange w1) as [st1 Hawait];
      rewrite Hawait
    end.
    destruct (outcome exchange) as [r | e].
    - assert (Hfailed : forall st,
                 exists st' fs ar up added,
                   try_catch (setStatus st ;; setState error_)%eff processAuthCatch
                     (withStatus st1
                        (mkWorld "正在与GitHub服务器通信..." (state w) (mounted w)
                                 (auth_redirect w) (user_profile w)
                                 (effects w ++ [GithubCallback (String c k)]))) =
                     (Ret tt, mkWorld st' fs (mounted w) ar up (effects w ++ added))
                   /\ settled added fs).
      { intros st. exists st, error_, (auth_redirect w), (user_profile w),
          [GithubCallback (String c k); SetState error_].
        split; [| constructor].
        unfold try_catch, bind, setStatus, setState, emit, modify, withStatus.
        simpl. rewrite <- app_assoc. reflexivity. }
      destruct (error r) as [[| c' m] |].
      + destruct (data r) as [d |]; [| apply Hfailed].
        destruct (resp_code d =? 200)%Z; [| apply Hfailed].
        match goal with |- context [try_catch _ _ ?w2] =>
          destruct (handleAuthSuccess_caught (Some p) browser (resp_data d) user w2)
            as (st & fs & ar & up & tail & Hrun & Htail)
        end.
        exists st, fs, ar, up,
          ([GithubCallback (String c k)]
           ++ SaveAuthData (resp_data d) :: SetState success :: GetCurrentUser
           :: profileSignals (invoked user) ++ [tail]).
        split.
        * rewrite Hrun. simpl. rewrite <- app_assoc. reflexivity.
        * apply settled_session;
            [right; now eexists | apply profileSignals_errorSignals | exact Htail].
      + apply Hfailed.
      + destruct (data r) as [d |]; [| apply Hfailed].
        destruct (resp_code d =? 200)%Z; [| apply Hfailed].
        match goal with |- context [try_catch _ _ ?w2] =>
          destruct (handleAuthSuccess_caught (Some p) browser (resp_data d) user w2)
            as (st & fs & ar & up & tail & Hrun & Htail)
        end.
        exists st, fs, ar, up,
          ([GithubCallback (String c k)]
           ++ SaveAuthData (resp_data d) :: SetState success :: GetCurrentUser
           :: profileSignals (invoked user) ++ [tail]).
        split.
        * rewrite Hrun. simpl. rewrite <- app_assoc. reflexivity.
        * apply settled_session;
            [right; now eexists | apply profileSignals_errorSignals | exact Htail].
    - match goal with |- context [processAuthCatch e ?w2] =>
        destruct (processAuthCatch_result e w2) as [st' Hc]; rewrite Hc end.
      exists st', error_, (auth_redirect w), (user_profile w),
        [GithubCallback (String c k); SetState error_].
      split; [| constructor].
      simpl. rewrite <- app_assoc. reflexivity. }
  destruct (JS.get p "token") as [[| c t] |]; try exact Hcode.
  destruct (handleAuthSuccess_caught (Some p) browser
              (authDataOfParams (Some p) (String c t)) user w)
    as (st & fs & ar & up & tail & Hrun & Htail).
  exists st, fs, ar, up,
    ([] ++ SaveAuthData (authDataOfParams (Some p) (String c t))
        :: SetState success :: GetCurrentUser
        :: profileSignals (invoked user) ++ [tail]).
  split; [exact Hrun |].
  apply settled_session;
    [now left | apply profileSignals_errorSignals | exact Htail].
Qed.

Lemma settled_not_loading (added : list Effect) (fs : FlowState) :
  settled added fs -> fs <> loading.
Proof.
  intros H. destruct H as [| code | pre a signals Hp Hs | pre a signals url Hp Hs];
    try discriminate.
  destruct signals; discriminate.
Qed.

(** X11. [processAuth] never throws and never leaves the component in the
    loading state: for every callback URL, browser, answer of the service and
    starting world it returns with the state set to success or to error. *)
Theorem processAuth_always_settles
    (sp : option (list (string * string))) (browser : Browser)
    (exchange : ApiRun (ApiResult (Response AuthData)))
    (user : ApiRun (ApiResult UserResponse)) (w : World) :
  fst (processAuth sp browser exchange user w) = Ret tt
  /\ state (exec (processAuth sp browser exchange user) w) <> loading
  /\ mounted (exec (processAuth sp browser exchange user) w) = mounted w.
Proof.
  destruct (processAuth_settled sp browser exchange user w)
    as (st & fs & ar & up & added & Hrun & Hset).
  unfold exec. rewrite Hrun. simpl.
  split; [reflexivity |]. split; [| reflexivity].
  eapply settled_not_loading, Hset.
Qed.

Lemma count_app (kind : Effect -> bool) (a b : list Effect) :
  count kind (a ++ b) = count kind a + count kind b.
Proof. unfold count. now rewrite filter_app, length_app. Qed.

Lemma count_errorSignals (kind : Effect -> bool) (signals : list Effect) :
  kind (SetState error_) = false ->
  errorSignals signals ->
  count kind signals = 0.
Proof.
  intros Hk. induction signals as [| e rest IH]; intros Hs; [reflexivity |].
  unfold count in *. simpl.
  rewrite (Hs e (or_introl eq_refl)), Hk.
  apply IH. intros e' He'. apply Hs. now right.
Qed.

Lemma count_sessionPrefix (pre : list Effect) :
  sessionPrefix pre ->
  count isSave pre = 0 /\ count isExchange pre <= 1
  /\ count isProfileFetch pre = 0 /\ count isNavigation pre = 0.
Proof.
  intros [-> | [code ->]]; unfold count; simpl; repeat split; lia.
Qed.

Lemma sessionPrefix_no_navigation (pre : list Effect) (ms : Z) (url : string) :
  sessionPrefix pre -> ~ In (SetTimeoutPush ms url) pre.
Proof.
  intros [-> | [code ->]] Hin; simpl in Hin;
    [exact Hin | destruct Hin as [E | []]; discriminate].
Qed.

Lemma session_counts (pre : list Effect) (a : AuthData)
    (signals : list Effect) (tail : Effect) :
  sessionPrefix pre ->
  errorSignals signals ->
  isSave tail = false -> isExchange tail = false -> isProfileFetch tail = false ->
  let added := pre ++ SaveAuthData a :: SetState success :: GetCurrentUser
                   :: signals ++ [tail] in
  count isSave added <= 1
  /\ count isExchange added <= 1
  /\ count isProfileFetch added <= 1
  /\ count isNavigation added <= 1.
Proof.
  intros Hp Hs T1 T2 T3 added.
  destruct (count_sessionPrefix pre Hp) as (P1 & P2 & P3 & P4).
  assert (Hshape : added = pre ++ [SaveAuthData a; SetState success; GetCurrentUser]
                               ++ signals ++ [tail]) by reflexivity.
  rewrite Hshape, !count_app.
  rewrite (count_errorSignals isSave signals eq_refl Hs),
          (count_errorSignals isExchange signals eq_refl Hs),
          (count_errorSignals isProfileFetch signals eq_refl Hs),
          (count_errorSignals isNavigation signals eq_refl Hs).
  rewrite P1, P3, P4. clear Hshape. unfold count in *; simpl.
  rewrite T1, T2, T3.
  destruct (isNavigation tail); simpl; lia.
Qed.

(** X12. In a run of [processAuth] the session is saved at most once, the
    code exchange and the profile fetch are called at most once each, and at
    most one navigation is scheduled; a navigation is always scheduled one
    second ahead, and only after a session has been saved. *)
Theorem processAuth_navigation_follows_session
    (sp : option (list (string * string))) (browser : Browser)
    (exchange : ApiRun (ApiResult (Response AuthData)))
    (user : ApiRun (ApiResult UserResponse)) (w : World) :
  exists added,
    effects (exec (processAuth sp browser exchange user) w) = effects w ++ added
    /\ count isSave added <= 1
    /\ count isExchange added <= 1
    /\ count isProfileFetch added <= 1
    /\ count isNavigation added <= 1
    /\ forall ms url,
         In (SetTimeoutPush ms url) added ->
         ms = 1000%Z
         /\ exists a before after,
              added = before ++ SaveAuthData a :: after
              /\ In (SetTimeoutPush ms url) after.
Proof.
  destruct (processAuth_settled sp browser exchange user w)
    as (st & fs & ar & up & added & Hrun & Hset).
  exists added. unfold exec. rewrite Hrun. simpl.
  split; [reflexivity |].
  destruct Hset as [| code | pre a signals Hp Hs | pre a signals url Hp Hs].
  - unfold count; simpl. repeat split; try lia;
      destruct H as [E | []]; discriminate.
  - unfold count; simpl. repeat split; try lia;
      destruct H as [E | [E | []]]; discriminate.
  - destruct (session_counts pre a signals (SetState error_) Hp Hs
                eq_refl eq_refl eq_refl) as (C1 & C2 & C3 & C4).
    repeat (split; [assumption |]).
    intros ms url Hin. exfalso.
    apply in_app_or in Hin as [Hin | Hin];
      [exact (sessionPrefix_no_navigation pre ms url Hp Hin) |].
    destruct Hin as [E | [E | [E | Hin]]]; try discriminate.
    apply in_app_or in Hin as [Hin | [E | []]];
      [apply Hs in Hin |]; discriminate.
  - destruct (session_counts pre a signals (SetTimeoutPush 1000 url) Hp Hs
                eq_refl eq_refl eq_refl) as (C1 & C2 & C3 & C4).
    repeat (split; [assumption |]).
    intros ms url' Hin.
    assert (E : SetTimeoutPush 1000 url = SetTimeoutPush ms url').
    { apply in_app_or in Hin as [Hin | Hin];
        [exfalso; exact (sessionPrefix_no_navigation pre ms url' Hp Hin) |].
      destruct Hin as [E | [E | [E | Hin]]]; try discriminate.
      apply in_app_or in Hin as [Hin | [E | []]];
        [apply Hs in Hin; discriminate | exact E]. }
    injection E as <- <-. split; [reflexivity |].
    exists a, pre, (SetState success :: GetCurrentUser
                   :: signals ++ [SetTimeoutPush 1000 url]).
    split; [reflexivity |].
    right. right. apply in_or_app. right. left. reflexivity.
Qed.

(** X13. When [processAuth] leaves the component in the success state, the
    whole run was: the code exchange (on the code path), the saving of the
    session, the change to success, the profile fetch with no change of
    state, and the scheduling of the navigation one second ahead. *)
Theorem processAuth_success_means_navigation
    (sp : option (list (string * string))) (browser : Browser)
    (exchange : ApiRun (ApiResult (Response AuthData)))
    (user : ApiRun (ApiResult UserResponse)) (w : World) :
  state (exec (processAuth sp browser exchange user) w) = success ->
  exists pre a url,
    sessionPrefix pre
    /\ effects (exec (processAuth sp browser exchange user) w) =
         effects w
         ++ pre
         ++ [SaveAuthData a; SetState success; GetCurrentUser;
             SetTimeoutPush 1000 url].
Proof.
  destruct (processAuth_settled sp browser exchange user w)
    as (st & fs & ar & up & added & Hrun & Hset).
  unfold exec. rewrite Hrun. simpl. intros ->.
  inversion Hset as [| | | pre a signals url Hp Hs Ha Hfs]; subst.
  destruct signals; [| discriminate].
  exists pre, a, url. split; [exact Hp | reflexivity].
Qed.

Lemma processAuth_success_means_navigation_witness :
  exists pre a url,
    sessionPrefix pre
    /\ effects (exec (processAuth (Some [("code", "xyz"); ("state", "%2Fdocs")])
                                  openBrowser exchangeConfirmed profileDelivered)
                     (mountedWorld None)) =
         effects (mountedWorld None)
         ++ pre
         ++ [SaveAuthData a; SetState success; GetCurrentUser;
             SetTimeoutPush 1000 url].
Proof.
  exact (processAuth_success_means_navigation
           (Some [("code", "xyz"); ("state", "%2Fdocs")])
           openBrowser exchangeConfirmed profileDelivered (mountedWorld None)
           eq_refl).
Defined.

(** ** The branches of [processAuth] *)

(** X14. A callback with neither a token nor a code (or with no parameters
    at all) is rejected at once: the state becomes error with a status text
    that says what is missing, and the service is not called, no session is
    saved, nothing is scheduled and the storages are left alone. *)
Theorem processAuth_without_credentials
    (sp : option (list (string * string))) (browser : Browser)
    (exchange : ApiRun (ApiResult (Response AuthData)))
    (user : ApiRun (ApiResult UserResponse)) (w : World) :
  JS.truthy (param sp "token") = false ->
  JS.truthy (param sp "code") = false ->
  processAuth sp browser exchange user w =
    (Ret tt,
     mkWorld (match sp with
              | Some _ => "未收到授权码或Token，请重新尝试登录"
              | None => "URL参数获取失败"
              end)
             error_ (mounted w) (auth_redirect w) (user_profile w)
             (effects w ++ [SetState error_])).
Proof.
  intros Ht Hc. unfold processAuth. destruct sp as [p |]; [| reflexivity].
  simpl in Ht, Hc.
  destruct (JS.get p "token") as [[| c t] |]; try discriminate;
    destruct (JS.get p "code") as [[| c' k] |]; try discriminate; reflexivity.
Qed.

Lemma processAuth_without_credentials_witness :
  processAuth (Some [("state", "%2Fdocs"); ("token", "")]) openBrowser
              exchangeConfirmed profileDelivered (mountedWorld None)
  = (Ret tt,
     mkWorld "未收到授权码或Token，请重新尝试登录" error_ true None None
             [SetState error_]).
Proof.
  exact (processAuth_without_credentials
           (Some [("state", "%2Fdocs"); ("token", "")]) openBrowser
           exchangeConfirmed profileDelivered (mountedWorld None)
           eq_refl eq_refl).
Defined.

(** The code path of [processAuth] up to the answer of the exchange. *)
Lemma processAuth_code_path (p : list (string * string)) (browser : Browser)
    (exchange : ApiRun (ApiResult (Response AuthData)))
    (user : ApiRun (ApiResult UserResponse)) (w : World) (code : string) :
  JS.truthy (JS.get p "token") = false ->
  JS.get p "code" = Some code ->
  JS.nonempty code = true ->
  exists st1,
    processAuth (Some p) browser exchange user w =
      let w1 := mkWorld st1 (state w) (mounted w) (auth_redirect w)
                        (user_profile w) (effects w ++ [GithubCallback code]) in
      match outcome exchange with
      | Ret r =>
          match error r with
          | Some (String c' m) =>
              try_catch (setStatus ("登录失败: " ++ String c' m) ;;
                         setState error_)%eff processAuthCatch w1
          | _ =>
              match data r with
              | Some d =>
                  if (resp_code d =? 200)%Z
                  then try_catch (handleAuthSuccess (Some p) browser (resp_data d) user)
                                 processAuthCatch w1
                  else try_catch
                         (setStatus ("登录失败: "
                                     ++ JS.or_default (resp_message d) "未知错误") ;;
                          setState error_)%eff processAuthCatch w1
              | None =>
                  try_catch (setStatus "登录失败: 未知错误" ;; setState error_)%eff
                            processAuthCatch w1
              end
          end
      | Throw e => processAuthCatch e w1
      end.
Proof.
  intros Ht Hc Hne. destruct code as [| c k]; [discriminate |].
  unfold processAuth. rewrite Hc.
  assert (Hbody :
            exists st1,
              try_catch
                (setStatus "正在与GitHub服务器通信..." ;;
                 emit (GithubCallback (String c k)) ;;
                 r <- await exchangeHandlers exchange ;;
                 match error r with
                 | Some (String c' m) =>
                     setStatus ("登录失败: " ++ String c' m) ;;
                     setState error_
                 | _ =>
                     match data r with
                     | Some d =>
                         if (resp_code d =? 200)%Z
                         then handleAuthSuccess (Some p) browser (resp_data d) user
                         else
                           setStatus ("登录失败: "
                                      ++ JS.or_default (resp_message d) "未知错误") ;;
                           setState error_
                     | None =>
                         setStatus "登录失败: 未知错误" ;;
                         setState error_
                     end
                 end)%eff
                processAuthCatch w =
              let w1 := mkWorld st1 (state w) (mounted w) (auth_redirect w)
                                (user_profile w)
                                (effects w ++ [GithubCallback (String c k)]) in
              match outcome exchange with
              | Ret r =>
                  match error r with
                  | Some (String c' m) =>
                      try_catch (setStatus ("登录失败: " ++ String c' m) ;;
                                 setState error_)%eff processAuthCatch w1
                  | _ =>
                      match data r with
                      | Some d =>
                          if (resp_code d =? 200)%Z
                          then try_catch
                                 (handleAuthSuccess (Some p) browser (resp_data d) user)
                                 processAuthCatch w1
                          else try_catch
                                 (setStatus ("登录失败: "
                                             ++ JS.or_default (resp_message d)
                                                              "未知错误") ;;
                                  setState error_)%eff processAuthCatch w1
                      | None =>
                          try_catch (setStatus "登录失败: 未知错误" ;;
                                     setState error_)%eff
                                    processAuthCatch w1
                      end
                  end
              | Throw e => processAuthCatch e w1
              end).
  { rewrite try_catch_bind. unfold setStatus at 1, modify at 1.
    rewrite try_catch_bind. unfold emit at 1, modify at 1.
    rewrite try_catch_bind.
    match goal with |- context [await exchangeHandlers exchange ?w1] =>
      destruct (await_exchangeHandlers exchange w1) as [st1 Hawait];
      rewrite Hawait
    end.
    exists st1. cbv zeta. unfold withStatus. simpl.
    destruct (outcome exchange) as [r | e]; [| reflexivity].
    destruct (error r) as [[| c' m] |]; try reflexivity;
      destruct (data r) as [d |]; try reflexivity;
      destruct (resp_code d =? 200)%Z; reflexivity. }
  destruct (JS.get p "token") as [[| c0 t] |]; try discriminate; exact Hbody.
Qed.

(** X15. On the code path, every answer of the exchange other than a
    response with code 200 (an error in the result, another code, no data, a
    rejected promise) ends in the error state after exactly one exchange
    call: no session is saved, no profile is fetched, nothing is scheduled
    and the storages are left alone.  When the promise resolved, the status
    text is the error of the result, else the message of the server, else a
    fixed text. *)
Theorem processAuth_exchange_failure
    (p : list (string * string)) (browser : Browser)
    (exchange : ApiRun (ApiResult (Response AuthData)))
    (user : ApiRun (ApiResult UserResponse)) (w : World) (code : string) :
  JS.truthy (JS.get p "token") = false ->
  JS.get p "code" = Some code ->
  JS.nonempty code = true ->
  (forall r d, outcome exchange = Ret r -> JS.truthy (error r) = false ->
               data r = Some d -> resp_code d <> 200%Z) ->
  exists st,
    processAuth (Some p) browser exchange user w =
      (Ret tt,
       mkWorld st error_ (mounted w) (auth_redirect w) (user_profile w)
               (effects w ++ [GithubCallback code; SetState error_]))
    /\ forall r, outcome exchange = Ret r -> st = exchangeFailureStatus r.
Proof.
  intros Ht Hc Hne Hfail.
  destruct (processAuth_code_path p browser exchange user w code Ht Hc Hne)
    as [st1 ->].
  cbv zeta. unfold exchangeFailureStatus.
  destruct (outcome exchange) as [r | e].
  - specialize (Hfail r).
    assert (Hdone : forall st,
               try_catch (setStatus st ;; setState error_)%eff processAuthCatch
                 (mkWorld st1 (state w) (mounted w) (auth_redirect w)
                          (user_profile w) (effects w ++ [GithubCallback code]))
               = (Ret tt,
                  mkWorld st error_ (mounted w) (auth_redirect w) (user_profile w)
                          (effects w ++ [GithubCallback code; SetState error_]))).
    { intros st. unfold try_catch, bind, setStatus, setState, emit, modify.
      simpl. now rewrite <- app_assoc. }
    destruct (error r) as [[| c' m] |] eqn:Eerr.
    + destruct (data r) as [d |] eqn:Ed.
      * specialize (Hfail d eq_refl eq_refl eq_refl).
        apply Z.eqb_neq in Hfail. rewrite Hfail, Hdone.
        eexists. split; [reflexivity |].
        intros r' E. injection E as <-. now rewrite Eerr, Ed.
      * rewrite Hdone. eexists. split; [reflexivity |].
        intros r' E. injection E as <-. now rewrite Eerr, Ed.
    + rewrite Hdone. eexists. split; [reflexivity |].
      intros r' E. injection E as <-. now rewrite Eerr.
    + destruct (data r) as [d |] eqn:Ed.
      * specialize (Hfail d eq_refl eq_refl eq_refl).
        apply Z.eqb_neq in Hfail. rewrite Hfail, Hdone.
        eexists. split; [reflexivity |].
        intros r' E. injection E as <-. now rewrite Eerr, Ed.
      * rewrite Hdone. eexists. split; [reflexivity |].
        intros r' E. injection E as <-. now rewrite Eerr, Ed.
  - match goal with |- context [processAuthCatch e ?w1] =>
      destruct (processAuthCatch_result e w1) as [st Hcatch]; rewrite Hcatch end.
    exists st. simpl. rewrite <- app_assoc. split; [reflexivity |].
    intros r E. discriminate.
Qed.

Lemma processAuth_exchange_failure_witness :
  exists st,
    processAuth (Some [("code", "xyz")]) openBrowser exchangeRefused
                profileDelivered (mountedWorld None)
    = (Ret tt,
       mkWorld st error_ true None None [GithubCallback "xyz"; SetState error_])
    /\ forall r, outcome exchangeRefused = Ret r -> st = exchangeFailureStatus r.
Proof.
  apply (processAuth_exchange_failure
           [("code", "xyz")] openBrowser exchangeRefused profileDelivered
           (mountedWorld None) "xyz" eq_refl eq_refl eq_refl).
  intros r d E. injection E as <-. discriminate.
Defined.

(** X16. On the code path, a response of the exchange with code 200 is
    handled like a token in the URL: after the one exchange call the session
    of the response is saved, the state set to success and the profile
    fetched, and the run ends with the navigation scheduled one second ahead
    or, if the redirect target cannot be computed, with the change to
    error. *)
Theorem processAuth_exchange_success
    (p : list (string * string)) (browser : Browser)
    (exchange : ApiRun (ApiResult (Response AuthData)))
    (user : ApiRun (ApiResult UserResponse)) (w : World) (code : string)
    (r : ApiResult (Response AuthData)) (d : Response AuthData) :
  JS.truthy (JS.get p "token") = false ->
  JS.get p "code" = Some code ->
  JS.nonempty code = true ->
  outcome exchange = Ret r ->
  JS.truthy (error r) = false ->
  data r = Some d ->
  resp_code d = 200%Z ->
  exists tail,
    effects (exec (processAuth (Some p) browser exchange user) w) =
      effects w
      ++ GithubCallback code :: SaveAuthData (resp_data d) :: SetState success
      :: GetCurrentUser :: profileSignals (invoked user) ++ [tail]
    /\ (tail = SetState error_ \/ exists url, tail = SetTimeoutPush 1000 url).
Proof.
  intros Ht Hc Hne Hout Herr Hd Hcode.
  destruct (processAuth_code_path p browser exchange user w code Ht Hc Hne)
    as [st1 Hrun].
  unfold exec. rewrite Hrun, Hout, Hd, Hcode. cbv zeta. simpl.
  assert (Hok : match error r with
                | Some (String _ _) => False
                | _ => True
                end).
  { unfold JS.truthy in Herr. destruct (error r) as [[| c' m] |];
      [exact I | discriminate | exact I]. }
  match goal with |- context [try_catch (handleAuthSuccess _ _ _ _) _ ?w1] =>
    destruct (handleAuthSuccess_caught (Some p) browser (resp_data d) user w1)
      as (st & fs & ar & up & tail & Hcaught & Htail)
  end.
  exists tail. split.
  - destruct (error r) as [[| c' m] |]; try contradiction;
      rewrite Hcaught; simpl; rewrite <- app_assoc; reflexivity.
  - destruct Htail as [[-> _] | (url & -> & _)]; [now left | right; now exists url].
Qed.

Lemma processAuth_exchange_success_witness :
  exists tail,
    effects (exec (processAuth (Some [("code", "xyz")]) openBrowser
                               exchangeConfirmed profileDelivered)
                  (mountedWorld None)) =
      effects (mountedWorld None)
      ++ GithubCallback "xyz"
      :: SaveAuthData (mkAuthData "t0k" None None None None)
      :: SetState success
      :: GetCurrentUser :: profileSignals (invoked profileDelivered) ++ [tail]
    /\ (tail = SetState error_ \/ exists url, tail = SetTimeoutPush 1000 url).
Proof.
  exact (processAuth_exchange_success
           [("code", "xyz")] openBrowser exchangeConfirmed profileDelivered
           (mountedWorld None) "xyz"
           (mkApiResult
              (Some (mkResponse 200 None (mkAuthData "t0k" None None None None)))
              None)
           (mkResponse 200 None (mkAuthData "t0k" None None None None))
           eq_refl eq_refl eq_refl eq_refl eq_refl eq_refl eq_refl).
Defined.

(** ** The sources of the redirect target, one by one *)

(** X17. A [state] parameter that is not empty and percent-decodes decides
    the target alone: whatever the other hints hold, even hints that do not
    decode, [getRedirectUrl] returns the decoded [state] and leaves the
    stashed redirect in place. *)
Theorem getRedirectUrl_state_wins
    (p : list (string * string)) (browser : Browser) (w : World)
    (st url : string) :
  JS.get p "state" = Some st ->
  JS.nonempty st = true ->
  JS.decodeURIComponent st = Some url ->
  getRedirectUrl (Some p) browser w = (Ret url, w).
Proof.
  intros Hget Hne Hdec.
  unfold getRedirectUrl, bind at 1. rewrite fromState_result, Hget.
  unfold decoded. now rewrite Hne, Hdec.
Qed.

Lemma getRedirectUrl_state_wins_witness :
  getRedirectUrl (Some [("redirect_to", "%"); ("state", "%2Fdocs")]) openBrowser
                 (mountedWorld (Some "/settings"))
  = (Ret "/docs", mountedWorld (Some "/settings")).
Proof.
  exact (getRedirectUrl_state_wins
           [("redirect_to", "%"); ("state", "%2Fdocs")] openBrowser
           (mountedWorld (Some "/settings")) "%2Fdocs" "/docs"
           eq_refl eq_refl eq_refl).
Defined.

(** X18. When [state] gives nothing (it is absent, empty or does not
    decode), the target is the decoded [redirect_to] if that parameter is not
    empty, and else the decoded [returnTo]; the stashed redirect is left in
    place. *)
Theorem getRedirectUrl_redirect_to_before_returnTo
    (p : list (string * string)) (browser : Browser) (w : World)
    (hint url : string) :
  decoded (JS.get p "state") = None ->
  (if JS.truthy (JS.get p "redirect_to")
   then JS.get p "redirect_to"
   else JS.get p "returnTo") = Some hint ->
  JS.nonempty hint = true ->
  JS.decodeURIComponent hint = Some url ->
  getRedirectUrl (Some p) browser w = (Ret url, w).
Proof.
  intros Hst Hhint Hne Hdec.
  unfold getRedirectUrl, bind at 1. rewrite fromState_result, Hst.
  unfold bind at 1, fromRedirectTo, param, JS.or_else.
  rewrite Hhint, Hne. unfold bind, decodeURIComponent. now rewrite Hdec.
Qed.

Lemma getRedirectUrl_redirect_to_before_returnTo_witness :
  getRedirectUrl
    (Some [("returnTo", "%2Fold"); ("redirect_to", "%2Fteam"); ("state", "%")])
    openBrowser (mountedWorld (Some "/settings"))
  = (Ret "/team", mountedWorld (Some "/settings")).
Proof.
  exact (getRedirectUrl_redirect_to_before_returnTo
           [("returnTo", "%2Fold"); ("redirect_to", "%2Fteam"); ("state", "%")]
           openBrowser (mountedWorld (Some "/settings")) "%2Fteam" "/team"
           eq_refl eq_refl eq_refl eq_refl).
Defined.

Lemma getRedirectUrl_no_hints
    (p : list (string * string)) (browser : Browser) (w : World) :
  decoded (JS.get p "state") = None ->
  JS.truthy (JS.or_else (JS.get p "redirect_to") (JS.get p "returnTo")) = false ->
  getRedirectUrl (Some p) browser w =
    match fromSessionStorage browser w with
    | (Ret (Some url), w') => (Ret url, w')
    | (Ret None, w') => (Ret "/", w')
    | (Throw e, w') => (Throw e, w')
    end.
Proof.
  intros Hst Hhint.
  unfold getRedirectUrl, bind at 1. rewrite fromState_result, Hst.
  unfold bind at 1, fromRedirectTo, param.
  destruct (JS.or_else _ _) as [r |]; simpl in Hhint.
  - rewrite Hhint. cbv beta iota delta [bind ret].
    destruct (fromSessionStorage browser w) as [[[url |] | e] w']; reflexivity.
  - cbv beta iota delta [bind ret].
    destruct (fromSessionStorage browser w) as [[[url |] | e] w']; reflexivity.
Qed.

(** X19. The stashed redirect is used once.  With no usable hint in the
    URL, a mounted component in a browser whose session storage can be read
    returns the stashed value and erases it; a second call then returns the
    root and changes nothing. *)
Theorem getRedirectUrl_stash_single_use
    (p : list (string * string)) (browser : Browser) (w : World)
    (saved : string) :
  decoded (JS.get p "state") = None ->
  JS.truthy (JS.or_else (JS.get p "redirect_to") (JS.get p "returnTo")) = false ->
  mounted w = true ->
  hasWindow browser = true ->
  sessionStorageReadable browser = true ->
  auth_redirect w = Some saved ->
  JS.nonempty saved = true ->
  getRedirectUrl (Some p) browser w = (Ret saved, withStash None w)
  /\ getRedirectUrl (Some p) browser (withStash None w)
     = (Ret "/", withStash None w).
Proof.
  intros Hst Hhint Hm Hw Hr Hsaved Hne.
  rewrite !getRedirectUrl_no_hints by assumption.
  rewrite !fromSessionStorage_result by assumption.
  rewrite Hsaved. destruct saved as [| c v]; [discriminate |].
  split; reflexivity.
Qed.

Lemma getRedirectUrl_stash_single_use_witness :
  getRedirectUrl (Some [("state", "")]) openBrowser
                 (mountedWorld (Some "/settings"))
  = (Ret "/settings", withStash None (mountedWorld (Some "/settings")))
  /\ getRedirectUrl (Some [("state", "")]) openBrowser
                    (withStash None (mountedWorld (Some "/settings")))
     = (Ret "/", withStash None (mountedWorld (Some "/settings"))).
Proof.
  exact (getRedirectUrl_stash_single_use
           [("state", "")] openBrowser (mountedWorld (Some "/settings"))
           "/settings" eq_refl eq_refl eq_refl eq_refl eq_refl eq_refl eq_refl).
Defined.

(** X20. The stash is not consulted, and so not erased, when the component
    is not mounted, when there is no [window], when reading the session
    storage throws, or when the stashed value is empty or missing: with no
    usable hint in the URL the target is then the root and nothing is
    changed. *)
Theorem getRedirectUrl_falls_back_to_root
    (p : list (string * string)) (browser : Browser) (w : World) :
  decoded (JS.get p "state") = None ->
  JS.truthy (JS.or_else (JS.get p "redirect_to") (JS.get p "returnTo")) = false ->
  mounted w = false \/ hasWindow browser = false
  \/ sessionStorageReadable browser = false
  \/ JS.truthy (auth_redirect w) = false ->
  getRedirectUrl (Some p) browser w = (Ret "/", w).
Proof.
  intros Hst Hhint Hno.
  rewrite getRedirectUrl_no_hints by assumption.
  unfold fromSessionStorage, bind at 1, gets at 1.
  destruct (mounted w) eqn:Em; [| reflexivity].
  destruct (hasWindow browser) eqn:Ew; [| reflexivity]. simpl.
  unfold try_catch, bind, getSavedRedirect.
  destruct (sessionStorageReadable browser) eqn:Er; [| reflexivity].
  unfold gets.
  destruct Hno as [E | [E | [E | E]]]; try discriminate.
  destruct (auth_redirect w) as [[| c v] |]; try discriminate; reflexivity.
Qed.

Lemma getRedirectUrl_falls_back_to_root_witness :
  getRedirectUrl (Some []) (mkBrowser true true false)
                 (mountedWorld (Some "/settings"))
  = (Ret "/", mountedWorld (Some "/settings")).
Proof.
  exact (getRedirectUrl_falls_back_to_root
           [] (mkBrowser true true false) (mountedWorld (Some "/settings"))
           eq_refl eq_refl (or_intror (or_intror (or_introl eq_refl)))).
Defined.

(** What [decodeURIComponent] makes of a text that is not empty is not
    empty. *)
Lemma uriAssemble_nonempty (t : JS.UriToken) (ts : list JS.UriToken)
    (v : string) :
  JS.uriAssemble (t :: ts) = Some v -> JS.nonempty v = true.
Proof.
  destruct t as [c | b1]; simpl.
  - destruct (JS.uriAssemble ts); intros E; inversion E; reflexivity.
  - repeat match goal with
           | |- context [if ?b then _ else _] => destruct b
           | |- context [match ?x with _ => _ end] => destruct x
           end;
      intros E; inversion E; reflexivity.
Qed.

Lemma decodeURIComponent_nonempty (s v : string) :
  JS.nonempty s = true ->
  JS.decodeURIComponent s = Some v ->
  JS.nonempty v = true.
Proof.
  unfold JS.decodeURIComponent. destruct s as [| c rest]; [discriminate |].
  intros _. simpl.
  destruct (Ascii.eqb c "%").
  - destruct rest as [| h [| l rest']]; try discriminate.
    destruct (JS.hexval h); try discriminate.
    destruct (JS.hexval l); try discriminate.
    destruct (JS.uriTokens rest'); try discriminate.
    apply uriAssemble_nonempty.
  - destruct (JS.uriTokens rest); try discriminate.
    apply uriAssemble_nonempty.
Qed.

(** X21. The target [getRedirectUrl] returns is never the empty string,
    whatever the parameters, the browser and the stash hold: navigation is
    never asked to go to an empty path. *)
Theorem getRedirectUrl_never_empty
    (sp : option (list (string * string))) (browser : Browser) (w w' : World)
    (url : string) :
  getRedirectUrl sp browser w = (Ret url, w') ->
  JS.nonempty url = true.
Proof.
  unfold getRedirectUrl, bind at 1.
  assert (H1 : forall a w1, fromState sp w = (Ret (Some a), w1) ->
                            JS.nonempty a = true).
  { unfold fromState. destruct (param sp "state") as [st |]; [| discriminate].
    destruct (JS.nonempty st) eqn:Ne; [| discriminate].
    unfold try_catch, bind, decodeURIComponent.
    destruct (JS.decodeURIComponent st) as [v |] eqn:Ed; [| discriminate].
    intros a w1 E. inversion E; subst.
    eapply decodeURIComponent_nonempty; eassumption. }
  destruct (fromState sp w) as [[[a |] | e] w1]; [| | discriminate].
  { intros E. inversion E; subst. eapply H1. reflexivity. }
  clear H1. unfold bind at 1.
  assert (H2 : forall b w2, fromRedirectTo sp w1 = (Ret (Some b), w2) ->
                            JS.nonempty b = true).
  { unfold fromRedirectTo.
    destruct (JS.or_else _ _) as [r |]; [| discriminate].
    destruct (JS.nonempty r) eqn:Ne; [| discriminate].
    unfold bind, decodeURIComponent.
    destruct (JS.decodeURIComponent r) as [v |] eqn:Ed; [| discriminate].
    intros b w2 E. inversion E; subst.
    eapply decodeURIComponent_nonempty; eassumption. }
  destruct (fromRedirectTo sp w1) as [[[b |] | e] w2]; [| | discriminate].
  { intros E. inversion E; subst. eapply H2. reflexivity. }
  clear H2. unfold bind.
  assert (H3 : forall c w3, fromSessionStorage browser w2 = (Ret (Some c), w3) ->
                            JS.nonempty c = true).
  { unfold fromSessionStorage, bind at 1, gets at 1.
    destruct (mounted w2 && hasWindow browser); [| discriminate].
    unfold try_catch, bind, getSavedRedirect.
    destruct (sessionStorageReadable browser); [| discriminate].
    unfold gets.
    destruct (auth_redirect w2) as [[| c v] |]; try discriminate.
    intros c0 w3 E. inversion E; subst. reflexivity. }
  destruct (fromSessionStorage browser w2) as [[[c |] | e] w3];
    [| | discriminate].
  - intros E. inversion E; subst. eapply H3. reflexivity.
  - intros E. inversion E; subst. reflexivity.
Qed.

Lemma getRedirectUrl_never_empty_witness :
  JS.nonempty "/docs" = true.
Proof.
  exact (getRedirectUrl_never_empty
           (Some [("state", "%2Fdocs")]) openBrowser
           (mountedWorld None) (mountedWorld None) "/docs" eq_refl).
Defined.

Lemma uriTokens_no_percent (s : string) :
  JS.includes s "%" = false ->
  JS.uriTokens s = Some (map JS.Lit (list_ascii_of_string s)).
Proof.
  induction s as [| c rest IH]; intros H; [reflexivity |].
  cbn [JS.includes JS.startsWith] in H.
  apply orb_false_iff in H as [Hc Hrest].
  assert (Ec : Ascii.eqb c "%" = false).
  { destruct (Ascii.eqb c "%"); [| reflexivity].
    simpl in Hc. destruct rest; discriminate. }
  simpl. rewrite Ec, (IH Hrest). reflexivity.
Qed.

Lemma uriAssemble_literals (s : string) :
  JS.uriAssemble (map JS.Lit (list_ascii_of_string s)) = Some s.
Proof.
  induction s as [| c rest IH]; simpl; [reflexivity |]. now rewrite IH.
Qed.

(** X22. A [state] parameter without a percent sign is the target as it
    stands: a path such as [/docs] handed over unescaped comes back
    unchanged. *)
Theorem getRedirectUrl_plain_state_verbatim
    (p : list (string * string)) (browser : Browser) (w : World)
    (st : string) :
  JS.get p "state" = Some st ->
  JS.nonempty st = true ->
  JS.includes st "%" = false ->
  getRedirectUrl (Some p) browser w = (Ret st, w).
Proof.
  intros Hget Hne Hplain.
  unfold getRedirectUrl, bind at 1. rewrite fromState_result, Hget.
  unfold decoded, JS.decodeURIComponent.
  now rewrite Hne, (uriTokens_no_percent st Hplain), uriAssemble_literals.
Qed.

Lemma getRedirectUrl_plain_state_verbatim_witness :
  getRedirectUrl (Some [("state", "/docs/intro?tab=2")]) openBrowser
                 (mountedWorld None)
  = (Ret "/docs/intro?tab=2", mountedWorld None).
Proof.
  exact (getRedirectUrl_plain_state_verbatim
           [("state", "/docs/intro?tab=2")] openBrowser (mountedWorld None)
           "/docs/intro?tab=2" eq_refl eq_refl eq_refl).
Defined.

(** ** After the session is saved *)

Lemma handleAuthSuccess_schedules_redirect_witness :
  exists url,
    effects (exec (handleAuthSuccess (Some [("state", "%2Fdocs")]) openBrowser
                                     (mkAuthData "t0k" None None None None)
                                     profileUnauthorized)
                  (mountedWorld None)) =
      effects (mountedWorld None)
      ++ SaveAuthData (mkAuthData "t0k" None None None None)
      :: SetState success :: GetCurrentUser
      :: profileSignals (invoked profileUnauthorized)
      ++ [SetTimeoutPush 1000 url].
Proof.
  apply (handleAuthSuccess_schedules_redirect
           [("state", "%2Fdocs")] openBrowser
           (mkAuthData "t0k" None None None None) profileUnauthorized
           (mountedWorld None)).
  left. vm_compute. discriminate.
Defined.

(** X24. The profile fetch of [handleAuthSuccess] never throws, and it
    overwrites the cached profile only with a profile that was delivered, in
    a browser with a [window] and a writable local storage; in every other
    case the cached profile stays what it was.  The stashed redirect is not
    touched. *)
Theorem fetchProfile_caches_delivered_profile
    (browser : Browser) (user : ApiRun (ApiResult UserResponse)) (w : World) :
  fst (fetchProfile browser user w) = Ret tt
  /\ user_profile (exec (fetchProfile browser user) w) =
       match deliveredProfile user with
       | Some text =>
           if hasWindow browser && localStorageWritable browser
           then Some text
           else user_profile w
       | None => user_profile w
       end
  /\ auth_redirect (exec (fetchProfile browser user) w) = auth_redirect w.
Proof.
  destruct (fetchProfile_result browser user w) as (st & up & Hres).
  unfold exec. rewrite Hres. simpl.
  split; [reflexivity |]. split; [| reflexivity].
  assert (Hup : up = user_profile (snd (fetchProfile browser user w)))
    by now rewrite Hres.
  rewrite Hup. clear Hres Hup.
  unfold fetchProfile, try_catch, await, deliveredProfile.
  unfold bind at 1. unfold emit at 1, modify at 1.
  unfold bind at 1. unfold bind at 1.
  match goal with |- context [runHandlers _ _ ?w1] =>
    destruct (runHandlers_profileHandlers (invoked user) w1) as [st1 Hst];
    rewrite Hst end.
  destruct (outcome user) as [u | e]; simpl; [| reflexivity].
  destruct (data u) as [userResponse |]; simpl; [| reflexivity].
  destruct (profile userResponse) as [text |]; simpl; [| reflexivity].
  destruct (hasWindow browser); simpl; [| reflexivity].
  unfold storeProfile. destruct (localStorageWritable browser); reflexivity.
Qed.

(** ** The component from mount to settlement *)

(** X25. The authentication effect waits for the mount effect: run before
    it, it does nothing at all; run after it, it takes the component out of
    the loading state for good, whatever the callback URL, the browser and
    the answers of the service are. *)
Theorem component_effects_leave_loading
    (stash cached : option string) (sp : option (list (string * string)))
    (browser : Browser)
    (exchange : ApiRun (ApiResult (Response AuthData)))
    (user : ApiRun (ApiResult UserResponse)) :
  exec (authEffect sp browser exchange user) (initial stash cached)
  = initial stash cached
  /\ state (exec (authEffect sp browser exchange user)
                 (exec mountEffect (initial stash cached)))
     <> loading.
Proof.
  split; [reflexivity |].
  change (exec (authEffect sp browser exchange user)
               (exec mountEffect (initial stash cached)))
    with (exec (processAuth sp browser exchange user)
               (exec mountEffect (initial stash cached))).
  destruct (processAuth_settled sp browser exchange user
              (exec mountEffect (initial stash cached)))
    as (st & fs & ar & up & added & Hrun & Hset).
  unfold exec at 1. rewrite Hrun. simpl.
  eapply settled_not_loading, Hset.
Qed.

Lemma redirectToDecodes_false (p : list (string * string)) :
  redirectToDecodes p = false <->
  exists hint,
    (if JS.truthy (JS.get p "redirect_to")
     then JS.get p "redirect_to" else JS.get p "returnTo") = Some hint
    /\ hint <> EmptyString
    /\ JS.decodeURIComponent hint = None.
Proof.
  unfold redirectToDecodes, JS.or_else.
  destruct (if JS.truthy (JS.get p "redirect_to")
            then JS.get p "redirect_to" else JS.get p "returnTo")
    as [[| c r] |]; simpl.
  - split; [discriminate | intros (hint & E & Hne & _)].
    injection E as <-. contradiction.
  - destruct (JS.decodeURIComponent (String c r)) eqn:Ed; split.
    + discriminate.
    + intros (hint & E & _ & Hd). injection E as <-. congruence.
    + intros _. exists (String c r). repeat split; [discriminate | exact Ed].
    + reflexivity.
  - split; [discriminate | intros (hint & E & _)]. discriminate.
Qed.

(** X27. [getRedirectUrl] throws in one situation only: [state] gives
    nothing and the hint picked from [redirect_to] and [returnTo] is not
    empty and does not percent-decode.  In that situation it throws
    [URIError] and leaves the world, stash included, as it was; it throws no
    other exception and never throws from another world. *)
Theorem getRedirectUrl_throws_iff
    (p : list (string * string)) (browser : Browser) (w : World) :
  (forall e w', getRedirectUrl (Some p) browser w = (Throw e, w') ->
                e = JS.URIError /\ w' = w)
  /\ (getRedirectUrl (Some p) browser w = (Throw JS.URIError, w)
      <-> decoded (JS.get p "state") = None
          /\ exists hint,
               (if JS.truthy (JS.get p "redirect_to")
                then JS.get p "redirect_to" else JS.get p "returnTo")
               = Some hint
               /\ hint <> EmptyString
               /\ JS.decodeURIComponent hint = None).
Proof.
  assert (Hcases : (decoded (JS.get p "state") = None
                    /\ redirectToDecodes p = false)
                   \/ exists url v,
                        getRedirectUrl (Some p) browser w
                        = (Ret url, withStash v w)).
  { destruct (decoded (JS.get p "state")) as [url |] eqn:Est.
    - right. apply getRedirectUrl_returns. left. rewrite Est. discriminate.
    - destruct (redirectToDecodes p) eqn:Ed.
      + right. apply getRedirectUrl_returns. now right.
      + left. split; reflexivity. }
  split.
  - intros e w' H.
    destruct Hcases as [[Hst Hdec] | (url & v & Hret)].
    + rewrite (getRedirectUrl_throws p browser w Hst Hdec) in H.
      injection H as <- <-. split; reflexivity.
    + rewrite Hret in H. discriminate.
  - rewrite <- redirectToDecodes_false. split.
    + intros H. destruct Hcases as [Hc | (url & v & Hret)]; [exact Hc |].
      rewrite Hret in H. discriminate.
    + intros [Hst Hdec]. now apply getRedirectUrl_throws.
Qed.

End AuthCallbackFacts.
